(** * CuDNNConvolutionLayer: resource lifecycle, descriptors, algorithm
      selection and workspace sizing

    Shallow embedding of [src/caffe/layers/cudnn_conv_layer.cpp].

    The file binds a convolution layer to the cuDNN library.  Everything it
    does is a call into the CUDA runtime or cuDNN, or bookkeeping around such
    a call.  The embedding therefore has three parts:

    - [World]: the state that lives on the vendor side (streams, handles,
      descriptors with the shapes they were given, device allocations) and
      the host heap blocks obtained with [new[]];
    - [Vendor]: what the vendor library decides (enumerator values of
      [cudnn.h], status of calls, heuristic answers, device pointers);
      every theorem quantifies over it;
    - [Layer]: the members of the C++ object.

    The development covers the two builds of the [#else] branch of
    [USE_CUDNN_FRONTEND] (cuDNN >= 8 and older cuDNN) and, apart from them,
    the build with the frontend.  The calls
    [ConvolutionLayer::LayerSetUp] and [ConvolutionLayer::Reshape] on the
    first line of the two methods belong to the base class: their effect is
    the [base] component of the layer the functions below receive.

    [int] arithmetic is carried out in [Z] (signed overflow is undefined in
    C++); [size_t] arithmetic wraps modulo 2^64.  Log output is not
    modelled. *)

From Stdlib Require Import ZArith Lia Sorted.
From stdpp Require Import base option list.

Local Open Scope Z_scope.

(** ** Outcomes *)

Inductive failure :=
| CHECK_failed          (* glog CHECK_EQ *)
| cuda_error            (* CUDA_CHECK on a status other than cudaSuccess *)
| cudnn_error           (* CUDNN_CHECK on a status other than SUCCESS *)
| undefined_behaviour.  (* index out of range, division by zero, bad new[] *)

Inductive outcome (A : Type) :=
| Ok (a : A)
| Fatal (f : failure).
Arguments Ok {A} a.
Arguments Fatal {A} f.

Definition obind {A B} (c : outcome A) (k : A -> outcome B) : outcome B :=
  match c with
  | Ok a => k a
  | Fatal f => Fatal f
  end.

Notation "'do' x <- c ; k" := (obind c (fun x => k))
  (at level 10, x name, c at level 100, k at level 200).
Notation "'do' ' p <- c ; k" := (obind c (fun x => match x with p => k end))
  (at level 10, p pattern, c at level 100, k at level 200).

Definition is_Ok {A} (c : outcome A) : Prop := exists a, c = Ok a.

(** [for (i = ...; ...; i++) body], over the indices [ix], with early exit on
    a fatal outcome. *)
Fixpoint for_loop {St} (body : nat -> St -> outcome St) (ix : list nat)
    (s : St)
  : outcome St :=
  match ix with
  | [] => Ok s
  | i :: ix => do s' <- body i s; for_loop body ix s'
  end.

(** ** Machine arithmetic *)

Definition size_t_modulus : Z := 2 ^ 64.
Definition to_size_t (z : Z) : Z := z mod size_t_modulus.
Definition size_mul (a b : Z) : Z := to_size_t (a * b).

(** [a / b] on [int]: truncation toward zero. *)
Definition idiv (a b : Z) : outcome Z :=
  if b =? 0 then Fatal undefined_behaviour else Ok (Z.quot a b).

(** [v[i]] on a [std::vector] or a raw array. *)
Definition index {A} (l : list A) (i : nat) : outcome A :=
  match l !! i with
  | Some x => Ok x
  | None => Fatal undefined_behaviour
  end.

(** [v[i] = x]. *)
Definition assign {A} (l : list A) (i : nat) (x : A) : outcome (list A) :=
  if decide (i < length l)%nat then Ok (<[i:=x]> l)
  else Fatal undefined_behaviour.

(** ** Blobs *)

(** The blob class belongs to the framework; the layer only calls
    [Blob::shape(index)], which fails a CHECK on an axis that does not
    exist. *)
Record Blob := { shape : Z -> outcome Z }.

(** ** Vendor-side objects *)

(** What a tensor descriptor was told: [setTensor4dDesc] with or without
    explicit strides. *)
Record Tensor4d := {
  t_n : Z; t_c : Z; t_h : Z; t_w : Z;
  t_strides : option (Z * Z * Z * Z)
}.

Record Filter4d := { f_n : Z; f_c : Z; f_h : Z; f_w : Z }.

Record Conv2d := {
  c_bottom : nat; c_filter : nat;
  c_pad_h : Z; c_pad_w : Z; c_stride_h : Z; c_stride_w : Z
}.

(** An object table: the id of an object is its position; [None] marks a
    destroyed object. *)
Abbreviation store A := (list (option A)).

Definition st_new {A} (x : A) (s : store A) : nat * store A :=
  (length s, s ++ [Some x]).
Definition st_get {A} (s : store A) (i : nat) : option A := s !! i ≫= id.
Definition st_put {A} (i : nat) (x : A) (s : store A) : option (store A) :=
  match st_get s i with
  | Some _ => Some (<[i:=Some x]> s)
  | None => None
  end.
Definition st_del {A} (i : nat) (s : store A) : store A := <[i:=None]> s.
Definition st_live {A} (s : store A) (i : nat) : Prop := is_Some (st_get s i).
Definition st_count {A} (s : store A) : nat :=
  length (filter (fun o => is_Some o) s).

#[local] Set Primitive Projections.

Record World := {
  w_streams : store unit;                 (* cudaStream_t *)
  w_handles : store (option nat);         (* cudnnHandle_t, with its stream *)
  w_tensors : store (option Tensor4d);    (* cudnnTensorDescriptor_t *)
  w_filters : store Filter4d;             (* cudnnFilterDescriptor_t *)
  w_convs   : store (option Conv2d);      (* cudnnConvolutionDescriptor_t *)
  w_gpu     : list (Z * Z);               (* device blocks: address, size *)
  w_heap    : store unit                  (* host blocks from new[] *)
}.

Definition set_w_streams (x : store unit) (w : World) : World :=
  {| w_streams := x; w_handles := w_handles w; w_tensors := w_tensors w;
     w_filters := w_filters w; w_convs := w_convs w; w_gpu := w_gpu w;
     w_heap := w_heap w |}.
Definition set_w_handles (x : store (option nat)) (w : World) : World :=
  {| w_streams := w_streams w; w_handles := x; w_tensors := w_tensors w;
     w_filters := w_filters w; w_convs := w_convs w; w_gpu := w_gpu w;
     w_heap := w_heap w |}.
Definition set_w_tensors (x : store (option Tensor4d)) (w : World) : World :=
  {| w_streams := w_streams w; w_handles := w_handles w; w_tensors := x;
     w_filters := w_filters w; w_convs := w_convs w; w_gpu := w_gpu w;
     w_heap := w_heap w |}.
Definition set_w_filters (x : store Filter4d) (w : World) : World :=
  {| w_streams := w_streams w; w_handles := w_handles w;
     w_tensors := w_tensors w; w_filters := x; w_convs := w_convs w;
     w_gpu := w_gpu w; w_heap := w_heap w |}.
Definition set_w_convs (x : store (option Conv2d)) (w : World) : World :=
  {| w_streams := w_streams w; w_handles := w_handles w;
     w_tensors := w_tensors w; w_filters := w_filters w; w_convs := x;
     w_gpu := w_gpu w; w_heap := w_heap w |}.
Definition set_w_gpu (x : list (Z * Z)) (w : World) : World :=
  {| w_streams := w_streams w; w_handles := w_handles w;
     w_tensors := w_tensors w; w_filters := w_filters w;
     w_convs := w_convs w; w_gpu := x; w_heap := w_heap w |}.
Definition set_w_heap (x : store unit) (w : World) : World :=
  {| w_streams := w_streams w; w_handles := w_handles w;
     w_tensors := w_tensors w; w_filters := w_filters w;
     w_convs := w_convs w; w_gpu := w_gpu w; w_heap := x |}.

#[local] Unset Primitive Projections.

(** One entry of [cudnnConvolutionFwdAlgoPerf_t] /
    [cudnnConvolutionBwdDataAlgoPerf_t]; the fields the layer reads. *)
Record AlgoPerf := { algo : Z; status : Z; memory : Z }.

(** What the vendor library decides.  Enumerators are the integers of
    [cudnn.h]; calls that report a status return [false] / [None] on any
    status other than success.  [junk_id] and [junk_Z] stand for the
    indeterminate value of an element of [new T[n]] before its first
    assignment. *)
Record Vendor := {
  CUDNN_VERSION_MIN_8 : bool;       (* CUDNN_VERSION_MIN(8, 0, 0) *)
  junk_id : nat;
  junk_Z : Z;
  CUDNN_STATUS_SUCCESS : Z;
  CUDNN_CONVOLUTION_FWD_ALGO_IMPLICIT_GEMM : Z;
  CUDNN_CONVOLUTION_FWD_ALGO_WINOGRAD_NONFUSED : Z;
  CUDNN_CONVOLUTION_BWD_FILTER_ALGO_0 : Z;
  CUDNN_CONVOLUTION_BWD_FILTER_ALGO_1 : Z;
  CUDNN_CONVOLUTION_BWD_DATA_ALGO_0 : Z;
  CUDNN_CONVOLUTION_BWD_DATA_ALGO_WINOGRAD : Z;
  CUDNN_CONVOLUTION_BWD_DATA_ALGO_WINOGRAD_NONFUSED : Z;
  cudaStreamCreate_ok : World -> bool;
  cudnnCreate_ok : World -> bool;
  cudnnSetStream_ok : World -> nat -> nat -> bool;
  (* free device memory reported by cudaMemGetInfo *)
  cudaMemGetInfo_free : World -> Z;
  (* device pointer on success *)
  cudaMalloc_result : World -> Z -> option Z;
  (* handle, bottom, filter, conv, top, requestedAlgoCount *)
  cudnnGetConvolutionForwardAlgorithm_v7 :
    World -> nat -> nat -> nat -> nat -> nat -> nat -> option (list AlgoPerf);
  (* handle, filter, top, conv, bottom, requestedAlgoCount *)
  cudnnGetConvolutionBackwardDataAlgorithm_v7 :
    World -> nat -> nat -> nat -> nat -> nat -> nat -> option (list AlgoPerf);
  (* handle, bottom, filter, conv, top, memoryLimitInBytes *)
  cudnnGetConvolutionForwardAlgorithm :
    World -> nat -> nat -> nat -> nat -> nat -> Z -> option Z;
  (* handle, bottom, filter, conv, top, algo *)
  cudnnGetConvolutionForwardWorkspaceSize :
    World -> nat -> nat -> nat -> nat -> nat -> Z -> option Z;
  (* handle, bottom, top, conv, filter, memoryLimitInBytes *)
  cudnnGetConvolutionBackwardFilterAlgorithm :
    World -> nat -> nat -> nat -> nat -> nat -> Z -> option Z;
  (* handle, bottom, top, conv, filter, algo *)
  cudnnGetConvolutionBackwardFilterWorkspaceSize :
    World -> nat -> nat -> nat -> nat -> nat -> Z -> option Z;
  (* handle, filter, top, conv, bottom, memoryLimitInBytes *)
  cudnnGetConvolutionBackwardDataAlgorithm :
    World -> nat -> nat -> nat -> nat -> nat -> Z -> option Z;
  (* handle, filter, top, conv, bottom, algo *)
  cudnnGetConvolutionBackwardDataWorkspaceSize :
    World -> nat -> nat -> nat -> nat -> nat -> Z -> option Z
}.

(** [CUDNN_CHECK(call)] / [CUDA_CHECK(call)] on a call that yields a value. *)
Definition checked {A} (f : failure) (r : option A) : outcome A :=
  match r with
  | Some a => Ok a
  | None => Fatal f
  end.

(** ** The layer object *)

(** Members of the base class that the methods read. *)
Record ConvBase := {
  group_ : Z; num_output_ : Z; channels_ : Z; num_ : Z;
  bias_term_ : bool;
  num_spatial_axes_ : Z; channel_axis_ : Z;
  bottom_dim_ : Z; top_dim_ : Z; out_spatial_dim_ : Z;
  kernel_shape_ : list Z; pad_ : list Z; stride_ : list Z
}.

#[local] Set Primitive Projections.

(** An array obtained with [new T[n]]: the id of its heap block and its
    elements. *)
Record Arr (A : Type) := { arr_id : nat; arr_data : list A }.
Arguments arr_id {A} a.
Arguments arr_data {A} a.

Record Layer := {
  base : ConvBase;   (* members of ConvolutionLayer *)
  handles_setup_ : bool;
  stream_ : Arr nat;   (* cudaStream_t[] *)
  handle_ : Arr nat;   (* cudnnHandle_t[] *)
  fwd_algo_ : Arr Z;
  bwd_filter_algo_ : Arr Z;
  bwd_data_algo_ : Arr Z;
  workspace_fwd_sizes_ : Arr Z;
  workspace_bwd_filter_sizes_ : Arr Z;
  workspace_bwd_data_sizes_ : Arr Z;
  workspaceSizeInBytes : Z;   (* size_t *)
  workspaceData : Z;   (* void*, 0 is NULL *)
  workspace : Arr Z;   (* void*[], aliases into workspaceData *)
  bias_offset_ : Z;
  bottom_offset_ : Z;
  top_offset_ : Z;
  filter_desc_ : nat;
  bottom_descs_ : list nat;   (* std::vector *)
  top_descs_ : list nat;
  conv_descs_ : list nat;
  bias_desc_ : nat
}.

#[local] Unset Primitive Projections.

(** The base class updating its own members. *)
Definition set_base (x : ConvBase) (L : Layer) : Layer :=
  {| base := x; handles_setup_ := handles_setup_ L; stream_ := stream_ L;
     handle_ := handle_ L; fwd_algo_ := fwd_algo_ L;
     bwd_filter_algo_ := bwd_filter_algo_ L;
     bwd_data_algo_ := bwd_data_algo_ L;
     workspace_fwd_sizes_ := workspace_fwd_sizes_ L;
     workspace_bwd_filter_sizes_ := workspace_bwd_filter_sizes_ L;
     workspace_bwd_data_sizes_ := workspace_bwd_data_sizes_ L;
     workspaceSizeInBytes := workspaceSizeInBytes L;
     workspaceData := workspaceData L; workspace := workspace L;
     bias_offset_ := bias_offset_ L; bottom_offset_ := bottom_offset_ L;
     top_offset_ := top_offset_ L; filter_desc_ := filter_desc_ L;
     bottom_descs_ := bottom_descs_ L; top_descs_ := top_descs_ L;
     conv_descs_ := conv_descs_ L; bias_desc_ := bias_desc_ L |}.

(** Member assignment, one function per member. *)
Definition set_handles_setup_ (x : bool) (L : Layer) : Layer :=
  {| base := base L; handles_setup_ := x; stream_ := stream_ L;
     handle_ := handle_ L; fwd_algo_ := fwd_algo_ L;
     bwd_filter_algo_ := bwd_filter_algo_ L;
     bwd_data_algo_ := bwd_data_algo_ L;
     workspace_fwd_sizes_ := workspace_fwd_sizes_ L;
     workspace_bwd_filter_sizes_ := workspace_bwd_filter_sizes_ L;
     workspace_bwd_data_sizes_ := workspace_bwd_data_sizes_ L;
     workspaceSizeInBytes := workspaceSizeInBytes L;
     workspaceData := workspaceData L; workspace := workspace L;
     bias_offset_ := bias_offset_ L; bottom_offset_ := bottom_offset_ L;
     top_offset_ := top_offset_ L; filter_desc_ := filter_desc_ L;
     bottom_descs_ := bottom_descs_ L; top_descs_ := top_descs_ L;
     conv_descs_ := conv_descs_ L; bias_desc_ := bias_desc_ L |}.
Definition set_stream_ (x : Arr nat) (L : Layer) : Layer :=
  {| base := base L; handles_setup_ := handles_setup_ L; stream_ := x;
     handle_ := handle_ L; fwd_algo_ := fwd_algo_ L;
     bwd_filter_algo_ := bwd_filter_algo_ L;
     bwd_data_algo_ := bwd_data_algo_ L;
     workspace_fwd_sizes_ := workspace_fwd_sizes_ L;
     workspace_bwd_filter_sizes_ := workspace_bwd_filter_sizes_ L;
     workspace_bwd_data_sizes_ := workspace_bwd_data_sizes_ L;
     workspaceSizeInBytes := workspaceSizeInBytes L;
     workspaceData := workspaceData L; workspace := workspace L;
     bias_offset_ := bias_offset_ L; bottom_offset_ := bottom_offset_ L;
     top_offset_ := top_offset_ L; filter_desc_ := filter_desc_ L;
     bottom_descs_ := bottom_descs_ L; top_descs_ := top_descs_ L;
     conv_descs_ := conv_descs_ L; bias_desc_ := bias_desc_ L |}.
Definition set_handle_ (x : Arr nat) (L : Layer) : Layer :=
  {| base := base L; handles_setup_ := handles_setup_ L;
     stream_ := stream_ L; handle_ := x; fwd_algo_ := fwd_algo_ L;
     bwd_filter_algo_ := bwd_filter_algo_ L;
     bwd_data_algo_ := bwd_data_algo_ L;
     workspace_fwd_sizes_ := workspace_fwd_sizes_ L;
     workspace_bwd_filter_sizes_ := workspace_bwd_filter_sizes_ L;
     workspace_bwd_data_sizes_ := workspace_bwd_data_sizes_ L;
     workspaceSizeInBytes := workspaceSizeInBytes L;
     workspaceData := workspaceData L; workspace := workspace L;
     bias_offset_ := bias_offset_ L; bottom_offset_ := bottom_offset_ L;
     top_offset_ := top_offset_ L; filter_desc_ := filter_desc_ L;
     bottom_descs_ := bottom_descs_ L; top_descs_ := top_descs_ L;
     conv_descs_ := conv_descs_ L; bias_desc_ := bias_desc_ L |}.
Definition set_fwd_algo_ (x : Arr Z) (L : Layer) : Layer :=
  {| base := base L; handles_setup_ := handles_setup_ L;
     stream_ := stream_ L; handle_ := handle_ L; fwd_algo_ := x;
     bwd_filter_algo_ := bwd_filter_algo_ L;
     bwd_data_algo_ := bwd_data_algo_ L;
     workspace_fwd_sizes_ := workspace_fwd_sizes_ L;
     workspace_bwd_filter_sizes_ := workspace_bwd_filter_sizes_ L;
     workspace_bwd_data_sizes_ := workspace_bwd_data_sizes_ L;
     workspaceSizeInBytes := workspaceSizeInBytes L;
     workspaceData := workspaceData L; workspace := workspace L;
     bias_offset_ := bias_offset_ L; bottom_offset_ := bottom_offset_ L;
     top_offset_ := top_offset_ L; filter_desc_ := filter_desc_ L;
     bottom_descs_ := bottom_descs_ L; top_descs_ := top_descs_ L;
     conv_descs_ := conv_descs_ L; bias_desc_ := bias_desc_ L |}.
Definition set_bwd_filter_algo_ (x : Arr Z) (L : Layer) : Layer :=
  {| base := base L; handles_setup_ := handles_setup_ L;
     stream_ := stream_ L; handle_ := handle_ L; fwd_algo_ := fwd_algo_ L;
     bwd_filter_algo_ := x; bwd_data_algo_ := bwd_data_algo_ L;
     workspace_fwd_sizes_ := workspace_fwd_sizes_ L;
     workspace_bwd_filter_sizes_ := workspace_bwd_filter_sizes_ L;
     workspace_bwd_data_sizes_ := workspace_bwd_data_sizes_ L;
     workspaceSizeInBytes := workspaceSizeInBytes L;
     workspaceData := workspaceData L; workspace := workspace L;
     bias_offset_ := bias_offset_ L; bottom_offset_ := bottom_offset_ L;
     top_offset_ := top_offset_ L; filter_desc_ := filter_desc_ L;
     bottom_descs_ := bottom_descs_ L; top_descs_ := top_descs_ L;
     conv_descs_ := conv_descs_ L; bias_desc_ := bias_desc_ L |}.
Definition set_bwd_data_algo_ (x : Arr Z) (L : Layer) : Layer :=
  {| base := base L; handles_setup_ := handles_setup_ L;
     stream_ := stream_ L; handle_ := handle_ L; fwd_algo_ := fwd_algo_ L;
     bwd_filter_algo_ := bwd_filter_algo_ L; bwd_data_algo_ := x;
     workspace_fwd_sizes_ := workspace_fwd_sizes_ L;
     workspace_bwd_filter_sizes_ := workspace_bwd_filter_sizes_ L;
     workspace_bwd_data_sizes_ := workspace_bwd_data_sizes_ L;
     workspaceSizeInBytes := workspaceSizeInBytes L;
     workspaceData := workspaceData L; workspace := workspace L;
     bias_offset_ := bias_offset_ L; bottom_offset_ := bottom_offset_ L;
     top_offset_ := top_offset_ L; filter_desc_ := filter_desc_ L;
     bottom_descs_ := bottom_descs_ L; top_descs_ := top_descs_ L;
     conv_descs_ := conv_descs_ L; bias_desc_ := bias_desc_ L |}.
Definition set_workspace_fwd_sizes_ (x : Arr Z) (L : Layer) : Layer :=
  {| base := base L; handles_setup_ := handles_setup_ L;
     stream_ := stream_ L; handle_ := handle_ L; fwd_algo_ := fwd_algo_ L;
     bwd_filter_algo_ := bwd_filter_algo_ L;
     bwd_data_algo_ := bwd_data_algo_ L; workspace_fwd_sizes_ := x;
     workspace_bwd_filter_sizes_ := workspace_bwd_filter_sizes_ L;
     workspace_bwd_data_sizes_ := workspace_bwd_data_sizes_ L;
     workspaceSizeInBytes := workspaceSizeInBytes L;
     workspaceData := workspaceData L; workspace := workspace L;
     bias_offset_ := bias_offset_ L; bottom_offset_ := bottom_offset_ L;
     top_offset_ := top_offset_ L; filter_desc_ := filter_desc_ L;
     bottom_descs_ := bottom_descs_ L; top_descs_ := top_descs_ L;
     conv_descs_ := conv_descs_ L; bias_desc_ := bias_desc_ L |}.
Definition set_workspace_bwd_filter_sizes_ (x : Arr Z) (L : Layer) : Layer :=
  {| base := base L; handles_setup_ := handles_setup_ L;
     stream_ := stream_ L; handle_ := handle_ L; fwd_algo_ := fwd_algo_ L;
     bwd_filter_algo_ := bwd_filter_algo_ L;
     bwd_data_algo_ := bwd_data_algo_ L;
     workspace_fwd_sizes_ := workspace_fwd_sizes_ L;
     workspace_bwd_filter_sizes_ := x;
     workspace_bwd_data_sizes_ := workspace_bwd_data_sizes_ L;
     workspaceSizeInBytes := workspaceSizeInBytes L;
     workspaceData := workspaceData L; workspace := workspace L;
     bias_offset_ := bias_offset_ L; bottom_offset_ := bottom_offset_ L;
     top_offset_ := top_offset_ L; filter_desc_ := filter_desc_ L;
     bottom_descs_ := bottom_descs_ L; top_descs_ := top_descs_ L;
     conv_descs_ := conv_descs_ L; bias_desc_ := bias_desc_ L |}.
Definition set_workspace_bwd_data_sizes_ (x : Arr Z) (L : Layer) : Layer :=
  {| base := base L; handles_setup_ := handles_setup_ L;
     stream_ := stream_ L; handle_ := handle_ L; fwd_algo_ := fwd_algo_ L;
     bwd_filter_algo_ := bwd_filter_algo_ L;
     bwd_data_algo_ := bwd_data_algo_ L;
     workspace_fwd_sizes_ := workspace_fwd_sizes_ L;
     workspace_bwd_filter_sizes_ := workspace_bwd_filter_sizes_ L;
     workspace_bwd_data_sizes_ := x;
     workspaceSizeInBytes := workspaceSizeInBytes L;
     workspaceData := workspaceData L; workspace := workspace L;
     bias_offset_ := bias_offset_ L; bottom_offset_ := bottom_offset_ L;
     top_offset_ := top_offset_ L; filter_desc_ := filter_desc_ L;
     bottom_descs_ := bottom_descs_ L; top_descs_ := top_descs_ L;
     conv_descs_ := conv_descs_ L; bias_desc_ := bias_desc_ L |}.
Definition set_workspaceSizeInBytes (x : Z) (L : Layer) : Layer :=
  {| base := base L; handles_setup_ := handles_setup_ L;
     stream_ := stream_ L; handle_ := handle_ L; fwd_algo_ := fwd_algo_ L;
     bwd_filter_algo_ := bwd_filter_algo_ L;
     bwd_data_algo_ := bwd_data_algo_ L;
     workspace_fwd_sizes_ := workspace_fwd_sizes_ L;
     workspace_bwd_filter_sizes_ := workspace_bwd_filter_sizes_ L;
     workspace_bwd_data_sizes_ := workspace_bwd_data_sizes_ L;
     workspaceSizeInBytes := x; workspaceData := workspaceData L;
     workspace := workspace L; bias_offset_ := bias_offset_ L;
     bottom_offset_ := bottom_offset_ L; top_offset_ := top_offset_ L;
     filter_desc_ := filter_desc_ L; bottom_descs_ := bottom_descs_ L;
     top_descs_ := top_descs_ L; conv_descs_ := conv_descs_ L;
     bias_desc_ := bias_desc_ L |}.
Definition set_workspaceData (x : Z) (L : Layer) : Layer :=
  {| base := base L; handles_setup_ := handles_setup_ L;
     stream_ := stream_ L; handle_ := handle_ L; fwd_algo_ := fwd_algo_ L;
     bwd_filter_algo_ := bwd_filter_algo_ L;
     bwd_data_algo_ := bwd_data_algo_ L;
     workspace_fwd_sizes_ := workspace_fwd_sizes_ L;
     workspace_bwd_filter_sizes_ := workspace_bwd_filter_sizes_ L;
     workspace_bwd_data_sizes_ := workspace_bwd_data_sizes_ L;
     workspaceSizeInBytes := workspaceSizeInBytes L; workspaceData := x;
     workspace := workspace L; bias_offset_ := bias_offset_ L;
     bottom_offset_ := bottom_offset_ L; top_offset_ := top_offset_ L;
     filter_desc_ := filter_desc_ L; bottom_descs_ := bottom_descs_ L;
     top_descs_ := top_descs_ L; conv_descs_ := conv_descs_ L;
     bias_desc_ := bias_desc_ L |}.
Definition set_workspace (x : Arr Z) (L : Layer) : Layer :=
  {| base := base L; handles_setup_ := handles_setup_ L;
     stream_ := stream_ L; handle_ := handle_ L; fwd_algo_ := fwd_algo_ L;
     bwd_filter_algo_ := bwd_filter_algo_ L;
     bwd_data_algo_ := bwd_data_algo_ L;
     workspace_fwd_sizes_ := workspace_fwd_sizes_ L;
     workspace_bwd_filter_sizes_ := workspace_bwd_filter_sizes_ L;
     workspace_bwd_data_sizes_ := workspace_bwd_data_sizes_ L;
     workspaceSizeInBytes := workspaceSizeInBytes L;
     workspaceData := workspaceData L; workspace := x;
     bias_offset_ := bias_offset_ L; bottom_offset_ := bottom_offset_ L;
     top_offset_ := top_offset_ L; filter_desc_ := filter_desc_ L;
     bottom_descs_ := bottom_descs_ L; top_descs_ := top_descs_ L;
     conv_descs_ := conv_descs_ L; bias_desc_ := bias_desc_ L |}.
Definition set_bias_offset_ (x : Z) (L : Layer) : Layer :=
  {| base := base L; handles_setup_ := handles_setup_ L;
     stream_ := stream_ L; handle_ := handle_ L; fwd_algo_ := fwd_algo_ L;
     bwd_filter_algo_ := bwd_filter_algo_ L;
     bwd_data_algo_ := bwd_data_algo_ L;
     workspace_fwd_sizes_ := workspace_fwd_sizes_ L;
     workspace_bwd_filter_sizes_ := workspace_bwd_filter_sizes_ L;
     workspace_bwd_data_sizes_ := workspace_bwd_data_sizes_ L;
     workspaceSizeInBytes := workspaceSizeInBytes L;
     workspaceData := workspaceData L; workspace := workspace L;
     bias_offset_ := x; bottom_offset_ := bottom_offset_ L;
     top_offset_ := top_offset_ L; filter_desc_ := filter_desc_ L;
     bottom_descs_ := bottom_descs_ L; top_descs_ := top_descs_ L;
     conv_descs_ := conv_descs_ L; bias_desc_ := bias_desc_ L |}.
Definition set_bottom_offset_ (x : Z) (L : Layer) : Layer :=
  {| base := base L; handles_setup_ := handles_setup_ L;
     stream_ := stream_ L; handle_ := handle_ L; fwd_algo_ := fwd_algo_ L;
     bwd_filter_algo_ := bwd_filter_algo_ L;
     bwd_data_algo_ := bwd_data_algo_ L;
     workspace_fwd_sizes_ := workspace_fwd_sizes_ L;
     workspace_bwd_filter_sizes_ := workspace_bwd_filter_sizes_ L;
     workspace_bwd_data_sizes_ := workspace_bwd_data_sizes_ L;
     workspaceSizeInBytes := workspaceSizeInBytes L;
     workspaceData := workspaceData L; workspace := workspace L;
     bias_offset_ := bias_offset_ L; bottom_offset_ := x;
     top_offset_ := top_offset_ L; filter_desc_ := filter_desc_ L;
     bottom_descs_ := bottom_descs_ L; top_descs_ := top_descs_ L;
     conv_descs_ := conv_descs_ L; bias_desc_ := bias_desc_ L |}.
Definition set_top_offset_ (x : Z) (L : Layer) : Layer :=
  {| base := base L; handles_setup_ := handles_setup_ L;
     stream_ := stream_ L; handle_ := handle_ L; fwd_algo_ := fwd_algo_ L;
     bwd_filter_algo_ := bwd_filter_algo_ L;
     bwd_data_algo_ := bwd_data_algo_ L;
     workspace_fwd_sizes_ := workspace_fwd_sizes_ L;
     workspace_bwd_filter_sizes_ := workspace_bwd_filter_sizes_ L;
     workspace_bwd_data_sizes_ := workspace_bwd_data_sizes_ L;
     workspaceSizeInBytes := workspaceSizeInBytes L;
     workspaceData := workspaceData L; workspace := workspace L;
     bias_offset_ := bias_offset_ L; bottom_offset_ := bottom_offset_ L;
     top_offset_ := x; filter_desc_ := filter_desc_ L;
     bottom_descs_ := bottom_descs_ L; top_descs_ := top_descs_ L;
     conv_descs_ := conv_descs_ L; bias_desc_ := bias_desc_ L |}.
Definition set_filter_desc_ (x : nat) (L : Layer) : Layer :=
  {| base := base L; handles_setup_ := handles_setup_ L;
     stream_ := stream_ L; handle_ := handle_ L; fwd_algo_ := fwd_algo_ L;
     bwd_filter_algo_ := bwd_filter_algo_ L;
     bwd_data_algo_ := bwd_data_algo_ L;
     workspace_fwd_sizes_ := workspace_fwd_sizes_ L;
     workspace_bwd_filter_sizes_ := workspace_bwd_filter_sizes_ L;
     workspace_bwd_data_sizes_ := workspace_bwd_data_sizes_ L;
     workspaceSizeInBytes := workspaceSizeInBytes L;
     workspaceData := workspaceData L; workspace := workspace L;
     bias_offset_ := bias_offset_ L; bottom_offset_ := bottom_offset_ L;
     top_offset_ := top_offset_ L; filter_desc_ := x;
     bottom_descs_ := bottom_descs_ L; top_descs_ := top_descs_ L;
     conv_descs_ := conv_descs_ L; bias_desc_ := bias_desc_ L |}.
Definition set_bottom_descs_ (x : list nat) (L : Layer) : Layer :=
  {| base := base L; handles_setup_ := handles_setup_ L;
     stream_ := stream_ L; handle_ := handle_ L; fwd_algo_ := fwd_algo_ L;
     bwd_filter_algo_ := bwd_filter_algo_ L;
     bwd_data_algo_ := bwd_data_algo_ L;
     workspace_fwd_sizes_ := workspace_fwd_sizes_ L;
     workspace_bwd_filter_sizes_ := workspace_bwd_filter_sizes_ L;
     workspace_bwd_data_sizes_ := workspace_bwd_data_sizes_ L;
     workspaceSizeInBytes := workspaceSizeInBytes L;
     workspaceData := workspaceData L; workspace := workspace L;
     bias_offset_ := bias_offset_ L; bottom_offset_ := bottom_offset_ L;
     top_offset_ := top_offset_ L; filter_desc_ := filter_desc_ L;
     bottom_descs_ := x; top_descs_ := top_descs_ L;
     conv_descs_ := conv_descs_ L; bias_desc_ := bias_desc_ L |}.
Definition set_top_descs_ (x : list nat) (L : Layer) : Layer :=
  {| base := base L; handles_setup_ := handles_setup_ L;
     stream_ := stream_ L; handle_ := handle_ L; fwd_algo_ := fwd_algo_ L;
     bwd_filter_algo_ := bwd_filter_algo_ L;
     bwd_data_algo_ := bwd_data_algo_ L;
     workspace_fwd_sizes_ := workspace_fwd_sizes_ L;
     workspace_bwd_filter_sizes_ := workspace_bwd_filter_sizes_ L;
     workspace_bwd_data_sizes_ := workspace_bwd_data_sizes_ L;
     workspaceSizeInBytes := workspaceSizeInBytes L;
     workspaceData := workspaceData L; workspace := workspace L;
     bias_offset_ := bias_offset_ L; bottom_offset_ := bottom_offset_ L;
     top_offset_ := top_offset_ L; filter_desc_ := filter_desc_ L;
     bottom_descs_ := bottom_descs_ L; top_descs_ := x;
     conv_descs_ := conv_descs_ L; bias_desc_ := bias_desc_ L |}.
Definition set_conv_descs_ (x : list nat) (L : Layer) : Layer :=
  {| base := base L; handles_setup_ := handles_setup_ L;
     stream_ := stream_ L; handle_ := handle_ L; fwd_algo_ := fwd_algo_ L;
     bwd_filter_algo_ := bwd_filter_algo_ L;
     bwd_data_algo_ := bwd_data_algo_ L;
     workspace_fwd_sizes_ := workspace_fwd_sizes_ L;
     workspace_bwd_filter_sizes_ := workspace_bwd_filter_sizes_ L;
     workspace_bwd_data_sizes_ := workspace_bwd_data_sizes_ L;
     workspaceSizeInBytes := workspaceSizeInBytes L;
     workspaceData := workspaceData L; workspace := workspace L;
     bias_offset_ := bias_offset_ L; bottom_offset_ := bottom_offset_ L;
     top_offset_ := top_offset_ L; filter_desc_ := filter_desc_ L;
     bottom_descs_ := bottom_descs_ L; top_descs_ := top_descs_ L;
     conv_descs_ := x; bias_desc_ := bias_desc_ L |}.
Definition set_bias_desc_ (x : nat) (L : Layer) : Layer :=
  {| base := base L; handles_setup_ := handles_setup_ L;
     stream_ := stream_ L; handle_ := handle_ L; fwd_algo_ := fwd_algo_ L;
     bwd_filter_algo_ := bwd_filter_algo_ L;
     bwd_data_algo_ := bwd_data_algo_ L;
     workspace_fwd_sizes_ := workspace_fwd_sizes_ L;
     workspace_bwd_filter_sizes_ := workspace_bwd_filter_sizes_ L;
     workspace_bwd_data_sizes_ := workspace_bwd_data_sizes_ L;
     workspaceSizeInBytes := workspaceSizeInBytes L;
     workspaceData := workspaceData L; workspace := workspace L;
     bias_offset_ := bias_offset_ L; bottom_offset_ := bottom_offset_ L;
     top_offset_ := top_offset_ L; filter_desc_ := filter_desc_ L;
     bottom_descs_ := bottom_descs_ L; top_descs_ := top_descs_ L;
     conv_descs_ := conv_descs_ L; bias_desc_ := x |}.

(** ** CUDA runtime and cuDNN calls *)

Definition CUDNN_STREAMS_PER_GROUP : Z := 1.

(** [new T[n]]; the elements are indeterminate until assigned, [junk] stands
    for them. *)
Definition new_array {A} (n : Z) (junk : A) (w : World)
  : outcome (World * Arr A) :=
  if n <? 0 then Fatal undefined_behaviour
  else let '(id, h) := st_new () (w_heap w) in
       Ok (set_w_heap h w,
           {| arr_id := id; arr_data := replicate (Z.to_nat n) junk |}).

(** [delete [] a]. *)
Definition delete_array {A} (a : Arr A) (w : World) : World :=
  set_w_heap (st_del (arr_id a) (w_heap w)) w.

(** [a[i] = x] on a heap array. *)
Definition arr_assign {A} (a : Arr A) (i : nat) (x : A) : outcome (Arr A) :=
  do d <- assign (arr_data a) i x;
  Ok {| arr_id := arr_id a; arr_data := d |}.

Definition cudaStreamCreate (V : Vendor) (w : World) : outcome (World * nat) :=
  if cudaStreamCreate_ok V w
  then let '(s, st) := st_new () (w_streams w) in Ok (set_w_streams st w, s)
  else Fatal cuda_error.

Definition cudnnCreate (V : Vendor) (w : World) : outcome (World * nat) :=
  if cudnnCreate_ok V w
  then let '(h, st) := st_new None (w_handles w) in Ok (set_w_handles st w, h)
  else Fatal cudnn_error.

Definition cudnnSetStream (V : Vendor) (w : World) (h s : nat)
  : outcome World :=
  if cudnnSetStream_ok V w h s
  then do st <- checked cudnn_error (st_put h (Some s) (w_handles w));
       Ok (set_w_handles st w)
  else Fatal cudnn_error.

Definition cudaStreamDestroy (s : nat) (w : World) : World :=
  set_w_streams (st_del s (w_streams w)) w.
Definition cudnnDestroy (h : nat) (w : World) : World :=
  set_w_handles (st_del h (w_handles w)) w.
Definition cudnnDestroyTensorDescriptor (d : nat) (w : World) : World :=
  set_w_tensors (st_del d (w_tensors w)) w.
Definition cudnnDestroyConvolutionDescriptor (d : nat) (w : World) : World :=
  set_w_convs (st_del d (w_convs w)) w.
Definition cudnnDestroyFilterDescriptor (d : nat) (w : World) : World :=
  set_w_filters (st_del d (w_filters w)) w.

(** [cudaFree(p)]: releases the block that starts at [p]; no effect on NULL
    or on an address that is not a block. *)
Definition cudaFree (p : Z) (w : World) : World :=
  set_w_gpu (filter (fun b => b.1 ≠ p) (w_gpu w)) w.

(** [cudaMalloc(&p, size)]: [None] is any status other than cudaSuccess. *)
Definition cudaMalloc (V : Vendor) (w : World) (size : Z)
  : option (World * Z) :=
  match cudaMalloc_result V w size with
  | Some p => Some (set_w_gpu ((p, size) :: w_gpu w) w, p)
  | None => None
  end.

(** Modelled from the spec: the helpers of namespace [cudnn]
    (caffe/util/cudnn.hpp) are not part of the source file.  Following
    "describe tensor/filter/convolution shapes to the vendor library", a
    create helper makes a new descriptor and a set helper records in the
    descriptor the shape it is given; setting a descriptor that does not
    exist is a cuDNN error. *)
Module cudnn.

Definition createFilterDesc (n c h w : Z) (wd : World) : World * nat :=
  let '(d, st) := st_new {| f_n := n; f_c := c; f_h := h; f_w := w |}
                         (w_filters wd) in
  (set_w_filters st wd, d).

Definition createTensor4dDesc (wd : World) : World * nat :=
  let '(d, st) := st_new None (w_tensors wd) in (set_w_tensors st wd, d).

Definition createConvolutionDesc (wd : World) : World * nat :=
  let '(d, st) := st_new None (w_convs wd) in (set_w_convs st wd, d).

Definition setTensor4dDesc (d : nat) (t : Tensor4d) (wd : World)
  : outcome World :=
  do st <- checked cudnn_error (st_put d (Some t) (w_tensors wd));
  Ok (set_w_tensors st wd).

Definition setConvolutionDesc (d : nat) (c : Conv2d) (wd : World)
  : outcome World :=
  do st <- checked cudnn_error (st_put d (Some c) (w_convs wd));
  Ok (set_w_convs st wd).

End cudnn.

(** ** LayerSetUp *)

(** Body of the loop that sets the per-input defaults. *)
Definition LayerSetUp_defaults (i : nat) (L : Layer) : outcome Layer :=
  do a <- arr_assign (fwd_algo_ L) i 0;
  let L := set_fwd_algo_ a L in
  do a <- arr_assign (bwd_filter_algo_ L) i 0;
  let L := set_bwd_filter_algo_ a L in
  do a <- arr_assign (bwd_data_algo_ L) i 0;
  let L := set_bwd_data_algo_ a L in
  do a <- arr_assign (workspace_fwd_sizes_ L) i 0;
  let L := set_workspace_fwd_sizes_ a L in
  do a <- arr_assign (workspace_bwd_data_sizes_ L) i 0;
  let L := set_workspace_bwd_data_sizes_ a L in
  do a <- arr_assign (workspace_bwd_filter_sizes_ L) i 0;
  Ok (set_workspace_bwd_filter_sizes_ a L).

(** Body of the loop over the groups. *)
Definition LayerSetUp_group (V : Vendor) (g : nat) (s : World * Layer)
  : outcome (World * Layer) :=
  let '(w, L) := s in
  do '(w, st) <- cudaStreamCreate V w;
  do a <- arr_assign (stream_ L) g st;
  let L := set_stream_ a L in
  do '(w, h) <- cudnnCreate V w;
  do a <- arr_assign (handle_ L) g h;
  let L := set_handle_ a L in
  do h <- index (arr_data (handle_ L)) g;
  do st <- index (arr_data (stream_ L)) g;
  do w <- cudnnSetStream V w h st;
  do a <- arr_assign (workspace L) g 0;
  Ok (w, set_workspace a L).

(** Body of the loop that creates the per-input descriptors. *)
Definition LayerSetUp_descs (i : nat) (s : World * Layer)
  : outcome (World * Layer) :=
  let '(w, L) := s in
  let '(w, bottom_desc) := cudnn.createTensor4dDesc w in
  let L := set_bottom_descs_ (bottom_descs_ L ++ [bottom_desc]) L in
  let '(w, top_desc) := cudnn.createTensor4dDesc w in
  let L := set_top_descs_ (top_descs_ L ++ [top_desc]) L in
  let '(w, conv_desc) := cudnn.createConvolutionDesc w in
  let L := set_conv_descs_ (conv_descs_ L ++ [conv_desc]) L in
  Ok (w, L).

Definition nat_range (n : Z) : list nat := seq 0 (Z.to_nat n).

Definition LayerSetUp (V : Vendor) (w : World) (L : Layer)
    (bottom top : list Blob) : outcome (World * Layer) :=
  let G := group_ (base L) * CUDNN_STREAMS_PER_GROUP in
  let B := Z.of_nat (length bottom) in
  (* Initialize CUDA streams and cuDNN. *)
  do '(w, a) <- new_array G (junk_id V) w;
  let L := set_stream_ a L in
  do '(w, a) <- new_array G (junk_id V) w;
  let L := set_handle_ a L in
  (* Initialize algorithm arrays *)
  do '(w, a) <- new_array B (junk_Z V) w;
  let L := set_fwd_algo_ a L in
  do '(w, a) <- new_array B (junk_Z V) w;
  let L := set_bwd_filter_algo_ a L in
  do '(w, a) <- new_array B (junk_Z V) w;
  let L := set_bwd_data_algo_ a L in
  (* initialize size arrays *)
  do '(w, a) <- new_array B (junk_Z V) w;
  let L := set_workspace_fwd_sizes_ a L in
  do '(w, a) <- new_array B (junk_Z V) w;
  let L := set_workspace_bwd_filter_sizes_ a L in
  do '(w, a) <- new_array B (junk_Z V) w;
  let L := set_workspace_bwd_data_sizes_ a L in
  (* workspace data *)
  let L := set_workspaceSizeInBytes 0 L in
  let L := set_workspaceData 0 L in
  do '(w, a) <- new_array G (junk_Z V) w;
  let L := set_workspace a L in
  do L <- for_loop LayerSetUp_defaults (seq 0 (length bottom)) L;
  do '(w, L) <- for_loop (LayerSetUp_group V) (nat_range G) (w, L);
  (* Set the indexing parameters. *)
  do q <- idiv (num_output_ (base L)) (group_ (base L));
  let L := set_bias_offset_ q L in
  (* Create filter descriptor. *)
  do kernel_h <- index (kernel_shape_ (base L)) 0;
  do kernel_w <- index (kernel_shape_ (base L)) 1;
  do n <- idiv (num_output_ (base L)) (group_ (base L));
  do c <- idiv (channels_ (base L)) (group_ (base L));
  let '(w, d) := cudnn.createFilterDesc n c kernel_h kernel_w w in
  let L := set_filter_desc_ d L in
  (* Create tensor descriptor(s) for data and corresponding convolution(s). *)
  do '(w, L) <- for_loop LayerSetUp_descs (seq 0 (length bottom)) (w, L);
  (* Tensor descriptor for bias. *)
  let '(w, L) :=
    if bias_term_ (base L)
    then let '(w, d) := cudnn.createTensor4dDesc w in (w, set_bias_desc_ d L)
    else (w, L) in
  Ok (w, set_handles_setup_ true L).

(** ** Reshape *)

(** Locals of [Reshape] that the per-input loop reads. *)
Record Locals := {
  height : Z; width : Z; height_out : Z; width_out : Z;
  pad_h : Z; pad_w : Z; stride_h : Z; stride_w : Z;
  free_memory : Z;              (* cuDNN >= 8 *)
  workspace_limit_bytes : Z     (* older cuDNN *)
}.

(** The search loops [for (n = 0; n < RetCnt; n++) if (...) { ...; break; }]:
    the entry at which the loop breaks, if it does. *)
Fixpoint first_suitable (ok : AlgoPerf -> bool) (prefs : list AlgoPerf)
  : option AlgoPerf :=
  match prefs with
  | [] => None
  | p :: prefs => if ok p then Some p else first_suitable ok prefs
  end.

Definition fwd_suitable (V : Vendor) (free : Z) (p : AlgoPerf) : bool :=
  (status p =? CUDNN_STATUS_SUCCESS V)
  && negb (algo p =? CUDNN_CONVOLUTION_FWD_ALGO_WINOGRAD_NONFUSED V)
  && (memory p <? free).

Definition bwd_data_suitable (V : Vendor) (free : Z) (p : AlgoPerf) : bool :=
  (status p =? CUDNN_STATUS_SUCCESS V)
  && negb (algo p =? CUDNN_CONVOLUTION_BWD_DATA_ALGO_WINOGRAD V)
  && negb (algo p =? CUDNN_CONVOLUTION_BWD_DATA_ALGO_WINOGRAD_NONFUSED V)
  && (memory p <? free).

(** Algorithm choice for input [i], cuDNN >= 8.  [bd], [td], [cd] are
    [bottom_descs_[i]], [top_descs_[i]], [conv_descs_[i]]. *)
Definition choose_algos_v8 (V : Vendor) (lc : Locals) (w : World)
    (i bd td cd : nat) (L : Layer) : outcome Layer :=
  do h0 <- index (arr_data (handle_ L)) 0;
  do fwd_algo_pref_ <-
    checked cudnn_error
      (cudnnGetConvolutionForwardAlgorithm_v7 V w h0 bd (filter_desc_ L) cd td
         4);
  do L <-
    match first_suitable (fwd_suitable V (free_memory lc))
                         (take 4 fwd_algo_pref_) with
    | Some p =>
        do a <- arr_assign (fwd_algo_ L) i (algo p);
        let L := set_fwd_algo_ a L in
        do a <- arr_assign (workspace_fwd_sizes_ L) i (memory p);
        let L := set_workspace_fwd_sizes_ a L in
        (* found_conv_algorithm: fixed backward filter algorithm *)
        do a <- arr_assign (bwd_filter_algo_ L) i
                  (CUDNN_CONVOLUTION_BWD_FILTER_ALGO_1 V);
        let L := set_bwd_filter_algo_ a L in
        do sz <- index (arr_data (workspace_fwd_sizes_ L)) i;
        do a <- arr_assign (workspace_bwd_filter_sizes_ L) i (size_mul 2 sz);
        Ok (set_workspace_bwd_filter_sizes_ a L)
    | None => Ok L
    end;
  do bwd_data_algo_pref_ <-
    checked cudnn_error
      (cudnnGetConvolutionBackwardDataAlgorithm_v7 V w h0 (filter_desc_ L) td
         cd bd 4);
  match first_suitable (bwd_data_suitable V (free_memory lc))
                       (take 4 bwd_data_algo_pref_) with
  | Some p =>
      do a <- arr_assign (bwd_data_algo_ L) i (algo p);
      let L := set_bwd_data_algo_ a L in
      do a <- arr_assign (workspace_bwd_data_sizes_ L) i (memory p);
      Ok (set_workspace_bwd_data_sizes_ a L)
  | None => Ok L
  end.

(** Algorithm choice for input [i], cuDNN before 8. *)
Definition choose_algos_legacy (V : Vendor) (lc : Locals) (w : World)
    (i bd td cd : nat) (L : Layer) : outcome Layer :=
  let fd := filter_desc_ L in
  let limit := workspace_limit_bytes lc in
  do h0 <- index (arr_data (handle_ L)) 0;
  (* choose forward and backward algorithms + workspace(s) *)
  do x <- checked cudnn_error
            (cudnnGetConvolutionForwardAlgorithm V w h0 bd fd cd td limit);
  do a <- arr_assign (fwd_algo_ L) i x;
  let L := set_fwd_algo_ a L in
  do al <- index (arr_data (fwd_algo_ L)) i;
  do x <- checked cudnn_error
            (cudnnGetConvolutionForwardWorkspaceSize V w h0 bd fd cd td al);
  do a <- arr_assign (workspace_fwd_sizes_ L) i x;
  let L := set_workspace_fwd_sizes_ a L in
  (* choose backward algorithm for filter *)
  do x <- checked cudnn_error
            (cudnnGetConvolutionBackwardFilterAlgorithm V w h0 bd td cd fd
               limit);
  do a <- arr_assign (bwd_filter_algo_ L) i x;
  let L := set_bwd_filter_algo_ a L in
  (* get workspace for backwards filter algorithm *)
  do al <- index (arr_data (bwd_filter_algo_ L)) i;
  do x <- checked cudnn_error
            (cudnnGetConvolutionBackwardFilterWorkspaceSize V w h0 bd td cd fd
               al);
  do a <- arr_assign (workspace_bwd_filter_sizes_ L) i x;
  let L := set_workspace_bwd_filter_sizes_ a L in
  (* choose backward algo for data *)
  do x <- checked cudnn_error
            (cudnnGetConvolutionBackwardDataAlgorithm V w h0 fd td cd bd
               limit);
  do a <- arr_assign (bwd_data_algo_ L) i x;
  let L := set_bwd_data_algo_ a L in
  (* get workspace size *)
  do al <- index (arr_data (bwd_data_algo_ L)) i;
  do x <- checked cudnn_error
            (cudnnGetConvolutionBackwardDataWorkspaceSize V w h0 fd td cd bd
               al);
  do a <- arr_assign (workspace_bwd_data_sizes_ L) i x;
  Ok (set_workspace_bwd_data_sizes_ a L).

(** The shapes given to the descriptors of every input. *)
Definition bottom_tensor (b : ConvBase) (lc : Locals) (c : Z) : Tensor4d :=
  {| t_n := num_ b; t_c := c; t_h := height lc; t_w := width lc;
     t_strides := Some (channels_ b * height lc * width lc,
                        height lc * width lc, width lc, 1) |}.

Definition top_tensor (b : ConvBase) (lc : Locals) (c : Z) : Tensor4d :=
  {| t_n := num_ b; t_c := c; t_h := height_out lc; t_w := width_out lc;
     t_strides := Some (num_output_ b * out_spatial_dim_ b,
                        out_spatial_dim_ b, width_out lc, 1) |}.

Definition conv_of (L : Layer) (lc : Locals) (bd : nat) : Conv2d :=
  {| c_bottom := bd; c_filter := filter_desc_ L;
     c_pad_h := pad_h lc; c_pad_w := pad_w lc;
     c_stride_h := stride_h lc; c_stride_w := stride_w lc |}.

(** Body of the loop over the inputs: descriptors, then algorithms. *)
Definition Reshape_input (V : Vendor) (lc : Locals) (i : nat)
    (s : World * Layer) : outcome (World * Layer) :=
  let '(w, L) := s in
  let b := base L in
  do bd <- index (bottom_descs_ L) i;
  do c <- idiv (channels_ b) (group_ b);
  do w <- cudnn.setTensor4dDesc bd (bottom_tensor b lc c) w;
  do td <- index (top_descs_ L) i;
  do c <- idiv (num_output_ b) (group_ b);
  do w <- cudnn.setTensor4dDesc td (top_tensor b lc c) w;
  do cd <- index (conv_descs_ L) i;
  do w <- cudnn.setConvolutionDesc cd (conv_of L lc bd) w;
  do L <- (if CUDNN_VERSION_MIN_8 V then choose_algos_v8 V lc w i bd td cd L
           else choose_algos_legacy V lc w i bd td cd L);
  Ok (w, L).

(** Body of the reduction over the workspace sizes: the running maxima for
    forward, backward data and backward filter. *)
Definition reduce_sizes (L : Layer) (i : nat) (acc : Z * Z * Z)
  : outcome (Z * Z * Z) :=
  let '(total_workspace_fwd, total_workspace_bwd_data,
        total_workspace_bwd_filter) := acc in
  do f <- index (arr_data (workspace_fwd_sizes_ L)) i;
  do d <- index (arr_data (workspace_bwd_data_sizes_ L)) i;
  do r <- index (arr_data (workspace_bwd_filter_sizes_ L)) i;
  Ok (Z.max total_workspace_fwd f, Z.max total_workspace_bwd_data d,
      Z.max total_workspace_bwd_filter r).

(** [max_workspace]: the maximum over all inputs and all three operations. *)
Definition max_workspace_of (L : Layer) (B : nat) : outcome Z :=
  do '(total_workspace_fwd, total_workspace_bwd_data,
       total_workspace_bwd_filter) <-
    for_loop (reduce_sizes L) (seq 0 B) (0, 0, 0);
  let max_workspace := Z.max total_workspace_fwd total_workspace_bwd_data in
  Ok (Z.max max_workspace total_workspace_bwd_filter).

(** The number of groups as the [size_t] it is converted to. *)
Definition groups (L : Layer) : Z :=
  to_size_t (group_ (base L) * CUDNN_STREAMS_PER_GROUP).

(** Body of the loop that forces the zero memory path. *)
Definition zero_memory_path (V : Vendor) (i : nat) (L : Layer)
  : outcome Layer :=
  do a <- arr_assign (workspace_fwd_sizes_ L) i 0;
  let L := set_workspace_fwd_sizes_ a L in
  do a <- arr_assign (workspace_bwd_filter_sizes_ L) i 0;
  let L := set_workspace_bwd_filter_sizes_ a L in
  do a <- arr_assign (workspace_bwd_data_sizes_ L) i 0;
  let L := set_workspace_bwd_data_sizes_ a L in
  do a <- arr_assign (fwd_algo_ L) i
            (CUDNN_CONVOLUTION_FWD_ALGO_IMPLICIT_GEMM V);
  let L := set_fwd_algo_ a L in
  do a <- arr_assign (bwd_filter_algo_ L) i
            (CUDNN_CONVOLUTION_BWD_FILTER_ALGO_0 V);
  let L := set_bwd_filter_algo_ a L in
  do a <- arr_assign (bwd_data_algo_ L) i
            (CUDNN_CONVOLUTION_BWD_DATA_ALGO_0 V);
  Ok (set_bwd_data_algo_ a L).

(** [workspace[g] = NULL]. *)
Definition null_workspace (g : nat) (L : Layer) : outcome Layer :=
  do a <- arr_assign (workspace L) g 0;
  Ok (set_workspace a L).

(** [workspace[g] = reinterpret_cast<char *>(workspaceData) + g*max_workspace];
    the product is taken in [size_t]. *)
Definition alias_workspace (max_workspace : Z) (g : nat) (L : Layer)
  : outcome Layer :=
  do a <- arr_assign (workspace L) g
            (workspaceData L + size_mul (Z.of_nat g) max_workspace);
  Ok (set_workspace a L).

(** Which branch of the reallocation ran; [alloc_failed] is
    [err != cudaSuccess]. *)
Inductive realloc := kept | reallocated | alloc_failed.

(** Sizing and reallocation of the shared workspace. *)
Definition Reshape_workspace (V : Vendor) (B : nat) (s : World * Layer)
  : outcome (World * Layer * realloc) :=
  let '(w, L) := s in
  (* reduce over all workspace sizes to get a maximum *)
  do max_workspace <- max_workspace_of L B;
  (* ensure all groups have enough workspace *)
  let total_max_workspace := size_mul max_workspace (groups L) in
  let G := group_ (base L) * CUDNN_STREAMS_PER_GROUP in
  if workspaceSizeInBytes L <? total_max_workspace then
    let L := set_workspaceSizeInBytes total_max_workspace L in
    (* free the existing workspace and allocate a new (larger) one *)
    let w := cudaFree (workspaceData L) w in
    do '(w, L, r) <-
      match cudaMalloc V w (workspaceSizeInBytes L) with
      | Some (w, p) => Ok (w, set_workspaceData p L, reallocated)
      | None =>
          (* force zero memory path *)
          do L <- for_loop (zero_memory_path V) (seq 0 B) L;
          (* NULL out all workspace pointers *)
          do L <- for_loop null_workspace (nat_range G) L;
          (* NULL out underlying data *)
          let L := set_workspaceData 0 L in
          Ok (w, set_workspaceSizeInBytes 0 L, alloc_failed)
      end;
    (* set pointer aliases for workspaces *)
    do L <- for_loop (alias_workspace max_workspace) (nat_range G) L;
    Ok (w, L, r)
  else Ok (w, L, kept).

(** The locals read from the blobs and from the base class; the free device
    memory is measured here, in the world [Reshape] starts in. *)
Definition Reshape_locals (V : Vendor) (w : World) (b : ConvBase)
    (bottom top : list Blob) : outcome Locals :=
  do bottom0 <- index bottom 0;
  do height <- shape bottom0 (channel_axis_ b + 1);
  do width <- shape bottom0 (channel_axis_ b + 2);
  do top0 <- index top 0;
  do height_out <- shape top0 (channel_axis_ b + 1);
  do width_out <- shape top0 (channel_axis_ b + 2);
  do pad_h <- index (pad_ b) 0;
  do pad_w <- index (pad_ b) 1;
  do stride_h <- index (stride_ b) 0;
  do stride_w <- index (stride_ b) 1;
  Ok {| height := height; width := width;
        height_out := height_out; width_out := width_out;
        pad_h := pad_h; pad_w := pad_w;
        stride_h := stride_h; stride_w := stride_w;
        free_memory := cudaMemGetInfo_free V w;
        workspace_limit_bytes := 8 * 1024 * 1024 |}.

(** [Reshape] past its CHECK_EQ, up to the end of the per-input loop. *)
Definition Reshape_inputs (V : Vendor) (w : World) (L : Layer)
    (bottom top : list Blob) : outcome (World * Layer) :=
  let b := base L in
  do q <- idiv (bottom_dim_ b) (group_ b);
  let L := set_bottom_offset_ q L in
  do q <- idiv (top_dim_ b) (group_ b);
  let L := set_top_offset_ q L in
  do lc <- Reshape_locals V w b bottom top;
  for_loop (Reshape_input V lc) (seq 0 (length bottom)) (w, L).

(** The bias descriptor, as the optional fourth-and-later arguments of
    [setTensor4dDesc] are left out. *)
Definition bias_tensor (c : Z) : Tensor4d :=
  {| t_n := 1; t_c := c; t_h := 1; t_w := 1; t_strides := None |}.

(** [Reshape] past its CHECK_EQ. *)
Definition Reshape_checked (V : Vendor) (w : World) (L : Layer)
    (bottom top : list Blob) : outcome (World * Layer * realloc) :=
  do s <- Reshape_inputs V w L bottom top;
  do '(w, L, r) <- Reshape_workspace V (length bottom) s;
  (* Tensor descriptor for bias. *)
  if bias_term_ (base L) then
    do c <- idiv (num_output_ (base L)) (group_ (base L));
    do w <- cudnn.setTensor4dDesc (bias_desc_ L) (bias_tensor c) w;
    Ok (w, L, r)
  else Ok (w, L, r).

(** The third component of the result tells which branch of the workspace
    reallocation ran; it is not part of the C++ state. *)
Definition Reshape (V : Vendor) (w : World) (L : Layer)
    (bottom top : list Blob) : outcome (World * Layer * realloc) :=
  if negb (num_spatial_axes_ (base L) =? 2) then Fatal CHECK_failed
  else Reshape_checked V w L bottom top.

(** ** The destructor *)

(** Body of the loop over the per-input descriptors. *)
Definition destroy_descs (L : Layer) (i : nat) (w : World) : outcome World :=
  do d <- index (bottom_descs_ L) i;
  let w := cudnnDestroyTensorDescriptor d w in
  do d <- index (top_descs_ L) i;
  let w := cudnnDestroyTensorDescriptor d w in
  do d <- index (conv_descs_ L) i;
  Ok (cudnnDestroyConvolutionDescriptor d w).

(** Body of the loop over the groups. *)
Definition destroy_group (L : Layer) (g : nat) (w : World) : outcome World :=
  do s <- index (arr_data (stream_ L)) g;
  let w := cudaStreamDestroy s w in
  do h <- index (arr_data (handle_ L)) g;
  Ok (cudnnDestroy h w).

Definition destructor (w : World) (L : Layer) : outcome World :=
  (* Check that handles have been setup before destroying. *)
  if negb (handles_setup_ L) then Ok w else
  let G := group_ (base L) * CUDNN_STREAMS_PER_GROUP in
  do w <- for_loop (destroy_descs L) (seq 0 (length (bottom_descs_ L))) w;
  let w :=
    if bias_term_ (base L) then cudnnDestroyTensorDescriptor (bias_desc_ L) w
    else w in
  let w := cudnnDestroyFilterDescriptor (filter_desc_ L) w in
  do w <- for_loop (destroy_group L) (nat_range G) w;
  let w := cudaFree (workspaceData L) w in
  let w := delete_array (stream_ L) w in
  let w := delete_array (handle_ L) w in
  let w := delete_array (fwd_algo_ L) w in
  let w := delete_array (bwd_filter_algo_ L) w in
  let w := delete_array (bwd_data_algo_ L) w in
  let w := delete_array (workspace_fwd_sizes_ L) w in
  let w := delete_array (workspace_bwd_data_sizes_ L) w in
  Ok (delete_array (workspace_bwd_filter_sizes_ L) w).

(** ** Sequences of calls *)

(** One call of [Reshape] by the framework: the base class has reshaped
    first and left [c_base]. *)
Record Call := {
  call_base : ConvBase; call_bottom : list Blob; call_top : list Blob
}.

(** The calls in order; the result lists the state after each of them. *)
Fixpoint Reshape_calls (V : Vendor) (calls : list Call) (w : World)
    (L : Layer) : outcome (list (World * Layer * realloc)) :=
  match calls with
  | [] => Ok []
  | c :: calls =>
      do '(w, L, r) <-
        Reshape V w (set_base (call_base c) L) (call_bottom c) (call_top c);
      do rest <- Reshape_calls V calls w L;
      Ok ((w, L, r) :: rest)
  end.

(** ** A concrete vendor and layer, for running the model *)

Module Sample.

Definition empty_world : World :=
  {| w_streams := []; w_handles := []; w_tensors := []; w_filters := [];
     w_convs := []; w_gpu := []; w_heap := [] |}.

(** Height the bottom descriptor [bd] currently describes. *)
Definition described_height (w : World) (bd : nat) : Z :=
  match st_get (w_tensors w) bd with
  | Some (Some t) => t_h t
  | _ => 0
  end.

(** A vendor whose calls all succeed.  [need w bd] scales the scratch
    memory its algorithms ask for, [free] is the free device memory it
    reports and [malloc] decides the device allocations.  Enumerators have
    the values of [cudnn.h]. *)
Definition vendor (v8 : bool) (free : Z) (malloc : World -> Z -> option Z)
    (need : World -> nat -> Z) : Vendor :=
  {| CUDNN_VERSION_MIN_8 := v8;
     junk_id := 77; junk_Z := -1;
     CUDNN_STATUS_SUCCESS := 0;
     CUDNN_CONVOLUTION_FWD_ALGO_IMPLICIT_GEMM := 0;
     CUDNN_CONVOLUTION_FWD_ALGO_WINOGRAD_NONFUSED := 7;
     CUDNN_CONVOLUTION_BWD_FILTER_ALGO_0 := 0;
     CUDNN_CONVOLUTION_BWD_FILTER_ALGO_1 := 1;
     CUDNN_CONVOLUTION_BWD_DATA_ALGO_0 := 0;
     CUDNN_CONVOLUTION_BWD_DATA_ALGO_WINOGRAD := 4;
     CUDNN_CONVOLUTION_BWD_DATA_ALGO_WINOGRAD_NONFUSED := 5;
     cudaStreamCreate_ok := fun _ => true;
     cudnnCreate_ok := fun _ => true;
     cudnnSetStream_ok := fun _ _ _ => true;
     cudaMemGetInfo_free := fun _ => free;
     cudaMalloc_result := malloc;
     cudnnGetConvolutionForwardAlgorithm_v7 := fun w _ bd _ _ _ _ =>
       Some [ {| algo := 7; status := 0; memory := 0 |};
              {| algo := 6; status := 3; memory := 0 |};
              {| algo := 1; status := 0; memory := 10 * need w bd |};
              {| algo := 0; status := 0; memory := 0 |} ];
     cudnnGetConvolutionBackwardDataAlgorithm_v7 := fun w _ _ _ _ bd _ =>
       Some [ {| algo := 4; status := 0; memory := 0 |};
              {| algo := 1; status := 0; memory := 5 * need w bd |} ];
     cudnnGetConvolutionForwardAlgorithm := fun _ _ _ _ _ _ _ => Some 1;
     cudnnGetConvolutionForwardWorkspaceSize := fun w _ bd _ _ _ _ =>
       Some (10 * need w bd);
     cudnnGetConvolutionBackwardFilterAlgorithm :=
       fun _ _ _ _ _ _ _ => Some 3;
     cudnnGetConvolutionBackwardFilterWorkspaceSize :=
       fun w _ bd _ _ _ _ => Some (7 * need w bd);
     cudnnGetConvolutionBackwardDataAlgorithm :=
       fun _ _ _ _ _ _ _ => Some 1;
     cudnnGetConvolutionBackwardDataWorkspaceSize :=
       fun w _ _ _ _ bd _ => Some (5 * need w bd) |}.

(** Device allocations that succeed, at an address past every block. *)
Definition malloc_ok (w : World) (size : Z) : option Z :=
  Some (foldr (fun b a => Z.max a (b.1 + b.2)) 4096 (w_gpu w)).
Definition malloc_fails (w : World) (size : Z) : option Z := None.

(** The base-class members of a layer with [g] groups, 8 outputs and 4
    input channels on a batch of 2, 3x3 kernel, for inputs of height [h]
    and width 6 (pad 1, stride 1), with [nsa] spatial axes. *)
Definition conv_base (g h nsa : Z) : ConvBase :=
  {| group_ := g; num_output_ := 8; channels_ := 4; num_ := 2;
     bias_term_ := true; num_spatial_axes_ := nsa; channel_axis_ := 1;
     bottom_dim_ := 4 * h * 6; top_dim_ := 8 * h * 6;
     out_spatial_dim_ := h * 6;
     kernel_shape_ := [3; 3]; pad_ := [1; 1]; stride_ := [1; 1] |}.

Definition no_array {A} : Arr A := {| arr_id := 0; arr_data := [] |}.

(** The object as its constructor leaves it. *)
Definition fresh_layer (b : ConvBase) : Layer :=
  {| base := b; handles_setup_ := false;
     stream_ := no_array; handle_ := no_array;
     fwd_algo_ := no_array; bwd_filter_algo_ := no_array;
     bwd_data_algo_ := no_array;
     workspace_fwd_sizes_ := no_array;
     workspace_bwd_filter_sizes_ := no_array;
     workspace_bwd_data_sizes_ := no_array;
     workspaceSizeInBytes := 0; workspaceData := 0; workspace := no_array;
     bias_offset_ := 0; bottom_offset_ := 0; top_offset_ := 0;
     filter_desc_ := 0; bottom_descs_ := []; top_descs_ := [];
     conv_descs_ := []; bias_desc_ := 0 |}.

(** A blob of the given dimensions; negative axes count from the end. *)
Definition blob_of (dims : list Z) : Blob :=
  {| shape := fun k =>
       let n := Z.of_nat (length dims) in
       if (k <? - n) || (n <=? k) then Fatal CHECK_failed
       else index dims (Z.to_nat (if k <? 0 then k + n else k)) |}.

(** [n] blobs of shape [c] channels by [h] by 6 on a batch of 2. *)
Definition blobs (n : nat) (c h : Z) : list Blob :=
  replicate n (blob_of [2; c; h; 6]).

(** A call of [Reshape] on [n] inputs of height [h]. *)
Definition call (g : Z) (n : nat) (h : Z) : Call :=
  {| call_base := conv_base g h 2;
     call_bottom := blobs n 4 h; call_top := blobs n 8 h |}.

(** [LayerSetUp] on a fresh layer with [g] groups and [n] inputs. *)
Definition set_up (V : Vendor) (g : Z) (n : nat) : outcome (World * Layer) :=
  LayerSetUp V empty_world (fresh_layer (conv_base g 16 2))
             (blobs n 4 16) (blobs n 8 16).

(** [LayerSetUp], then one [Reshape] per height of [hs]. *)
Definition run (V : Vendor) (g : Z) (n : nat) (hs : list Z)
  : outcome (list (World * Layer * realloc)) :=
  do '(w, L) <- set_up V g n;
  Reshape_calls V (map (call g n) hs) w L.

Definition by_height : World -> nat -> Z := described_height.
Definition fixed_need (k : Z) : World -> nat -> Z := fun _ _ => k.

(** cuDNN >= 8, need growing with the height, allocations succeed. *)
Definition V8 : Vendor := vendor true 1000 malloc_ok by_height.
(** cuDNN >= 8, constant need, allocations succeed. *)
Definition V8_fixed : Vendor := vendor true 1000 malloc_ok (fixed_need 10).
(** cuDNN >= 8, allocations fail. *)
Definition V8_no_memory : Vendor := vendor true 1000 malloc_fails by_height.
(** cuDNN before 8, allocations succeed. *)
Definition V7 : Vendor := vendor false 1000 malloc_ok by_height.
(** cuDNN before 8, constant need, allocations succeed. *)
Definition V7_fixed : Vendor := vendor false 1000 malloc_ok (fixed_need 10).

(** The layer handed to the [Reshape] of [call g n h]. *)
Definition reshaped (g h : Z) (L : Layer) : Layer :=
  set_base (conv_base g h 2) L.

End Sample.

(** ** Views of the layer used in the statements *)

(** The members that [Reshape] only reads. *)
Definition fixed_members (L : Layer) :=
  (base L, handles_setup_ L, stream_ L, handle_ L, filter_desc_ L,
   bottom_descs_ L, top_descs_ L, conv_descs_ L, bias_desc_ L,
   bias_offset_ L).

Definition offsets (L : Layer) := (bottom_offset_ L, top_offset_ L).

(** The algorithm and workspace size stored for input [i]. *)
Definition fwd_choice (L : Layer) (i : nat) :=
  (arr_data (fwd_algo_ L) !! i, arr_data (workspace_fwd_sizes_ L) !! i).
Definition bwd_filter_choice (L : Layer) (i : nat) :=
  (arr_data (bwd_filter_algo_ L) !! i,
   arr_data (workspace_bwd_filter_sizes_ L) !! i).
Definition bwd_data_choice (L : Layer) (i : nat) :=
  (arr_data (bwd_data_algo_ L) !! i,
   arr_data (workspace_bwd_data_sizes_ L) !! i).

(** Heap blocks and lengths of the six per-input arrays. *)
Definition algo_arrays_shape (L : Layer) :=
  (arr_id (fwd_algo_ L), length (arr_data (fwd_algo_ L)),
   arr_id (bwd_filter_algo_ L), length (arr_data (bwd_filter_algo_ L)),
   arr_id (bwd_data_algo_ L), length (arr_data (bwd_data_algo_ L)),
   arr_id (workspace_fwd_sizes_ L), length (arr_data (workspace_fwd_sizes_ L)),
   arr_id (workspace_bwd_filter_sizes_ L),
   length (arr_data (workspace_bwd_filter_sizes_ L)),
   arr_id (workspace_bwd_data_sizes_ L),
   length (arr_data (workspace_bwd_data_sizes_ L))).

Definition algo_arrays (L : Layer) :=
  (fwd_algo_ L, bwd_filter_algo_ L, bwd_data_algo_ L,
   workspace_fwd_sizes_ L, workspace_bwd_filter_sizes_ L,
   workspace_bwd_data_sizes_ L).

(** The shared workspace: its size, its block and the per-group pointers. *)
Definition workspace_state (L : Layer) :=
  (workspaceSizeInBytes L, workspaceData L, workspace L).

(** Heap block and length of the array of per-group pointers. *)
Definition workspace_shape (L : Layer) :=
  (arr_id (workspace L), length (arr_data (workspace L))).

(** The bytes [[p, p + n)]. *)
Definition region_within (p n q m : Z) : Prop := q <= p /\ p + n <= q + m.
Definition regions_disjoint (p1 p2 n : Z) : Prop :=
  p1 + n <= p2 \/ p2 + n <= p1.

(** What the per-input loop leaves alone in the layer. *)
Definition algos_frame (L L' : Layer) : Prop :=
  fixed_members L' = fixed_members L /\ offsets L' = offsets L /\
  workspace_state L' = workspace_state L /\
  algo_arrays_shape L' = algo_arrays_shape L.

(** The three choices stored for input [i]. *)
Definition choices (L : Layer) (i : nat) :=
  (fwd_choice L i, bwd_filter_choice L i, bwd_data_choice L i).

(** What [Reshape] leaves alone on the vendor side and on the heap, device
    memory apart. *)
Definition vendor_objects (w : World) :=
  (w_streams w, w_handles w, w_filters w, w_heap w).

(** The entry at which a search loop breaks, stated on positions: [p] is at
    position [n], qualifies, and no earlier entry does. *)
Definition first_at (ok : AlgoPerf -> bool) (prefs : list AlgoPerf)
    (n : nat) (p : AlgoPerf) : Prop :=
  prefs !! n = Some p /\ ok p = true /\
  forall m q, (m < n)%nat -> prefs !! m = Some q -> ok q = false.

(** The tensor descriptors of a layer are pairwise different objects. *)
Definition tensor_descs_distinct (L : Layer) : Prop :=
  NoDup (bottom_descs_ L ++ top_descs_ L ++
         if bias_term_ (base L) then [bias_desc_ L] else []).

(** ** The lifetime of a layer *)

(** The state a sequence of [Reshape] calls that started in [(w, L)] ends
    in. *)
Definition last_state (w : World) (L : Layer)
    (tr : list (World * Layer * realloc)) : World * Layer :=
  match last tr with
  | Some (w', L', _) => (w', L')
  | None => (w, L)
  end.

(** The members that name the objects of the layer. *)
Definition object_members (L : Layer) :=
  (handles_setup_ L, stream_ L, handle_ L, filter_desc_ L, bottom_descs_ L,
   top_descs_ L, conv_descs_ L, bias_desc_ L).

(** [L] in [w] holds the objects that [L1] held in [w1], and every device
    block of [w] is a block of [w1] or the block at [workspaceData]. *)
Definition holds_objects_of (w1 : World) (L1 : Layer) (w : World) (L : Layer)
  : Prop :=
  object_members L = object_members L1 /\
  group_ (base L) = group_ (base L1) /\
  bias_term_ (base L) = bias_term_ (base L1) /\
  algo_arrays_shape L = algo_arrays_shape L1 /\
  workspace_shape L = workspace_shape L1 /\
  vendor_objects w = vendor_objects w1 /\
  length (w_tensors w) = length (w_tensors w1) /\
  length (w_convs w) = length (w_convs w1) /\
  forall b, b ∈ w_gpu w -> b ∈ w_gpu w1 \/ b.1 = workspaceData L.

(** A call that leaves the group count and the bias switch of [b] as they
    are. *)
Definition same_grouping (b : ConvBase) (c : Call) : Prop :=
  group_ (call_base c) = group_ b /\ bias_term_ (call_base c) = bias_term_ b.

(** Every object with an id from [n] on is gone. *)
Definition released_from {A} (n : nat) (s : store A) : Prop :=
  forall i, (n <= i)%nat -> st_get s i = None.

(** ** Further vendors for running the model *)


(** cuDNN >= 8 with a forward algorithm that asks for 2^63 + 2 bytes, on a
    device that reports 2^64 - 1 free bytes. *)
Definition V8_huge_need : Vendor :=
  Sample.vendor true (2 ^ 64 - 1) Sample.malloc_ok
    (Sample.fixed_need 922337203685477581).

(** [V] with other answers of the CUDA runtime to the creation of a
    stream and of cuDNN to the creation of a handle and to the binding of
    a handle to a stream. *)
Definition with_creation (streams handles : World -> bool)
    (binds : World -> nat -> nat -> bool) (V : Vendor) : Vendor :=
  {| CUDNN_VERSION_MIN_8 := CUDNN_VERSION_MIN_8 V;
     junk_id := junk_id V; junk_Z := junk_Z V;
     CUDNN_STATUS_SUCCESS := CUDNN_STATUS_SUCCESS V;
     CUDNN_CONVOLUTION_FWD_ALGO_IMPLICIT_GEMM :=
       CUDNN_CONVOLUTION_FWD_ALGO_IMPLICIT_GEMM V;
     CUDNN_CONVOLUTION_FWD_ALGO_WINOGRAD_NONFUSED :=
       CUDNN_CONVOLUTION_FWD_ALGO_WINOGRAD_NONFUSED V;
     CUDNN_CONVOLUTION_BWD_FILTER_ALGO_0 :=
       CUDNN_CONVOLUTION_BWD_FILTER_ALGO_0 V;
     CUDNN_CONVOLUTION_BWD_FILTER_ALGO_1 :=
       CUDNN_CONVOLUTION_BWD_FILTER_ALGO_1 V;
     CUDNN_CONVOLUTION_BWD_DATA_ALGO_0 := CUDNN_CONVOLUTION_BWD_DATA_ALGO_0 V;
     CUDNN_CONVOLUTION_BWD_DATA_ALGO_WINOGRAD :=
       CUDNN_CONVOLUTION_BWD_DATA_ALGO_WINOGRAD V;
     CUDNN_CONVOLUTION_BWD_DATA_ALGO_WINOGRAD_NONFUSED :=
       CUDNN_CONVOLUTION_BWD_DATA_ALGO_WINOGRAD_NONFUSED V;
     cudaStreamCreate_ok := streams;
     cudnnCreate_ok := handles;
     cudnnSetStream_ok := binds;
     cudaMemGetInfo_free := cudaMemGetInfo_free V;
     cudaMalloc_result := cudaMalloc_result V;
     cudnnGetConvolutionForwardAlgorithm_v7 :=
       cudnnGetConvolutionForwardAlgorithm_v7 V;
     cudnnGetConvolutionBackwardDataAlgorithm_v7 :=
       cudnnGetConvolutionBackwardDataAlgorithm_v7 V;
     cudnnGetConvolutionForwardAlgorithm :=
       cudnnGetConvolutionForwardAlgorithm V;
     cudnnGetConvolutionForwardWorkspaceSize :=
       cudnnGetConvolutionForwardWorkspaceSize V;
     cudnnGetConvolutionBackwardFilterAlgorithm :=
       cudnnGetConvolutionBackwardFilterAlgorithm V;
     cudnnGetConvolutionBackwardFilterWorkspaceSize :=
       cudnnGetConvolutionBackwardFilterWorkspaceSize V;
     cudnnGetConvolutionBackwardDataAlgorithm :=
       cudnnGetConvolutionBackwardDataAlgorithm V;
     cudnnGetConvolutionBackwardDataWorkspaceSize :=
       cudnnGetConvolutionBackwardDataWorkspaceSize V |}.

(** cuDNN 8 with a cuDNN that binds every handle but the first. *)
Definition V8_first_handle_unbound : Vendor :=
  with_creation (fun _ => true) (fun _ => true)
    (fun _ h _ => negb (h =? 0)%nat) Sample.V8.

(** ** The build with the cuDNN frontend *)

(** What the build with [USE_CUDNN_FRONTEND] takes from outside the source
    file: the operation graphs, the execution plans and the plan cache of
    [cudnn_frontend], the helpers [create_graph_operation] and
    [get_execution_plan], and the status [checkCudaErr] finds after
    [cudaFree].  Nothing is assumed about them; a helper that throws
    returns [None]. *)
Record Frontend := {
  Graph : Type;   (* cudnn_frontend::OperationGraph *)
  Plan : Type;    (* cudnn_frontend::ExecutionPlan *)
  Cache : Type;   (* cudnn_frontend::ExecutionPlanCache *)
  (* x_dim, w_dim, y_dim, pad, dilation, stride, handle, bias_term_ *)
  create_graph_operation :
    World -> list Z -> list Z -> list Z -> list Z -> list Z -> list Z ->
    nat -> bool -> option Graph;
  (* graph, handle *)
  get_execution_plan : World -> Graph -> nat -> option Plan;
  getWorkspaceSize : Plan -> Z;
  get_plan_from_cache : Cache -> Graph -> option Plan;
  add_plan_to_cache : Cache -> Graph -> Plan -> Cache;
  cudaFree_ok : World -> Z -> bool
}.

#[local] Set Primitive Projections.

(** The object in this build: the members it shares with the other builds,
    and those of its own. *)
Record FrontendLayer (F : Frontend) := {
  layer : Layer;
  workspace_size_ : Z;
  second_run_ : bool;
  op_graph_ : option (Graph F);   (* the graph [op_graph_] points to *)
  plan_cache_ : Cache F
}.
Arguments layer {F} f.
Arguments workspace_size_ {F} f.
Arguments second_run_ {F} f.
Arguments op_graph_ {F} f.
Arguments plan_cache_ {F} f.

#[local] Unset Primitive Projections.

Definition set_layer {F} (x : Layer) (L : FrontendLayer F) : FrontendLayer F :=
  {| layer := x; workspace_size_ := workspace_size_ L;
     second_run_ := second_run_ L; op_graph_ := op_graph_ L;
     plan_cache_ := plan_cache_ L |}.
Definition set_workspace_size_ {F} (x : Z) (L : FrontendLayer F)
  : FrontendLayer F :=
  {| layer := layer L; workspace_size_ := x; second_run_ := second_run_ L;
     op_graph_ := op_graph_ L; plan_cache_ := plan_cache_ L |}.
Definition set_second_run_ {F} (x : bool) (L : FrontendLayer F)
  : FrontendLayer F :=
  {| layer := layer L; workspace_size_ := workspace_size_ L;
     second_run_ := x; op_graph_ := op_graph_ L;
     plan_cache_ := plan_cache_ L |}.
Definition set_op_graph_ {F} (x : option (Graph F)) (L : FrontendLayer F)
  : FrontendLayer F :=
  {| layer := layer L; workspace_size_ := workspace_size_ L;
     second_run_ := second_run_ L; op_graph_ := x;
     plan_cache_ := plan_cache_ L |}.
Definition set_plan_cache_ {F} (x : Cache F) (L : FrontendLayer F)
  : FrontendLayer F :=
  {| layer := layer L; workspace_size_ := workspace_size_ L;
     second_run_ := second_run_ L; op_graph_ := op_graph_ L;
     plan_cache_ := x |}.

(** [LayerSetUp], the branch of [USE_CUDNN_FRONTEND]. *)
Definition LayerSetUp_frontend (V : Vendor) {F : Frontend} (w : World)
    (L : FrontendLayer F) (bottom top : list Blob)
  : outcome (World * FrontendLayer F) :=
  let G := group_ (base (layer L)) * CUDNN_STREAMS_PER_GROUP in
  (* Initialize CUDA streams and cuDNN. *)
  do '(w, a) <- new_array G (junk_id V) w;
  let L := set_layer (set_stream_ a (layer L)) L in
  do '(w, a) <- new_array G (junk_id V) w;
  let L := set_layer (set_handle_ a (layer L)) L in
  (* workspace data *)
  let L := set_layer (set_workspaceSizeInBytes 0 (layer L)) L in
  let L := set_layer (set_workspaceData 0 (layer L)) L in
  do '(w, a) <- new_array G (junk_Z V) w;
  let L := set_layer (set_workspace a (layer L)) L in
  let L := set_workspace_size_ 0 L in
  do '(w, l) <- for_loop (LayerSetUp_group V) (nat_range G) (w, layer L);
  let L := set_layer l L in
  (* Set the indexing parameters. *)
  do q <- idiv (num_output_ (base (layer L))) (group_ (base (layer L)));
  let L := set_layer (set_bias_offset_ q (layer L)) L in
  Ok (w, set_layer (set_handles_setup_ true (layer L)) L).

(** [checkCudaErr(cudaMalloc(&workspaceData, size))]. *)
Definition cudaMalloc_checked (V : Vendor) (w : World) (size : Z)
  : outcome (World * Z) :=
  checked cuda_error (cudaMalloc V w size).

(** Body of the loop over the inputs in [Reshape], frontend build.  Of
    [lc] the members measured for the other builds are not read. *)
Definition Reshape_frontend_input (V : Vendor) {F : Frontend} (lc : Locals)
    (kernel_h kernel_w : Z) (i : nat) (s : World * FrontendLayer F)
  : outcome (World * FrontendLayer F) :=
  let '(w, L) := s in
  let b := base (layer L) in
  let x_dim := [num_ b; channels_ b; height lc; width lc] in
  let w_dim := [num_output_ b; channels_ b; kernel_h; kernel_w] in
  let y_dim := [num_ b; num_output_ b; height_out lc; width_out lc] in
  let pad := [pad_h lc; pad_w lc] in
  let dilation := [1; 1] in
  let stride := [stride_h lc; stride_w lc] in
  (* the first run is skipped *)
  if negb (second_run_ L) then Ok (w, set_second_run_ true L) else
  (* Create an Operation Graph. *)
  do h0 <- index (arr_data (handle_ (layer L))) 0;
  do opGraph <-
    checked cudnn_error
      (create_graph_operation F w x_dim w_dim y_dim pad dilation stride h0
         (bias_term_ b));
  let L := set_op_graph_ (Some opGraph) L in
  (* Create an execution plan and cache it. *)
  match get_plan_from_cache F (plan_cache_ L) opGraph with
  | Some cached_plan => Ok (w, L)
  | None =>
      do plan <- checked cudnn_error (get_execution_plan F w opGraph h0);
      let L := set_plan_cache_
                 (add_plan_to_cache F (plan_cache_ L) opGraph plan) L in
      let L := set_workspace_size_ (getWorkspaceSize F plan) L in
      do '(w, p) <- cudaMalloc_checked V w (workspace_size_ L);
      Ok (w, set_layer (set_workspaceData p (layer L)) L)
  end.

(** [Reshape], the branch of [USE_CUDNN_FRONTEND]. *)
Definition Reshape_frontend (V : Vendor) {F : Frontend} (w : World)
    (L : FrontendLayer F) (bottom top : list Blob)
  : outcome (World * FrontendLayer F) :=
  let b := base (layer L) in
  if negb (num_spatial_axes_ b =? 2) then Fatal CHECK_failed else
  do q <- idiv (bottom_dim_ b) (group_ b);
  let L := set_layer (set_bottom_offset_ q (layer L)) L in
  do q <- idiv (top_dim_ b) (group_ b);
  let L := set_layer (set_top_offset_ q (layer L)) L in
  do lc <- Reshape_locals V w b bottom top;
  do kernel_h <- index (kernel_shape_ b) 0;
  do kernel_w <- index (kernel_shape_ b) 1;
  for_loop (Reshape_frontend_input V lc kernel_h kernel_w)
    (seq 0 (length bottom)) (w, L).

(** [checkCudaErr(cudaFree(p))]. *)
Definition cudaFree_checked (F : Frontend) (p : Z) (w : World)
  : outcome World :=
  if cudaFree_ok F w p then Ok (cudaFree p w) else Fatal cuda_error.

(** The destructor, the branch of [USE_CUDNN_FRONTEND]. *)
Definition destructor_frontend {F : Frontend} (w : World)
    (L : FrontendLayer F) : outcome World :=
  (* Check that handles have been setup before destroying. *)
  if negb (handles_setup_ (layer L)) then Ok w else
  let G := group_ (base (layer L)) * CUDNN_STREAMS_PER_GROUP in
  do w <- for_loop (destroy_group (layer L)) (nat_range G) w;
  do w <- (if 0 <? workspace_size_ L
           then cudaFree_checked F (workspaceData (layer L)) w
           else Ok w);
  let w := delete_array (stream_ (layer L)) w in
  Ok (delete_array (handle_ (layer L)) w).

(** ** A concrete frontend, for running the model *)

Module FrontendSample.

(** A graph is told apart by its three shapes; a plan is its workspace
    size; the cache is an association list. *)
Definition graph : Type := list Z * list Z * list Z.

Fixpoint lookup_plan (c : list (graph * Z)) (g : graph) : option Z :=
  match c with
  | [] => None
  | (g', p) :: c => if decide (g' = g) then Some p else lookup_plan c g
  end.

(** The plans ask for 16 bytes per row of the input. *)
Definition plan_size (g : graph) : Z := 16 * default 0 (g.1.1 !! 2%nat).

Definition frontend : Frontend :=
  {| Graph := graph; Plan := Z; Cache := list (graph * Z);
     create_graph_operation := fun _ x w y _ _ _ _ _ => Some (x, w, y);
     get_execution_plan := fun _ g _ => Some (plan_size g);
     getWorkspaceSize := fun p => p;
     get_plan_from_cache := lookup_plan;
     add_plan_to_cache := fun c g p => (g, p) :: c;
     cudaFree_ok := fun _ _ => true |}.

(** The object before [LayerSetUp], with the flag of the first run not yet
    set and an empty cache. *)
Definition fresh_layer (b : ConvBase) : FrontendLayer frontend :=
  Build_FrontendLayer frontend (Sample.fresh_layer b) 0 false None [].

(** [LayerSetUp] on a fresh layer with [g] groups and one input. *)
Definition set_up (g : Z)
  : outcome (World * FrontendLayer frontend) :=
  LayerSetUp_frontend Sample.V8 Sample.empty_world
    (fresh_layer (Sample.conv_base g 16 2))
    (Sample.blobs 1 4 16) (Sample.blobs 1 8 16).

(** [Reshape] for one input of height [h], the base class having
    reshaped first. *)
Definition reshape (g h : Z) (s : World * FrontendLayer frontend)
  : outcome (World * FrontendLayer frontend) :=
  Reshape_frontend Sample.V8 s.1
    (set_layer (set_base (Sample.conv_base g h 2) (layer s.2)) s.2)
    (Sample.blobs 1 4 h) (Sample.blobs 1 8 h).

(** Set-up followed by a [Reshape] per height of [hs]. *)
Definition run (g : Z) (hs : list Z)
  : outcome (World * FrontendLayer frontend) :=
  fold_left (fun s h => do s <- s; reshape g h s) hs (set_up g).

End FrontendSample.

(** ** Views of the frontend build used in the statements *)

(** The graph [Reshape] builds for a layer with base members [b], locals
    [lc] and kernel [kernel_h] by [kernel_w], on handle [h0]. *)
Definition graph_of (F : Frontend) (w : World) (b : ConvBase) (lc : Locals)
    (kernel_h kernel_w : Z) (h0 : nat) : option (Graph F) :=
  create_graph_operation F w
    [num_ b; channels_ b; height lc; width lc]
    [num_output_ b; channels_ b; kernel_h; kernel_w]
    [num_ b; num_output_ b; height_out lc; width_out lc]
    [pad_h lc; pad_w lc] [1; 1] [stride_h lc; stride_w lc] h0 (bias_term_ b).

(** The cache finds a plan for a graph to which one was added. *)
Definition cache_keeps_added (F : Frontend) : Prop :=
  forall c g p, is_Some (get_plan_from_cache F (add_plan_to_cache F c g p) g).

(** Graphs are built from the shapes alone, whatever the state of the
    vendor side. *)
Definition graphs_from_shapes (F : Frontend) : Prop :=
  forall w w' x wd y pad dilation stride h bias,
    create_graph_operation F w x wd y pad dilation stride h bias =
    create_graph_operation F w' x wd y pad dilation stride h bias.

(** ** What [Reshape] needs *)

(** The vendor answers every query of the build with success. *)
Definition answers_queries (V : Vendor) : Prop :=
  if CUDNN_VERSION_MIN_8 V then
    (forall w h bd fd cd td n,
       is_Some (cudnnGetConvolutionForwardAlgorithm_v7 V w h bd fd cd td n)) /\
    (forall w h fd td cd bd n,
       is_Some
         (cudnnGetConvolutionBackwardDataAlgorithm_v7 V w h fd td cd bd n))
  else
    (forall w h bd fd cd td l,
       is_Some (cudnnGetConvolutionForwardAlgorithm V w h bd fd cd td l)) /\
    (forall w h bd fd cd td a,
       is_Some (cudnnGetConvolutionForwardWorkspaceSize V w h bd fd cd td a))
    /\
    (forall w h bd td cd fd l,
       is_Some
         (cudnnGetConvolutionBackwardFilterAlgorithm V w h bd td cd fd l)) /\
    (forall w h bd td cd fd a,
       is_Some
         (cudnnGetConvolutionBackwardFilterWorkspaceSize V w h bd td cd fd a))
    /\
    (forall w h fd td cd bd l,
       is_Some (cudnnGetConvolutionBackwardDataAlgorithm V w h fd td cd bd l))
    /\
    (forall w h fd td cd bd a,
       is_Some
         (cudnnGetConvolutionBackwardDataWorkspaceSize V w h fd td cd bd a)).

(** The layer [L] in the world [w] has what a [Reshape] with [B] inputs,
    [G] groups and the bias switch [bias] indexes and sets: descriptors
    that exist, arrays that are long enough, a first handle. *)
Definition ready_for (w : World) (L : Layer) (B G : nat) (bias : bool)
  : Prop :=
  (B <= length (bottom_descs_ L))%nat /\
  (B <= length (top_descs_ L))%nat /\
  (B <= length (conv_descs_ L))%nat /\
  (B <= length (arr_data (fwd_algo_ L)))%nat /\
  (B <= length (arr_data (bwd_filter_algo_ L)))%nat /\
  (B <= length (arr_data (bwd_data_algo_ L)))%nat /\
  (B <= length (arr_data (workspace_fwd_sizes_ L)))%nat /\
  (B <= length (arr_data (workspace_bwd_filter_sizes_ L)))%nat /\
  (B <= length (arr_data (workspace_bwd_data_sizes_ L)))%nat /\
  (0 < length (arr_data (handle_ L)))%nat /\
  (G <= length (arr_data (workspace L)))%nat /\
  (forall d, d ∈ bottom_descs_ L ++ top_descs_ L ->
             is_Some (st_get (w_tensors w) d)) /\
  (forall d, d ∈ conv_descs_ L -> is_Some (st_get (w_convs w) d)) /\
  (bias = true -> is_Some (st_get (w_tensors w) (bias_desc_ L))).

(** A call the framework may make on a layer set up for [B] inputs with
    base members [b]: two spatial axes, the group count and the bias switch
    of the set-up, at most [B] inputs, and blobs, pads and strides from
    which the locals of [Reshape] can be read. *)
Definition well_formed_call (V : Vendor) (b : ConvBase) (B : nat) (c : Call)
  : Prop :=
  num_spatial_axes_ (call_base c) = 2 /\
  same_grouping b c /\
  (length (call_bottom c) <= B)%nat /\
  forall w,
    is_Ok (Reshape_locals V w (call_base c) (call_bottom c) (call_top c)).

(** ** Objects of others *)

(** Every object of [w0] is in [w] what it was in [w0]. *)
Definition keeps_objects_of (w0 w : World) : Prop :=
  (forall i, (i < length (w_streams w0))%nat ->
     st_get (w_streams w) i = st_get (w_streams w0) i) /\
  (forall i, (i < length (w_handles w0))%nat ->
     st_get (w_handles w) i = st_get (w_handles w0) i) /\
  (forall i, (i < length (w_tensors w0))%nat ->
     st_get (w_tensors w) i = st_get (w_tensors w0) i) /\
  (forall i, (i < length (w_filters w0))%nat ->
     st_get (w_filters w) i = st_get (w_filters w0) i) /\
  (forall i, (i < length (w_convs w0))%nat ->
     st_get (w_convs w) i = st_get (w_convs w0) i) /\
  (forall i, (i < length (w_heap w0))%nat ->
     st_get (w_heap w) i = st_get (w_heap w0) i).

(** * Verification *)

(** ** Outcomes and loops *)

Lemma obind_Ok {A B} (c : outcome A) (k : A -> outcome B) (b : B) :
  obind c k = Ok b -> exists a, c = Ok a /\ k a = Ok b.
Proof. destruct c as [a|f]; simpl; [eauto | discriminate]. Qed.

Lemma checked_Ok {A} (f : failure) (r : option A) (a : A) :
  checked f r = Ok a -> r = Some a.
Proof. destruct r; simpl; congruence. Qed.

Lemma index_Ok {A} (l : list A) (i : nat) (x : A) :
  index l i = Ok x -> l !! i = Some x.
Proof. unfold index. destruct (l !! i); congruence. Qed.

Lemma idiv_Ok (a b q : Z) : idiv a b = Ok q -> b <> 0 /\ q = Z.quot a b.
Proof.
  unfold idiv. destruct (Z.eqb_spec b 0); [discriminate|].
  intros [= <-]. done.
Qed.

Lemma arr_assign_Ok {A} (a a' : Arr A) (i : nat) (x : A) :
  arr_assign a i x = Ok a' ->
  (i < length (arr_data a))%nat /\
  a' = {| arr_id := arr_id a; arr_data := <[i:=x]> (arr_data a) |}.
Proof.
  unfold arr_assign, assign. destruct (decide _); simpl; [|discriminate].
  intros [= <-]. done.
Qed.

(** Reduces member access on updated records.  Unlike [simpl], call by value
    keeps nested updates small. *)
Ltac rnorm :=
  cbn
    [
     base handles_setup_ stream_ handle_ fwd_algo_ bwd_filter_algo_
     bwd_data_algo_ workspace_fwd_sizes_ workspace_bwd_filter_sizes_
     workspace_bwd_data_sizes_ workspaceSizeInBytes workspaceData workspace
     bias_offset_ bottom_offset_ top_offset_ filter_desc_ bottom_descs_
     top_descs_ conv_descs_ bias_desc_ set_base set_handles_setup_
     set_stream_ set_handle_ set_fwd_algo_ set_bwd_filter_algo_
     set_bwd_data_algo_ set_workspace_fwd_sizes_
     set_workspace_bwd_filter_sizes_ set_workspace_bwd_data_sizes_
     set_workspaceSizeInBytes set_workspaceData set_workspace
     set_bias_offset_ set_bottom_offset_ set_top_offset_ set_filter_desc_
     set_bottom_descs_ set_top_descs_ set_conv_descs_ set_bias_desc_
     w_streams w_handles w_tensors w_filters w_convs w_gpu w_heap
     set_w_streams set_w_handles set_w_tensors set_w_filters set_w_convs
     set_w_gpu set_w_heap arr_id arr_data fst snd
    ].
Ltac rnorm_in H :=
  cbn
    [
     base handles_setup_ stream_ handle_ fwd_algo_ bwd_filter_algo_
     bwd_data_algo_ workspace_fwd_sizes_ workspace_bwd_filter_sizes_
     workspace_bwd_data_sizes_ workspaceSizeInBytes workspaceData workspace
     bias_offset_ bottom_offset_ top_offset_ filter_desc_ bottom_descs_
     top_descs_ conv_descs_ bias_desc_ set_base set_handles_setup_
     set_stream_ set_handle_ set_fwd_algo_ set_bwd_filter_algo_
     set_bwd_data_algo_ set_workspace_fwd_sizes_
     set_workspace_bwd_filter_sizes_ set_workspace_bwd_data_sizes_
     set_workspaceSizeInBytes set_workspaceData set_workspace
     set_bias_offset_ set_bottom_offset_ set_top_offset_ set_filter_desc_
     set_bottom_descs_ set_top_descs_ set_conv_descs_ set_bias_desc_
     w_streams w_handles w_tensors w_filters w_convs w_gpu w_heap
     set_w_streams set_w_handles set_w_tensors set_w_filters set_w_convs
     set_w_gpu set_w_heap arr_id arr_data fst snd
    ] in H.

Ltac rnorm_all :=
  cbn
    [
     base handles_setup_ stream_ handle_ fwd_algo_ bwd_filter_algo_
     bwd_data_algo_ workspace_fwd_sizes_ workspace_bwd_filter_sizes_
     workspace_bwd_data_sizes_ workspaceSizeInBytes workspaceData workspace
     bias_offset_ bottom_offset_ top_offset_ filter_desc_ bottom_descs_
     top_descs_ conv_descs_ bias_desc_ set_base set_handles_setup_
     set_stream_ set_handle_ set_fwd_algo_ set_bwd_filter_algo_
     set_bwd_data_algo_ set_workspace_fwd_sizes_
     set_workspace_bwd_filter_sizes_ set_workspace_bwd_data_sizes_
     set_workspaceSizeInBytes set_workspaceData set_workspace
     set_bias_offset_ set_bottom_offset_ set_top_offset_ set_filter_desc_
     set_bottom_descs_ set_top_descs_ set_conv_descs_ set_bias_desc_
     w_streams w_handles w_tensors w_filters w_convs w_gpu w_heap
     set_w_streams set_w_handles set_w_tensors set_w_filters set_w_convs
     set_w_gpu set_w_heap arr_id arr_data fst snd
    ] in *.

(** Takes a hypothesis [c = Ok x] apart along the binds of [c]. *)
Ltac ok_step H :=
  match type of H with
  | obind _ _ = Ok _ =>
      let x := fresh "x" in let E := fresh "E" in
      apply obind_Ok in H as (x & E & H)
  | (let '(_, _) := ?p in _) = Ok _ => destruct p eqn:?
  | (match ?p with (_, _) => _ end) = Ok _ => destruct p eqn:?
  | Ok _ = Ok _ => injection H as H
  end.
Ltac ok_inv H := repeat (ok_step H; simpl in H).

Lemma for_loop_app {St} (body : nat -> St -> outcome St)
    (l1 l2 : list nat) (s : St) :
  for_loop body (l1 ++ l2) s =
  (do s' <- for_loop body l1 s; for_loop body l2 s').
Proof.
  revert s. induction l1 as [|i l1 IH]; intros s; simpl; [done|].
  destruct (body i s); simpl; auto.
Qed.

(** Invariant rule for a counting loop. *)
Lemma for_loop_seq_inv {St} (I : nat -> St -> Prop)
    (body : nat -> St -> outcome St) (n a : nat) (s s' : St) :
  for_loop body (seq a n) s = Ok s' ->
  I a s ->
  (forall i s1 s2, (a <= i < a + n)%nat -> I i s1 -> body i s1 = Ok s2 ->
                   I (S i) s2) ->
  I (a + n)%nat s'.
Proof.
  revert a s. induction n as [|n IH]; intros a s H Ha Hstep; simpl in H.
  - injection H as <-. by rewrite Nat.add_0_r.
  - apply obind_Ok in H as (s1 & E & H).
    replace (a + S n)%nat with (S a + n)%nat by lia.
    apply (IH (S a) s1 H).
    + apply (Hstep a s); [lia|done|done].
    + intros i t1 t2 Hi. apply Hstep. lia.
Qed.

(** A loop whose every step keeps [I] keeps [I]. *)
Lemma for_loop_preserves {St} (I : St -> Prop)
    (body : nat -> St -> outcome St) (ix : list nat) (s s' : St) :
  for_loop body ix s = Ok s' ->
  I s ->
  (forall i s1 s2, i ∈ ix -> I s1 -> body i s1 = Ok s2 -> I s2) ->
  I s'.
Proof.
  revert s. induction ix as [|i ix IH]; intros s H Hs Hstep; simpl in H.
  - by injection H as <-.
  - apply obind_Ok in H as (s1 & E & H).
    apply (IH s1 H).
    + apply (Hstep i s); [left|done|done].
    + intros j t1 t2 Hj. apply Hstep. by right.
Qed.

(** ** The workspace stage of Reshape *)

Lemma size_mul_range (a b : Z) : 0 <= size_mul a b < size_t_modulus.
Proof. unfold size_mul, to_size_t. apply Z.mod_pos_bound. reflexivity. Qed.

Lemma size_mul_exact (a b : Z) :
  0 <= a * b < size_t_modulus -> size_mul a b = a * b.
Proof. intros H. unfold size_mul, to_size_t. by apply Z.mod_small. Qed.

(** The reduction yields an upper bound of every stored size. *)
Lemma reduce_sizes_bound (L : Layer) (B : nat) (acc res : Z * Z * Z) :
  for_loop (reduce_sizes L) (seq 0 B) acc = Ok res ->
  (acc.1.1 <= res.1.1 /\ acc.1.2 <= res.1.2 /\ acc.2 <= res.2) /\
  forall i, (i < B)%nat ->
    exists f d r,
      arr_data (workspace_fwd_sizes_ L) !! i = Some f /\ arr_data (workspace_bwd_data_sizes_ L) !! i = Some d /\
      arr_data (workspace_bwd_filter_sizes_ L) !! i = Some r /\
      f <= res.1.1 /\ d <= res.1.2 /\ r <= res.2.
Proof.
  intros H.
  apply (for_loop_seq_inv
    (fun k s =>
       (acc.1.1 <= s.1.1 /\ acc.1.2 <= s.1.2 /\ acc.2 <= s.2) /\
       forall i, (i < k)%nat ->
         exists f d r,
           arr_data (workspace_fwd_sizes_ L) !! i = Some f /\ arr_data (workspace_bwd_data_sizes_ L) !! i = Some d /\
           arr_data (workspace_bwd_filter_sizes_ L) !! i = Some r /\
           f <= s.1.1 /\ d <= s.1.2 /\ r <= s.2)) in H; [done| |].
  - split; [lia|]. intros i Hi. lia.
  - clear H. intros i [[a b] c] s2 Hi [Hacc IH] Hb. simpl in *.
    ok_inv Hb. subst s2. simpl.
    apply index_Ok in E, E0, E1.
    split; [lia|].
    intros j Hj. destruct (decide (j = i)) as [->|Hne].
    + exists x, x0, x1. repeat split; try done; lia.
    + destruct (IH j) as (f & d & r & ? & ? & ? & ?); [lia|].
      exists f, d, r. repeat split; try done; lia.
Qed.

(** [max_workspace] bounds the three sizes of every input, and is never
    negative. *)
Lemma max_workspace_of_bound (L : Layer) (B : nat) (m : Z) :
  max_workspace_of L B = Ok m ->
  0 <= m /\
  forall i, (i < B)%nat ->
    exists f d r,
      arr_data (workspace_fwd_sizes_ L) !! i = Some f /\ arr_data (workspace_bwd_data_sizes_ L) !! i = Some d /\
      arr_data (workspace_bwd_filter_sizes_ L) !! i = Some r /\ f <= m /\ d <= m /\ r <= m.
Proof.
  unfold max_workspace_of. intros H.
  apply obind_Ok in H as ([[a b] c] & E & H). injection H as <-.
  apply reduce_sizes_bound in E as [Hacc E]. simpl in *.
  split; [lia|].
  intros i Hi. destruct (E i Hi) as (f & d & r & ? & ? & ? & ?).
  exists f, d, r. repeat split; try done; lia.
Qed.

(** The loop that sets the pointer aliases. *)
Lemma alias_loop (m : Z) (n : nat) (L L' : Layer) :
  for_loop (alias_workspace m) (seq 0 n) L = Ok L' ->
  fixed_members L' = fixed_members L /\ offsets L' = offsets L /\
  algo_arrays L' = algo_arrays L /\
  workspaceSizeInBytes L' = workspaceSizeInBytes L /\
  workspaceData L' = workspaceData L /\
  workspace_shape L' = workspace_shape L /\
  (n <= length (arr_data (workspace L)))%nat /\
  (forall g, (g < n)%nat ->
     arr_data (workspace L') !! g =
       Some (workspaceData L + size_mul (Z.of_nat g) m)) /\
  (forall g, (n <= g)%nat ->
     arr_data (workspace L') !! g = arr_data (workspace L) !! g).
Proof.
  intros H.
  apply (for_loop_seq_inv
    (fun k Lk =>
       fixed_members Lk = fixed_members L /\ offsets Lk = offsets L /\
       algo_arrays Lk = algo_arrays L /\
       workspaceSizeInBytes Lk = workspaceSizeInBytes L /\
       workspaceData Lk = workspaceData L /\
       workspace_shape Lk = workspace_shape L /\
       (k <= length (arr_data (workspace L)))%nat /\
       (forall g, (g < k)%nat ->
          arr_data (workspace Lk) !! g =
            Some (workspaceData L + size_mul (Z.of_nat g) m)) /\
       (forall g, (k <= g)%nat ->
          arr_data (workspace Lk) !! g = arr_data (workspace L) !! g))) in H;
    [done| |].
  - repeat split; try done; try lia.
  - clear H. intros i L1 L2 Hi (Hf & Ho & Ha & Hs & Hd & Hsh & Hlen & Hlt & Hge) Hb.
    unfold alias_workspace in Hb. ok_inv Hb. subst L2.
    apply arr_assign_Ok in E as (Hi' & ->).
    unfold workspace_shape in *. simpl. rewrite length_insert.
    injection Hsh as Hsh1 Hsh2.
    repeat split; try done; try congruence.
    + lia.
    + intros g Hg. destruct (decide (g = i)) as [->|Hne].
      * rewrite list_lookup_insert_eq by done. by rewrite Hd.
      * rewrite list_lookup_insert_ne by done. apply Hlt. lia.
    + intros g Hg. rewrite list_lookup_insert_ne by lia. apply Hge. lia.
Qed.

(** The loop that NULLs the per-group pointers. *)
Lemma null_loop (n : nat) (L L' : Layer) :
  for_loop null_workspace (seq 0 n) L = Ok L' ->
  fixed_members L' = fixed_members L /\ offsets L' = offsets L /\
  algo_arrays L' = algo_arrays L /\
  workspaceSizeInBytes L' = workspaceSizeInBytes L /\
  workspaceData L' = workspaceData L /\
  workspace_shape L' = workspace_shape L /\
  (forall g, (g < n)%nat -> arr_data (workspace L') !! g = Some 0).
Proof.
  intros H.
  apply (for_loop_seq_inv
    (fun k Lk =>
       fixed_members Lk = fixed_members L /\ offsets Lk = offsets L /\
       algo_arrays Lk = algo_arrays L /\
       workspaceSizeInBytes Lk = workspaceSizeInBytes L /\
       workspaceData Lk = workspaceData L /\
       workspace_shape Lk = workspace_shape L /\
       (forall g, (g < k)%nat -> arr_data (workspace Lk) !! g = Some 0)))
    in H; [done| |].
  - repeat split; try done. intros g Hg. lia.
  - clear H. intros i L1 L2 Hi (Hf & Ho & Ha & Hs & Hd & Hsh & Hlt) Hb.
    unfold null_workspace in Hb. ok_inv Hb. subst L2.
    apply arr_assign_Ok in E as (Hi' & ->).
    unfold workspace_shape in *. simpl. rewrite length_insert.
    repeat split; try done.
    intros g Hg. destruct (decide (g = i)) as [->|Hne].
    + by rewrite list_lookup_insert_eq.
    + rewrite list_lookup_insert_ne by done. apply Hlt. lia.
Qed.

(** The loop that forces the zero memory path. *)
Lemma zero_memory_loop (V : Vendor) (n : nat) (L L' : Layer) :
  for_loop (zero_memory_path V) (seq 0 n) L = Ok L' ->
  fixed_members L' = fixed_members L /\ offsets L' = offsets L /\
  workspace_state L' = workspace_state L /\
  algo_arrays_shape L' = algo_arrays_shape L /\
  (forall i, (i < n)%nat ->
     fwd_choice L' i =
       (Some (CUDNN_CONVOLUTION_FWD_ALGO_IMPLICIT_GEMM V), Some 0) /\
     bwd_filter_choice L' i =
       (Some (CUDNN_CONVOLUTION_BWD_FILTER_ALGO_0 V), Some 0) /\
     bwd_data_choice L' i =
       (Some (CUDNN_CONVOLUTION_BWD_DATA_ALGO_0 V), Some 0)) /\
  (forall i, (n <= i)%nat ->
     fwd_choice L' i = fwd_choice L i /\
     bwd_filter_choice L' i = bwd_filter_choice L i /\
     bwd_data_choice L' i = bwd_data_choice L i).
Proof.
  intros H.
  apply (for_loop_seq_inv
    (fun k Lk =>
       fixed_members Lk = fixed_members L /\ offsets Lk = offsets L /\
       workspace_state Lk = workspace_state L /\
       algo_arrays_shape Lk = algo_arrays_shape L /\
       (forall i, (i < k)%nat ->
          fwd_choice Lk i =
            (Some (CUDNN_CONVOLUTION_FWD_ALGO_IMPLICIT_GEMM V), Some 0) /\
          bwd_filter_choice Lk i =
            (Some (CUDNN_CONVOLUTION_BWD_FILTER_ALGO_0 V), Some 0) /\
          bwd_data_choice Lk i =
            (Some (CUDNN_CONVOLUTION_BWD_DATA_ALGO_0 V), Some 0)) /\
       (forall i, (k <= i)%nat ->
          fwd_choice Lk i = fwd_choice L i /\
          bwd_filter_choice Lk i = bwd_filter_choice L i /\
          bwd_data_choice Lk i = bwd_data_choice L i))) in H; [done| |].
  - repeat split; try done; lia.
  - clear H. intros i L1 L2 Hi (Hf & Ho & Hw & Hsh & Hlt & Hge) Hb.
    unfold zero_memory_path in Hb. ok_inv Hb. subst L2.
    apply arr_assign_Ok in E as (? & ->).
    apply arr_assign_Ok in E0 as (? & ->).
    apply arr_assign_Ok in E1 as (? & ->).
    apply arr_assign_Ok in E2 as (? & ->).
    apply arr_assign_Ok in E3 as (? & ->).
    apply arr_assign_Ok in E4 as (? & ->).
    simpl in *.
    unfold algo_arrays_shape, fwd_choice, bwd_filter_choice, bwd_data_choice
      in *.
    simpl. rewrite !length_insert.
    split_and!; try done.
    + intros j Hj. destruct (decide (j = i)) as [->|Hne].
      * by rewrite !list_lookup_insert_eq.
      * rewrite !list_lookup_insert_ne by done. apply Hlt. lia.
    + intros j Hj. rewrite !list_lookup_insert_ne by lia. apply Hge. lia.
Qed.

(** The three ways the workspace stage ends. *)
Lemma Reshape_workspace_spec (V : Vendor) (B : nat) (w w' : World)
    (L L' : Layer) (r : realloc) :
  Reshape_workspace V B (w, L) = Ok (w', L', r) ->
  exists m,
    max_workspace_of L B = Ok m /\
    fixed_members L' = fixed_members L /\ offsets L' = offsets L /\
    workspace_shape L' = workspace_shape L /\
    let total := size_mul m (groups L) in
    let G := Z.to_nat (group_ (base L) * CUDNN_STREAMS_PER_GROUP) in
    match r with
    | kept =>
        total <= workspaceSizeInBytes L /\ w' = w /\ L' = L
    | reallocated =>
        workspaceSizeInBytes L < total /\
        (exists p,
           cudaMalloc_result V (cudaFree (workspaceData L) w) total = Some p /\
           w' = set_w_gpu ((p, total) :: w_gpu (cudaFree (workspaceData L) w))
                  w /\
           workspaceData L' = p) /\
        workspaceSizeInBytes L' = total /\
        algo_arrays L' = algo_arrays L /\
        (forall g, (g < G)%nat ->
           arr_data (workspace L') !! g =
             Some (workspaceData L' + size_mul (Z.of_nat g) m))
    | alloc_failed =>
        workspaceSizeInBytes L < total /\
        cudaMalloc_result V (cudaFree (workspaceData L) w) total = None /\
        w' = cudaFree (workspaceData L) w /\
        workspaceData L' = 0 /\
        workspaceSizeInBytes L' = 0 /\
        algo_arrays_shape L' = algo_arrays_shape L /\
        (forall g, (g < G)%nat ->
           arr_data (workspace L') !! g =
             Some (0 + size_mul (Z.of_nat g) m)) /\
        (forall i, (i < B)%nat ->
           fwd_choice L' i =
             (Some (CUDNN_CONVOLUTION_FWD_ALGO_IMPLICIT_GEMM V), Some 0) /\
           bwd_filter_choice L' i =
             (Some (CUDNN_CONVOLUTION_BWD_FILTER_ALGO_0 V), Some 0) /\
           bwd_data_choice L' i =
             (Some (CUDNN_CONVOLUTION_BWD_DATA_ALGO_0 V), Some 0))
    end.
Proof.
  unfold Reshape_workspace. intros H.
  apply obind_Ok in H as (m & Em & H). exists m. split; [done|].
  destruct (Z.ltb_spec (workspaceSizeInBytes L) (size_mul m (groups L)))
    as [Hlt|Hge].
  - apply obind_Ok in H as ([[w1 L1] r1] & E & H).
    apply obind_Ok in H as (L2 & Ea & H). injection H as <- <- <-.
    apply alias_loop in Ea as (Hf & Ho & Ha & Hs & Hd & Hsh & _ & Hal & _).
    unfold cudaMalloc in E. simpl in E.
    destruct (cudaMalloc_result V _ _) as [p|] eqn:Emalloc.
    + injection E as <- <- <-. simpl in *.
      repeat split; try done.
      * exists p. by rewrite Hd.
      * intros g Hg. rewrite Hd. by apply Hal.
    + apply obind_Ok in E as (L3 & Ez & E).
      apply obind_Ok in E as (L4 & En & E). injection E as <- <- <-.
      apply zero_memory_loop in Ez as (Hf3 & Ho3 & Hw3 & Hsh3 & Hz & _).
      apply null_loop in En as (Hf4 & Ho4 & Ha4 & Hs4 & Hd4 & Hsh4 & _).
      simpl in *.
      unfold workspace_state, workspace_shape, algo_arrays_shape, fwd_choice,
        bwd_filter_choice, bwd_data_choice, algo_arrays, fixed_members,
        offsets in *.
      simpl in *.
      injection Ha as -> -> -> -> -> ->.
      injection Ha4 as -> -> -> -> -> ->.
      injection Hw3 as Hw3a Hw3b Hw3c. rewrite Hw3c in Hsh4.
      split_and!; try congruence; try done.
  - by injection H as <- <- <-.
Qed.

(** ** The per-input loop of Reshape *)

Ltac arr_facts :=
  repeat match goal with
  | H : arr_assign _ _ _ = Ok _ |- _ =>
      let Hl := fresh "Hlen" in apply arr_assign_Ok in H as (Hl & ->)
  | H : index _ _ = Ok _ |- _ => apply index_Ok in H
  | H : checked _ _ = Ok _ |- _ => apply checked_Ok in H
  | H : idiv _ _ = Ok _ |- _ =>
      let Hn := fresh "Hnz" in apply idiv_Ok in H as (Hn & H)
  end.

Ltac unfold_views :=
  unfold algos_frame, choices, fwd_choice, bwd_filter_choice,
    bwd_data_choice, algo_arrays_shape, algo_arrays, workspace_state,
    workspace_shape, fixed_members, offsets, vendor_objects in *.

Lemma first_suitable_first_at (ok : AlgoPerf -> bool) (prefs : list AlgoPerf)
    (p : AlgoPerf) :
  first_suitable ok prefs = Some p <-> exists n, first_at ok prefs n p.
Proof.
  unfold first_at. induction prefs as [|q prefs IH]; simpl.
  - split; [discriminate|]. intros (n & H & _). by destruct n.
  - destruct (ok q) eqn:Eq.
    + split.
      * intros [= ->]. exists 0%nat. split_and!; [done|done|]. intros; lia.
      * intros ([|n] & H & Hp & Hm).
        -- simpl in H. congruence.
        -- specialize (Hm 0%nat q). simpl in Hm.
           assert (ok q = false) by (apply Hm; [lia|done]). congruence.
    + rewrite IH. split.
      * intros (n & H & Hp & Hm). exists (S n). split_and!; [done|done|].
        intros [|m] q' Hlt Hq'; simpl in Hq'.
        -- congruence.
        -- apply (Hm m); [lia|done].
      * intros ([|n] & H & Hp & Hm); simpl in H.
        -- congruence.
        -- exists n. split_and!; [done|done|].
           intros m q' Hlt Hq'. apply (Hm (S m)); [lia|done].
Qed.

Lemma first_suitable_none (ok : AlgoPerf -> bool) (prefs : list AlgoPerf) :
  first_suitable ok prefs = None <->
  forall n q, prefs !! n = Some q -> ok q = false.
Proof.
  induction prefs as [|q prefs IH]; simpl.
  - split; [|done]. intros _ n q H. by destruct n.
  - destruct (ok q) eqn:Eq.
    + split; [discriminate|]. intros H. specialize (H 0%nat q eq_refl).
      congruence.
    + rewrite IH. split.
      * intros H [|n] q'; simpl; [congruence|apply H].
      * intros H n q' Hq'. apply (H (S n)). done.
Qed.

(** Algorithm choice for one input, cuDNN >= 8. *)
Lemma choose_algos_v8_spec (V : Vendor) (lc : Locals) (w : World)
    (i bd td cd : nat) (L L1 : Layer) :
  choose_algos_v8 V lc w i bd td cd L = Ok L1 ->
  algos_frame L L1 /\
  (forall j, j <> i -> choices L1 j = choices L j) /\
  exists h0 fwd_prefs bwd_prefs,
    arr_data (handle_ L) !! 0%nat = Some h0 /\
    cudnnGetConvolutionForwardAlgorithm_v7 V w h0 bd (filter_desc_ L) cd td 4
      = Some fwd_prefs /\
    cudnnGetConvolutionBackwardDataAlgorithm_v7 V w h0 (filter_desc_ L) td cd
      bd 4 = Some bwd_prefs /\
    match first_suitable (fwd_suitable V (free_memory lc))
                         (take 4 fwd_prefs) with
    | Some p =>
        fwd_choice L1 i = (Some (algo p), Some (memory p)) /\
        bwd_filter_choice L1 i =
          (Some (CUDNN_CONVOLUTION_BWD_FILTER_ALGO_1 V),
           Some (size_mul 2 (memory p)))
    | None =>
        fwd_choice L1 i = fwd_choice L i /\
        bwd_filter_choice L1 i = bwd_filter_choice L i
    end /\
    match first_suitable (bwd_data_suitable V (free_memory lc))
                         (take 4 bwd_prefs) with
    | Some p => bwd_data_choice L1 i = (Some (algo p), Some (memory p))
    | None => bwd_data_choice L1 i = bwd_data_choice L i
    end.
Proof.
  unfold choose_algos_v8. intros H.
  apply obind_Ok in H as (h0 & Eh & H).
  apply obind_Ok in H as (pf & Ef & H).
  apply obind_Ok in H as (L2 & E2 & H).
  apply obind_Ok in H as (pb & Eb & H).
  arr_facts.
  assert (HL2 : algos_frame L L2 /\
    (forall j, j <> i -> choices L2 j = choices L j) /\
    bwd_data_choice L2 i = bwd_data_choice L i /\
    match first_suitable (fwd_suitable V (free_memory lc)) (take 4 pf) with
    | Some p =>
        fwd_choice L2 i = (Some (algo p), Some (memory p)) /\
        bwd_filter_choice L2 i =
          (Some (CUDNN_CONVOLUTION_BWD_FILTER_ALGO_1 V),
           Some (size_mul 2 (memory p)))
    | None =>
        fwd_choice L2 i = fwd_choice L i /\
        bwd_filter_choice L2 i = bwd_filter_choice L i
    end).
  { destruct (first_suitable _ (take 4 pf)) as [p|].
    - ok_inv E2. subst L2. arr_facts. unfold_views. simpl in *.
      rewrite list_lookup_insert_eq in E3 by done.
      injection E3 as <-.
      rewrite !length_insert. split_and!; try done.
      + intros j Hj. by rewrite !list_lookup_insert_ne by done.
      + by rewrite !list_lookup_insert_eq by done.
      + by rewrite !list_lookup_insert_eq by done.
    - injection E2 as <-. unfold algos_frame. done. }
  destruct HL2 as ((Hf & Ho & Hw & Hsh) & Hne & Hbd & Hsel).
  assert (Hh : handle_ L2 = handle_ L /\ filter_desc_ L2 = filter_desc_ L).
  { unfold fixed_members in Hf. by injection Hf as _ _ _ -> -> _ _ _ _ _. }
  destruct Hh as [Hh Hfd]. rewrite Hfd in Eb.
  destruct (first_suitable _ (take 4 pb)) as [p|] eqn:Esel.
  - ok_inv H. subst L1. arr_facts. unfold_views. simpl in *.
    rewrite !length_insert.
    injection Hsh as -> -> -> -> -> -> -> -> -> -> -> ->.
    split_and!; try done.
    + intros j Hj. rewrite !list_lookup_insert_ne by done.
      specialize (Hne j Hj). congruence.
    + exists h0, pf, pb. split_and!; try done.
      rewrite Esel. by rewrite !list_lookup_insert_eq by done.
  - injection H as <-. split_and!; try done.
    exists h0, pf, pb. split_and!; try done. by rewrite Esel.
Qed.

(** Algorithm choice for one input, cuDNN before 8: every stored value is
    the answer of a vendor query. *)
Lemma choose_algos_legacy_spec (V : Vendor) (lc : Locals) (w : World)
    (i bd td cd : nat) (L L1 : Layer) :
  choose_algos_legacy V lc w i bd td cd L = Ok L1 ->
  algos_frame L L1 /\
  (forall j, j <> i -> choices L1 j = choices L j) /\
  exists h0 fa fs ra rs da ds,
    arr_data (handle_ L) !! 0%nat = Some h0 /\
    cudnnGetConvolutionForwardAlgorithm V w h0 bd (filter_desc_ L) cd td
      (workspace_limit_bytes lc) = Some fa /\
    cudnnGetConvolutionForwardWorkspaceSize V w h0 bd (filter_desc_ L) cd td
      fa = Some fs /\
    cudnnGetConvolutionBackwardFilterAlgorithm V w h0 bd td cd
      (filter_desc_ L) (workspace_limit_bytes lc) = Some ra /\
    cudnnGetConvolutionBackwardFilterWorkspaceSize V w h0 bd td cd
      (filter_desc_ L) ra = Some rs /\
    cudnnGetConvolutionBackwardDataAlgorithm V w h0 (filter_desc_ L) td cd bd
      (workspace_limit_bytes lc) = Some da /\
    cudnnGetConvolutionBackwardDataWorkspaceSize V w h0 (filter_desc_ L) td
      cd bd da = Some ds /\
    choices L1 i = ((Some fa, Some fs), (Some ra, Some rs), (Some da, Some ds)).
Proof.
  unfold choose_algos_legacy. intros H. ok_inv H. subst L1. arr_facts.
  simpl in *.
  repeat match goal with
  | H : <[_:=_]> _ !! _ = Some _ |- _ =>
      rewrite list_lookup_insert_eq in H by done; injection H as <-
  end.
  unfold_views. simpl. rewrite !length_insert. split_and!; try done.
  - intros j Hj. by rewrite !list_lookup_insert_ne by done.
  - do 7 eexists. split_and!; try eassumption.
    by rewrite !list_lookup_insert_eq by done.
Qed.

(** *** Object tables *)

Lemma st_put_Some {A} (i : nat) (x : A) (s s' : store A) :
  st_put i x s = Some s' -> (i < length s)%nat /\ s' = <[i:=Some x]> s.
Proof.
  unfold st_put, st_get. destruct (s !! i) as [o|] eqn:E; simpl; [|done].
  destruct o; simpl; [|done]. intros [= <-].
  split; [|done]. by eapply lookup_lt_Some.
Qed.

Lemma st_get_put_eq {A} (i : nat) (x : A) (s : store A) :
  (i < length s)%nat -> st_get (<[i:=Some x]> s) i = Some x.
Proof. intros H. unfold st_get. by rewrite list_lookup_insert_eq. Qed.

Lemma st_get_put_ne {A} (i j : nat) (o : option A) (s : store A) :
  i <> j -> st_get (<[i:=o]> s) j = st_get s j.
Proof. intros H. unfold st_get. by rewrite list_lookup_insert_ne. Qed.

Lemma st_get_del {A} (i : nat) (s : store A) : st_get (st_del i s) i = None.
Proof.
  unfold st_get, st_del. destruct (decide (i < length s)%nat).
  - by rewrite list_lookup_insert_eq.
  - rewrite list_insert_ge by lia. by rewrite lookup_ge_None_2 by lia.
Qed.

Lemma st_get_del_None {A} (i j : nat) (s : store A) :
  st_get s j = None -> st_get (st_del i s) j = None.
Proof.
  intros H. destruct (decide (i = j)) as [->|Hne].
  - apply st_get_del.
  - unfold st_del. by rewrite st_get_put_ne.
Qed.

Lemma setTensor4dDesc_Ok (d : nat) (t : Tensor4d) (w w' : World) :
  cudnn.setTensor4dDesc d t w = Ok w' ->
  (d < length (w_tensors w))%nat /\
  w' = set_w_tensors (<[d:=Some (Some t)]> (w_tensors w)) w.
Proof.
  unfold cudnn.setTensor4dDesc. intros H. ok_inv H. subst w'.
  apply checked_Ok, st_put_Some in E as [? ->]. done.
Qed.

Lemma setConvolutionDesc_Ok (d : nat) (c : Conv2d) (w w' : World) :
  cudnn.setConvolutionDesc d c w = Ok w' ->
  (d < length (w_convs w))%nat /\
  w' = set_w_convs (<[d:=Some (Some c)]> (w_convs w)) w.
Proof.
  unfold cudnn.setConvolutionDesc. intros H. ok_inv H. subst w'.
  apply checked_Ok, st_put_Some in E as [? ->]. done.
Qed.

Lemma Reshape_input_spec (V : Vendor) (lc : Locals) (i : nat) (w w1 : World)
    (L L1 : Layer) :
  Reshape_input V lc i (w, L) = Ok (w1, L1) ->
  exists bd td cd,
    bottom_descs_ L !! i = Some bd /\ top_descs_ L !! i = Some td /\
    conv_descs_ L !! i = Some cd /\
    group_ (base L) <> 0 /\
    vendor_objects w1 = vendor_objects w /\ w_gpu w1 = w_gpu w /\
    length (w_tensors w1) = length (w_tensors w) /\
    length (w_convs w1) = length (w_convs w) /\
    (forall d, d <> bd -> d <> td ->
       st_get (w_tensors w1) d = st_get (w_tensors w) d) /\
    (forall d, d <> cd -> st_get (w_convs w1) d = st_get (w_convs w) d) /\
    (bd <> td ->
     st_get (w_tensors w1) bd =
       Some (Some (bottom_tensor (base L) lc
                     (Z.quot (channels_ (base L)) (group_ (base L)))))) /\
    st_get (w_tensors w1) td =
      Some (Some (top_tensor (base L) lc
                    (Z.quot (num_output_ (base L)) (group_ (base L))))) /\
    st_get (w_convs w1) cd = Some (Some (conv_of L lc bd)) /\
    (if CUDNN_VERSION_MIN_8 V then choose_algos_v8 V lc w1 i bd td cd L
     else choose_algos_legacy V lc w1 i bd td cd L) = Ok L1.
Proof.
  unfold Reshape_input. intros H.
  apply obind_Ok in H as (bd & Ebd & H).
  apply obind_Ok in H as (cb & Ecb & H).
  apply obind_Ok in H as (wa & Ewa & H).
  apply obind_Ok in H as (td & Etd & H).
  apply obind_Ok in H as (ct & Ect & H).
  apply obind_Ok in H as (wb & Ewb & H).
  apply obind_Ok in H as (cd & Ecd & H).
  apply obind_Ok in H as (wc & Ewc & H).
  apply obind_Ok in H as (L2 & EL & H). injection H as <- <-.
  arr_facts. subst cb ct.
  apply setTensor4dDesc_Ok in Ewa as [Hbd ->].
  apply setTensor4dDesc_Ok in Ewb as [Htd ->].
  apply setConvolutionDesc_Ok in Ewc as [Hcd ->].
  simpl in *. rewrite length_insert in Htd.
  exists bd, td, cd. unfold vendor_objects. simpl.
  rewrite !length_insert. split_and!; try done.
  - intros d H1 H2. by rewrite !st_get_put_ne by done.
  - intros d H1. by rewrite !st_get_put_ne by done.
  - intros Hne. rewrite st_get_put_ne by done. by rewrite st_get_put_eq.
  - rewrite st_get_put_eq; [done|]. by rewrite length_insert.
  - by rewrite st_get_put_eq.
Qed.

Lemma algos_frame_refl (L : Layer) : algos_frame L L.
Proof. by unfold algos_frame. Qed.

Lemma algos_frame_trans (L1 L2 L3 : Layer) :
  algos_frame L1 L2 -> algos_frame L2 L3 -> algos_frame L1 L3.
Proof. unfold algos_frame. intuition congruence. Qed.

(** One iteration leaves the other inputs' choices alone. *)
Lemma Reshape_input_frame (V : Vendor) (lc : Locals) (i : nat) (w w1 : World)
    (L L1 : Layer) :
  Reshape_input V lc i (w, L) = Ok (w1, L1) ->
  algos_frame L L1 /\ (forall j, j <> i -> choices L1 j = choices L j).
Proof.
  intros H. apply Reshape_input_spec in H as (bd & td & cd & H).
  destruct H as (_ & _ & _ & _ & _ & _ & _ & _ & _ & _ & _ & _ & _ & H).
  destruct (CUDNN_VERSION_MIN_8 V).
  - apply choose_algos_v8_spec in H as (? & ? & _). done.
  - apply choose_algos_legacy_spec in H as (? & ? & _). done.
Qed.

(** What any run of the per-input loop leaves alone. *)
Lemma Reshape_inputs_frame (V : Vendor) (lc : Locals) (ix : list nat)
    (w w' : World) (L L' : Layer) :
  for_loop (Reshape_input V lc) ix (w, L) = Ok (w', L') ->
  algos_frame L L' /\
  vendor_objects w' = vendor_objects w /\ w_gpu w' = w_gpu w /\
  length (w_tensors w') = length (w_tensors w) /\
  length (w_convs w') = length (w_convs w) /\
  (forall j, j ∉ ix -> choices L' j = choices L j) /\
  (forall d,
     (forall j, j ∈ ix ->
        bottom_descs_ L !! j <> Some d /\ top_descs_ L !! j <> Some d) ->
     st_get (w_tensors w') d = st_get (w_tensors w) d) /\
  (forall d,
     (forall j, j ∈ ix -> conv_descs_ L !! j <> Some d) ->
     st_get (w_convs w') d = st_get (w_convs w) d).
Proof.
  intros H.
  apply (for_loop_preserves
    (fun s =>
       algos_frame L s.2 /\
       vendor_objects s.1 = vendor_objects w /\ w_gpu s.1 = w_gpu w /\
       length (w_tensors s.1) = length (w_tensors w) /\
       length (w_convs s.1) = length (w_convs w) /\
       (forall j, j ∉ ix -> choices s.2 j = choices L j) /\
       (forall d,
          (forall j, j ∈ ix ->
             bottom_descs_ L !! j <> Some d /\ top_descs_ L !! j <> Some d) ->
          st_get (w_tensors s.1) d = st_get (w_tensors w) d) /\
       (forall d,
          (forall j, j ∈ ix -> conv_descs_ L !! j <> Some d) ->
          st_get (w_convs s.1) d = st_get (w_convs w) d))) in H; [done| |].
  - simpl. split_and!; try done.
  - clear H. intros i [w1 L1] [w2 L2] Hi
      (Hfr & Hvo & Hgpu & Hlt & Hlc & Hch & Ht & Hc) Hb. simpl in *.
    pose proof (Reshape_input_frame _ _ _ _ _ _ _ Hb) as [Hfr2 Hch2].
    apply Reshape_input_spec in Hb
      as (bd & td & cd & Ebd & Etd & Ecd & _ & Hvo2 & Hgpu2 & Hlt2 & Hlc2 &
          Ht2 & Hc2 & _).
    assert (Hd : bottom_descs_ L1 = bottom_descs_ L /\
                 top_descs_ L1 = top_descs_ L /\
                 conv_descs_ L1 = conv_descs_ L).
    { destruct Hfr as (Hf & _). unfold fixed_members in Hf.
      by injection Hf as _ _ _ _ _ -> -> -> _ _. }
    destruct Hd as (Hd1 & Hd2 & Hd3). rewrite Hd1 in Ebd. rewrite Hd2 in Etd.
    rewrite Hd3 in Ecd.
    split_and!; try congruence.
    + by eapply algos_frame_trans.
    + intros j Hj. rewrite Hch2; [by apply Hch|]. intros ->. done.
    + intros d Hd. rewrite Ht2; [by apply Ht| |].
      * intros ->. by destruct (Hd i Hi).
      * intros ->. by destruct (Hd i Hi).
    + intros d Hd. rewrite Hc2; [by apply Hc|]. intros ->. by apply (Hd i Hi).
Qed.

(** The run of the loop over all inputs, cut at input [i]. *)
Lemma Reshape_inputs_at (V : Vendor) (lc : Locals) (B i : nat)
    (w w' : World) (L L' : Layer) :
  for_loop (Reshape_input V lc) (seq 0 B) (w, L) = Ok (w', L') ->
  (i < B)%nat ->
  exists wa La wi Li,
    for_loop (Reshape_input V lc) (seq 0 i) (w, L) = Ok (wa, La) /\
    Reshape_input V lc i (wa, La) = Ok (wi, Li) /\
    for_loop (Reshape_input V lc) (seq (S i) (B - S i)) (wi, Li)
      = Ok (w', L').
Proof.
  intros H Hi.
  replace B with (i + S (B - S i))%nat in H by lia.
  rewrite seq_app, for_loop_app in H. simpl in H.
  apply obind_Ok in H as ([wa La] & Ea & H).
  apply obind_Ok in H as ([wi Li] & Ei & H).
  exists wa, La, wi, Li. done.
Qed.

(** ** Reshape as a whole *)

Lemma Reshape_inputs_Ok (V : Vendor) (w w1 : World) (L L1 : Layer)
    (bottom top : list Blob) :
  Reshape_inputs V w L bottom top = Ok (w1, L1) ->
  group_ (base L) <> 0 /\
  exists lc,
    Reshape_locals V w (base L) bottom top = Ok lc /\
    free_memory lc = cudaMemGetInfo_free V w /\
    workspace_limit_bytes lc = 8 * 1024 * 1024 /\
    for_loop (Reshape_input V lc) (seq 0 (length bottom))
      (w, set_top_offset_ (Z.quot (top_dim_ (base L)) (group_ (base L)))
            (set_bottom_offset_
               (Z.quot (bottom_dim_ (base L)) (group_ (base L))) L))
      = Ok (w1, L1).
Proof.
  unfold Reshape_inputs. intros H.
  apply obind_Ok in H as (q1 & E1 & H).
  apply obind_Ok in H as (q2 & E2 & H).
  apply obind_Ok in H as (lc & Elc & H).
  apply idiv_Ok in E1 as [Hg ->]. apply idiv_Ok in E2 as [_ ->].
  split; [done|]. exists lc. split_and!; try done.
  - unfold Reshape_locals in Elc. ok_inv Elc. by subst lc.
  - unfold Reshape_locals in Elc. ok_inv Elc. by subst lc.
Qed.

(** The per-input loop changes neither the fixed members nor the shared
    workspace. *)
Lemma Reshape_inputs_members (V : Vendor) (w w1 : World) (L L1 : Layer)
    (bottom top : list Blob) :
  Reshape_inputs V w L bottom top = Ok (w1, L1) ->
  fixed_members L1 = fixed_members L /\
  workspace_state L1 = workspace_state L /\
  algo_arrays_shape L1 = algo_arrays_shape L /\
  offsets L1 = (Z.quot (bottom_dim_ (base L)) (group_ (base L)),
                Z.quot (top_dim_ (base L)) (group_ (base L))) /\
  vendor_objects w1 = vendor_objects w /\ w_gpu w1 = w_gpu w.
Proof.
  intros H. apply Reshape_inputs_Ok in H as (_ & lc & _ & _ & _ & H).
  apply Reshape_inputs_frame in H
    as ((Hf & Ho & Hw & Hsh) & Hv & Hg & _).
  done.
Qed.

Lemma Reshape_stages (V : Vendor) (w w' : World) (L L' : Layer)
    (bottom top : list Blob) (r : realloc) :
  Reshape V w L bottom top = Ok (w', L', r) ->
  num_spatial_axes_ (base L) = 2 /\
  exists w1 L1 w2,
    Reshape_inputs V w L bottom top = Ok (w1, L1) /\
    Reshape_workspace V (length bottom) (w1, L1) = Ok (w2, L', r) /\
    if bias_term_ (base L')
    then cudnn.setTensor4dDesc (bias_desc_ L')
           (bias_tensor (Z.quot (num_output_ (base L')) (group_ (base L'))))
           w2 = Ok w'
    else w' = w2.
Proof.
  unfold Reshape. destruct (Z.eqb_spec (num_spatial_axes_ (base L)) 2);
    simpl; [|discriminate].
  unfold Reshape_checked. intros H. split; [done|].
  apply obind_Ok in H as ([w1 L1] & E1 & H).
  apply obind_Ok in H as ([[w2 L2] r2] & E2 & H).
  exists w1, L1, w2.
  destruct (bias_term_ (base L2)) eqn:Eb.
  - apply obind_Ok in H as (c & Ec & H).
    apply obind_Ok in H as (w3 & E3 & H). injection H as <- <- <-.
    apply idiv_Ok in Ec as [_ ->]. rewrite Eb. done.
  - injection H as <- <- <-. rewrite Eb. done.
Qed.

(** The bias stage touches the tensor descriptors only. *)
Lemma Reshape_bias_world (L' : Layer) (w2 w' : World) :
  (if bias_term_ (base L')
   then cudnn.setTensor4dDesc (bias_desc_ L')
          (bias_tensor (Z.quot (num_output_ (base L')) (group_ (base L'))))
          w2 = Ok w'
   else w' = w2) ->
  vendor_objects w' = vendor_objects w2 /\ w_gpu w' = w_gpu w2 /\
  w_convs w' = w_convs w2.
Proof.
  destruct (bias_term_ (base L')).
  - intros H. apply setTensor4dDesc_Ok in H as [_ ->]. done.
  - by intros ->.
Qed.

(** Unless the allocation fails, the workspace stage leaves the per-input
    arrays as the loop filled them. *)
Lemma Reshape_workspace_keeps_choices (V : Vendor) (B : nat) (w w' : World)
    (L L' : Layer) (r : realloc) :
  Reshape_workspace V B (w, L) = Ok (w', L', r) ->
  r <> alloc_failed -> algo_arrays L' = algo_arrays L.
Proof.
  intros H Hr. apply Reshape_workspace_spec in H as (m & _ & _ & _ & _ & H).
  simpl in H. destruct r; [|tauto|done].
  by destruct H as (_ & _ & ->).
Qed.

Lemma algo_arrays_choices (L L' : Layer) (i : nat) :
  algo_arrays L' = algo_arrays L -> choices L' i = choices L i.
Proof.
  unfold algo_arrays, choices, fwd_choice, bwd_filter_choice,
    bwd_data_choice. by intros [= -> -> -> -> -> ->].
Qed.

Lemma choices_eq (L L' : Layer) (i : nat) :
  choices L' i = choices L i ->
  fwd_choice L' i = fwd_choice L i /\
  bwd_filter_choice L' i = bwd_filter_choice L i /\
  bwd_data_choice L' i = bwd_data_choice L i.
Proof. unfold choices. intros H. split_and!; congruence. Qed.

(** What the per-input loop stores for input [i], in terms of the world
    [wi] in which the vendor is asked about that input. *)
Lemma Reshape_inputs_choice (V : Vendor) (w w1 : World) (L L1 : Layer)
    (bottom top : list Blob) (i : nat) :
  Reshape_inputs V w L bottom top = Ok (w1, L1) ->
  (i < length bottom)%nat ->
  exists lc wi La Li bd td cd,
    free_memory lc = cudaMemGetInfo_free V w /\
    workspace_limit_bytes lc = 8 * 1024 * 1024 /\
    vendor_objects wi = vendor_objects w /\ w_gpu wi = w_gpu w /\
    bottom_descs_ L !! i = Some bd /\ top_descs_ L !! i = Some td /\
    conv_descs_ L !! i = Some cd /\
    st_get (w_tensors wi) td =
      Some (Some (top_tensor (base L) lc
                    (Z.quot (num_output_ (base L)) (group_ (base L))))) /\
    st_get (w_convs wi) cd = Some (Some (conv_of L lc bd)) /\
    fixed_members La = fixed_members L /\
    choices La i = choices L i /\ choices L1 i = choices Li i /\
    (if CUDNN_VERSION_MIN_8 V then choose_algos_v8 V lc wi i bd td cd La
     else choose_algos_legacy V lc wi i bd td cd La) = Ok Li.
Proof.
  intros H Hi. apply Reshape_inputs_Ok in H as (_ & lc & _ & Hfree & Hlim & H).
  apply (Reshape_inputs_at _ _ _ i) in H as (wa & La & wi & Li & Ea & Ei & Eb);
    [|done].
  apply Reshape_inputs_frame in Ea
    as ((Hf & _) & Hv & Hg & _ & _ & Hch & _).
  apply Reshape_inputs_frame in Eb as (_ & _ & _ & _ & _ & Hch' & _).
  apply Reshape_input_spec in Ei
    as (bd & td & cd & Ebd & Etd & Ecd & _ & Hv2 & Hg2 & _ & _ & _ & _ & _ &
        Htd & Hcd & Ech).
  assert (Hin : i ∉ seq 0 i) by (rewrite elem_of_seq; lia).
  assert (Hin' : i ∉ seq (S i) (length bottom - S i))
    by (rewrite elem_of_seq; lia).
  specialize (Hch i Hin). specialize (Hch' i Hin').
  change (fixed_members La = fixed_members L) in Hf.
  change (choices La i = choices L i) in Hch.
  assert (Hd : base La = base L /\ filter_desc_ La = filter_desc_ L /\
               bottom_descs_ La = bottom_descs_ L /\
               top_descs_ La = top_descs_ L /\
               conv_descs_ La = conv_descs_ L).
  { pose proof Hf as Hf'. unfold fixed_members in Hf'.
    by injection Hf' as -> _ _ _ -> -> -> -> _ _. }
  destruct Hd as (Hb & Hfd & Hd1 & Hd2 & Hd3).
  exists lc, wi, La, Li, bd, td, cd.
  unfold conv_of in *. rewrite Hb, Hfd in *.
  split_and!; try congruence.
Qed.

(** ** Algorithm selection *)

(** C3. cuDNN >= 8: for every input [i], the per-input loop of [Reshape]
    stores as forward algorithm the first entry, in the order the vendor
    returned them, that has status SUCCESS, is not WINOGRAD_NONFUSED and
    needs strictly less memory than the free device memory measured when
    [Reshape] starts ([fwd_suitable]); as backward-data algorithm the first
    entry with status SUCCESS, neither WINOGRAD nor WINOGRAD_NONFUSED, and
    memory strictly below the free memory ([bwd_data_suitable]); the paired
    size entry is that entry's memory; when no entry qualifies the stored
    algorithm and size stay as they were.  [L1] is the layer when the loop
    ends; the layer [Reshape] returns holds the same choices unless the
    workspace allocation failed. *)
Theorem Reshape_v8_selects_first_suitable (V : Vendor) (w w' : World)
    (L L' : Layer) (bottom top : list Blob) (r : realloc) (i : nat) :
  CUDNN_VERSION_MIN_8 V = true ->
  Reshape V w L bottom top = Ok (w', L', r) ->
  (i < length bottom)%nat ->
  let free := cudaMemGetInfo_free V w in
  exists w1 L1 wi h0 bd td cd fwd_prefs bwd_prefs,
    Reshape_inputs V w L bottom top = Ok (w1, L1) /\
    (r <> alloc_failed -> choices L' i = choices L1 i) /\
    (* the vendor is asked in [wi], with the layer's handle and the
       descriptors of input [i] *)
    vendor_objects wi = vendor_objects w /\ w_gpu wi = w_gpu w /\
    arr_data (handle_ L) !! 0%nat = Some h0 /\
    bottom_descs_ L !! i = Some bd /\ top_descs_ L !! i = Some td /\
    conv_descs_ L !! i = Some cd /\
    cudnnGetConvolutionForwardAlgorithm_v7 V wi h0 bd (filter_desc_ L) cd td 4
      = Some fwd_prefs /\
    cudnnGetConvolutionBackwardDataAlgorithm_v7 V wi h0 (filter_desc_ L) td cd
      bd 4 = Some bwd_prefs /\
    (forall n p, first_at (fwd_suitable V free) (take 4 fwd_prefs) n p ->
       fwd_choice L1 i = (Some (algo p), Some (memory p))) /\
    ((forall n p, take 4 fwd_prefs !! n = Some p ->
        fwd_suitable V free p = false) ->
     fwd_choice L1 i = fwd_choice L i) /\
    (forall n p, first_at (bwd_data_suitable V free) (take 4 bwd_prefs) n p ->
       bwd_data_choice L1 i = (Some (algo p), Some (memory p))) /\
    ((forall n p, take 4 bwd_prefs !! n = Some p ->
        bwd_data_suitable V free p = false) ->
     bwd_data_choice L1 i = bwd_data_choice L i).
Proof.
  intros Hv8 H Hi free.
  apply Reshape_stages in H as (_ & w1 & L1 & w2 & E1 & E2 & _).
  pose proof (Reshape_inputs_choice _ _ _ _ _ _ _ i E1 Hi)
    as (lc & wi & La & Li & bd & td & cd & Hfree & _ & Hvo & Hgpu & Ebd & Etd &
        Ecd & _ & _ & Hfm & HLa & HL1 & Hch).
  rewrite Hv8 in Hch.
  apply choose_algos_v8_spec in Hch
    as (_ & _ & h0 & pf & pb & Eh & Ef & Eb & Hsf & Hsb).
  assert (Hd : handle_ La = handle_ L /\ filter_desc_ La = filter_desc_ L).
  { unfold fixed_members in Hfm. by injection Hfm as _ _ _ -> -> _ _ _ _ _. }
  destruct Hd as [Hh Hfd]. rewrite Hh in Eh. rewrite Hfd in Ef, Eb.
  rewrite Hfree in Hsf, Hsb. fold free in Hsf, Hsb.
  apply choices_eq in HLa as (HLa1 & HLa2 & HLa3).
  apply choices_eq in HL1 as (HL11 & HL12 & HL13).
  exists w1, L1, wi, h0, bd, td, cd, pf, pb.
  split_and!; try done.
  - intros Hr. apply algo_arrays_choices.
    by eapply Reshape_workspace_keeps_choices.
  - intros n p Hfirst.
    assert (Es : first_suitable (fwd_suitable V free) (take 4 pf) = Some p)
      by (apply first_suitable_first_at; eauto).
    rewrite Es in Hsf. destruct Hsf as [Hsf _]. congruence.
  - intros Hnone. apply first_suitable_none in Hnone.
    rewrite Hnone in Hsf. destruct Hsf as [Hsf _]. congruence.
  - intros n p Hfirst.
    assert (Es : first_suitable (bwd_data_suitable V free) (take 4 pb)
                 = Some p) by (apply first_suitable_first_at; eauto).
    rewrite Es in Hsb. congruence.
  - intros Hnone. apply first_suitable_none in Hnone.
    rewrite Hnone in Hsb. congruence.
Qed.

(** C2 (amended).  For every input [i], what the per-input loop of
    [Reshape] stores comes from the vendor as follows.  Before cuDNN 8 the
    three algorithms are the answers of the three
    cudnnGetConvolution*Algorithm queries and the three sizes the answers of
    the cudnnGetConvolution*WorkspaceSize queries for those algorithms.
    From cuDNN 8 on, the forward and the backward-data choice are the
    algorithm and memory of one of the first four entries the _v7 query
    returned, or stay as they were; the backward-filter algorithm is not
    asked for: it is the constant CUDNN_CONVOLUTION_BWD_FILTER_ALGO_1 with
    twice the forward size whenever a forward entry was taken, and stays as
    it was otherwise.  The layer [Reshape] returns holds these choices
    unless the workspace allocation failed. *)
Theorem Reshape_choices_from_vendor (V : Vendor) (w w' : World)
    (L L' : Layer) (bottom top : list Blob) (r : realloc) (i : nat) :
  Reshape V w L bottom top = Ok (w', L', r) ->
  (i < length bottom)%nat ->
  exists w1 L1 wi h0 bd td cd,
    Reshape_inputs V w L bottom top = Ok (w1, L1) /\
    (r <> alloc_failed -> choices L' i = choices L1 i) /\
    vendor_objects wi = vendor_objects w /\ w_gpu wi = w_gpu w /\
    arr_data (handle_ L) !! 0%nat = Some h0 /\
    bottom_descs_ L !! i = Some bd /\ top_descs_ L !! i = Some td /\
    conv_descs_ L !! i = Some cd /\
    let fd := filter_desc_ L in
    if CUDNN_VERSION_MIN_8 V then
      exists fwd_prefs bwd_prefs,
        cudnnGetConvolutionForwardAlgorithm_v7 V wi h0 bd fd cd td 4
          = Some fwd_prefs /\
        cudnnGetConvolutionBackwardDataAlgorithm_v7 V wi h0 fd td cd bd 4
          = Some bwd_prefs /\
        ((exists p, p ∈ take 4 fwd_prefs /\
            fwd_choice L1 i = (Some (algo p), Some (memory p)) /\
            bwd_filter_choice L1 i =
              (Some (CUDNN_CONVOLUTION_BWD_FILTER_ALGO_1 V),
               Some (size_mul 2 (memory p)))) \/
         (fwd_choice L1 i = fwd_choice L i /\
          bwd_filter_choice L1 i = bwd_filter_choice L i)) /\
        ((exists p, p ∈ take 4 bwd_prefs /\
            bwd_data_choice L1 i = (Some (algo p), Some (memory p))) \/
         bwd_data_choice L1 i = bwd_data_choice L i)
    else
      exists fa fs ra rs da ds,
        let limit := 8 * 1024 * 1024 in
        cudnnGetConvolutionForwardAlgorithm V wi h0 bd fd cd td limit
          = Some fa /\
        cudnnGetConvolutionForwardWorkspaceSize V wi h0 bd fd cd td fa
          = Some fs /\
        cudnnGetConvolutionBackwardFilterAlgorithm V wi h0 bd td cd fd limit
          = Some ra /\
        cudnnGetConvolutionBackwardFilterWorkspaceSize V wi h0 bd td cd fd ra
          = Some rs /\
        cudnnGetConvolutionBackwardDataAlgorithm V wi h0 fd td cd bd limit
          = Some da /\
        cudnnGetConvolutionBackwardDataWorkspaceSize V wi h0 fd td cd bd da
          = Some ds /\
        choices L1 i =
          ((Some fa, Some fs), (Some ra, Some rs), (Some da, Some ds)).
Proof.
  intros H Hi.
  apply Reshape_stages in H as (_ & w1 & L1 & w2 & E1 & E2 & _).
  pose proof (Reshape_inputs_choice _ _ _ _ _ _ _ i E1 Hi)
    as (lc & wi & La & Li & bd & td & cd & _ & Hlim & Hvo & Hgpu & Ebd & Etd &
        Ecd & _ & _ & Hfm & HLa & HL1 & Hch).
  assert (Hd : handle_ La = handle_ L /\ filter_desc_ La = filter_desc_ L).
  { unfold fixed_members in Hfm. by injection Hfm as _ _ _ -> -> _ _ _ _ _. }
  destruct Hd as [Hh Hfd].
  assert (Hkeep : r <> alloc_failed -> choices L' i = choices L1 i).
  { intros Hr. apply algo_arrays_choices.
    by eapply Reshape_workspace_keeps_choices. }
  pose proof HLa as HLa'. pose proof HL1 as HL1'.
  apply choices_eq in HLa as (HLa1 & HLa2 & HLa3).
  apply choices_eq in HL1 as (HL11 & HL12 & HL13).
  destruct (CUDNN_VERSION_MIN_8 V).
  - apply choose_algos_v8_spec in Hch
      as (_ & _ & h0 & pf & pb & Eh & Ef & Eb & Hsf & Hsb).
    rewrite Hh in Eh. rewrite Hfd in Ef, Eb.
    exists w1, L1, wi, h0, bd, td, cd. split_and!; try done.
    exists pf, pb. split_and!; try done.
    + destruct (first_suitable _ (take 4 pf)) as [p|] eqn:Es.
      * left. exists p. destruct Hsf as [Hs1 Hs2].
        apply first_suitable_first_at in Es as (n & Hn & _).
        split_and!; [by eapply list_elem_of_lookup_2|congruence|congruence].
      * right. destruct Hsf. split; congruence.
    + destruct (first_suitable _ (take 4 pb)) as [p|] eqn:Es.
      * left. exists p.
        apply first_suitable_first_at in Es as (n & Hn & _).
        split; [by eapply list_elem_of_lookup_2|congruence].
      * right. congruence.
  - apply choose_algos_legacy_spec in Hch
      as (_ & _ & h0 & fa & fs & ra & rs & da & ds & Eh & Q1 & Q2 & Q3 & Q4 &
          Q5 & Q6 & Hc).
    rewrite Hh in Eh. rewrite Hfd, Hlim in *.
    exists w1, L1, wi, h0, bd, td, cd. split_and!; try done.
    exists fa, fs, ra, rs, da, ds. split_and!; try done. congruence.
Qed.

(** ** Workspace sizing *)

Lemma for_loop_ext {St} (f g : nat -> St -> outcome St) (ix : list nat)
    (s : St) :
  (forall i s, f i s = g i s) -> for_loop f ix s = for_loop g ix s.
Proof.
  intros H. revert s. induction ix as [|i ix IH]; intros s; simpl; [done|].
  rewrite H. destruct (g i s); simpl; auto.
Qed.

Lemma max_workspace_of_arrays (L L' : Layer) (B : nat) :
  algo_arrays L' = algo_arrays L ->
  max_workspace_of L' B = max_workspace_of L B.
Proof.
  unfold algo_arrays. intros [= H1 H2 H3 H4 H5 H6].
  unfold max_workspace_of.
  rewrite (for_loop_ext (reduce_sizes L') (reduce_sizes L)); [done|].
  intros i [[a b] c]. unfold reduce_sizes. by rewrite H4, H5, H6.
Qed.

(** Without overflow the [size_t] products are the products. *)
Lemma total_exact (L : Layer) (m : Z) :
  0 <= m ->
  0 <= group_ (base L) * CUDNN_STREAMS_PER_GROUP ->
  group_ (base L) * CUDNN_STREAMS_PER_GROUP * m < size_t_modulus ->
  size_mul m (groups L) = group_ (base L) * CUDNN_STREAMS_PER_GROUP * m.
Proof.
  intros Hm HG Hov. unfold groups.
  set (G := group_ (base L) * CUDNN_STREAMS_PER_GROUP) in *.
  destruct (decide (m = 0)) as [->|Hne].
  - unfold size_mul. rewrite Z.mul_0_l, Z.mul_0_r. reflexivity.
  - assert (G < size_t_modulus) by nia.
    unfold to_size_t at 1. rewrite Z.mod_small by lia.
    rewrite size_mul_exact; nia.
Qed.

(** C1 (amended).  For a [Reshape] call that does not end in the
    allocation-failure fallback, let [m] be [max_workspace], the maximum over
    all inputs and the three operations of the stored workspace sizes, and
    [G = group_ * CUDNN_STREAMS_PER_GROUP]; assume [G * m] does not overflow
    [size_t].  Then [workspaceSizeInBytes >= G * m] after the call.  When
    the call reallocates, [workspaceSizeInBytes = G * m], [workspaceData] is
    the one device block of that size the call allocated, every
    [workspace[g]] is [workspaceData + g * m], and the [G] regions of [m]
    bytes lie inside the block and are pairwise disjoint.  When the call
    keeps the workspace, [workspaceSizeInBytes], [workspaceData], the
    per-group pointers and the device blocks are the ones it found; if it
    found them as a reallocating call leaves them, with a maximum [m0]
    ([workspaceSizeInBytes = G * m0] and every [workspace[g]] at
    [workspaceData + g * m0]), then [m <= m0], every [workspace[g]] still is
    [workspaceData + g * m0], and the [G] regions of [m] bytes that start at
    the per-group pointers lie inside the one allocation and are pairwise
    disjoint. *)
Theorem Reshape_workspace_layout (V : Vendor) (w w' : World) (L L' : Layer)
    (bottom top : list Blob) (r : realloc) :
  Reshape V w L bottom top = Ok (w', L', r) ->
  r <> alloc_failed ->
  let G := group_ (base L) * CUDNN_STREAMS_PER_GROUP in
  exists m,
    max_workspace_of L' (length bottom) = Ok m /\
    (forall i, (i < length bottom)%nat ->
       exists f d b,
         (fwd_choice L' i).2 = Some f /\ (bwd_data_choice L' i).2 = Some d /\
         (bwd_filter_choice L' i).2 = Some b /\ f <= m /\ d <= m /\ b <= m) /\
    (0 <= G -> G * m < size_t_modulus ->
     G * m <= workspaceSizeInBytes L' /\
     match r with
     | reallocated =>
         workspaceSizeInBytes L < G * m /\
         workspaceSizeInBytes L' = G * m /\
         head (w_gpu w') = Some (workspaceData L', G * m) /\
         forall g, 0 <= g < G ->
           arr_data (workspace L') !! Z.to_nat g
             = Some (workspaceData L' + g * m) /\
           region_within (workspaceData L' + g * m) m
             (workspaceData L') (workspaceSizeInBytes L') /\
           forall g', 0 <= g' < G -> g <> g' ->
             regions_disjoint (workspaceData L' + g * m)
               (workspaceData L' + g' * m) m
     | _ =>
         workspace_state L' = workspace_state L /\ w_gpu w' = w_gpu w /\
         forall m0,
           workspaceSizeInBytes L = G * m0 ->
           (forall g, 0 <= g < G ->
              arr_data (workspace L) !! Z.to_nat g
                = Some (workspaceData L + g * m0)) ->
           forall g, 0 <= g < G ->
             m <= m0 /\
             arr_data (workspace L') !! Z.to_nat g
               = Some (workspaceData L' + g * m0) /\
             region_within (workspaceData L' + g * m0) m
               (workspaceData L') (workspaceSizeInBytes L') /\
             forall g', 0 <= g' < G -> g <> g' ->
               regions_disjoint (workspaceData L' + g * m0)
                 (workspaceData L' + g' * m0) m
     end).
Proof.
  intros H Hr G.
  apply Reshape_stages in H as (_ & w1 & L1 & w2 & E1 & E2 & Eb).
  apply Reshape_inputs_members in E1 as (Hf1 & Hw1 & _ & _ & _ & Hg1).
  pose proof (Reshape_workspace_keeps_choices _ _ _ _ _ _ _ E2 Hr) as Harr.
  apply Reshape_bias_world in Eb as (_ & Hgb & _).
  apply Reshape_workspace_spec in E2 as (m & Em & Hf2 & _ & _ & Hcase).
  simpl in Hcase.
  assert (HG : group_ (base L1) = group_ (base L)).
  { unfold fixed_members in Hf1. by injection Hf1 as -> _ _ _ _ _ _ _ _ _. }
  assert (Hsz : workspaceSizeInBytes L1 = workspaceSizeInBytes L).
  { unfold workspace_state in Hw1. by injection Hw1 as ->. }
  rewrite <- (max_workspace_of_arrays L1 L') in Em by done.
  exists m. split; [done|].
  pose proof (max_workspace_of_bound _ _ _ Em) as [Hm Hbound].
  split; [exact Hbound|].
  intros HG0 Hov.
  assert (Htot : size_mul m (groups L1) = G * m).
  { rewrite total_exact; unfold G; rewrite ?HG; done. }
  rewrite Htot, HG in Hcase. fold G in Hcase.
  destruct r; [| |done].
  - destruct Hcase as (Hle & -> & ->). split; [lia|].
    split; [done|]. split; [congruence|].
    intros m0 Hm0 Hal0 g Hg.
    unfold workspace_state in Hw1. injection Hw1 as W1 W2 W3.
    rewrite W1 in Hle.
    assert (Hmm : m <= m0) by nia.
    rewrite W2, W3, W1, Hm0. split_and!; [done|by apply Hal0| |].
    + unfold region_within. nia.
    + intros g' Hg' Hne. unfold regions_disjoint. nia.
  - destruct Hcase as (Hlt & (p & _ & -> & Hp) & Hsize & _ & Hal).
    split; [lia|]. split_and!; [lia|done|by rewrite Hgb, Hp|].
    intros g Hg. split_and!.
    + rewrite Hal by lia. rewrite Z2Nat.id by lia.
      rewrite size_mul_exact; [done|]. unfold size_t_modulus in *. nia.
    + unfold region_within. nia.
    + intros g' Hg' Hne. unfold regions_disjoint. nia.
Qed.

(** One call: the branch taken and its effect on the shared workspace. *)
Lemma Reshape_realloc_step (V : Vendor) (w w' : World) (L L' : Layer)
    (bottom top : list Blob) (r : realloc) :
  Reshape V w L bottom top = Ok (w', L', r) ->
  exists w1 L1 m,
    Reshape_inputs V w L bottom top = Ok (w1, L1) /\
    max_workspace_of L1 (length bottom) = Ok m /\
    let total_max_workspace := size_mul m (groups L) in
    match r with
    | kept =>
        total_max_workspace <= workspaceSizeInBytes L /\
        workspace_state L' = workspace_state L /\ w_gpu w' = w_gpu w
    | reallocated =>
        workspaceSizeInBytes L < total_max_workspace /\
        workspaceSizeInBytes L' = total_max_workspace /\
        w_gpu w' =
          (workspaceData L', total_max_workspace)
            :: filter (fun b => b.1 ≠ workspaceData L) (w_gpu w)
    | alloc_failed =>
        workspaceSizeInBytes L < total_max_workspace /\
        workspaceSizeInBytes L' = 0 /\
        w_gpu w' = filter (fun b => b.1 ≠ workspaceData L) (w_gpu w)
    end.
Proof.
  intros H.
  apply Reshape_stages in H as (_ & w1 & L1 & w2 & E1 & E2 & Eb).
  exists w1, L1.
  pose proof (Reshape_inputs_members _ _ _ _ _ _ _ E1)
    as (Hf1 & Hw1 & _ & _ & _ & Hg1).
  apply Reshape_bias_world in Eb as (_ & Hgb & _).
  apply Reshape_workspace_spec in E2 as (m & Em & Hf2 & _ & _ & Hcase).
  simpl in Hcase. exists m.
  assert (HG : groups L1 = groups L).
  { unfold groups. unfold fixed_members in Hf1.
    by injection Hf1 as -> _ _ _ _ _ _ _ _ _. }
  unfold workspace_state in Hw1. injection Hw1 as Hs1 Hd1 Ha1.
  rewrite HG, Hs1, Hd1 in Hcase.
  split; [done|]. split; [done|]. simpl.
  destruct r.
  - destruct Hcase as (Hle & -> & ->). unfold workspace_state.
    split_and!; congruence.
  - destruct Hcase as (Hlt & (p & _ & -> & Hp) & Hsize & _).
    split_and!; try done. rewrite Hgb, Hp. simpl. by rewrite Hg1.
  - destruct Hcase as (Hlt & _ & -> & _ & Hsize & _).
    split_and!; try done. rewrite Hgb. simpl. by rewrite Hg1.
Qed.

(** C9.  Across any sequence of [Reshape] calls whose allocations all
    succeed, [workspaceSizeInBytes] never decreases.  In every call the
    workspace is freed and allocated again only when the total need
    [total_max_workspace] strictly exceeds the current
    [workspaceSizeInBytes]; when it does not, the device blocks,
    [workspaceSizeInBytes], [workspaceData] and the per-group pointers are
    left as they were. *)
Theorem workspaceSizeInBytes_monotone (V : Vendor) :
  (forall calls w L tr,
     Reshape_calls V calls w L = Ok tr ->
     Forall (fun s => s.2 <> alloc_failed) tr ->
     Sorted Z.le
       (workspaceSizeInBytes L :: map (fun s => workspaceSizeInBytes s.1.2) tr))
  /\
  (forall w L bottom top w' L' r,
     Reshape V w L bottom top = Ok (w', L', r) ->
     exists w1 L1 m,
       Reshape_inputs V w L bottom top = Ok (w1, L1) /\
       max_workspace_of L1 (length bottom) = Ok m /\
       let total_max_workspace := size_mul m (groups L) in
       (r <> kept -> workspaceSizeInBytes L < total_max_workspace) /\
       (total_max_workspace <= workspaceSizeInBytes L ->
        r = kept /\ w_gpu w' = w_gpu w /\
        workspace_state L' = workspace_state L)).
Proof.
  split.
  - induction calls as [|c calls IH]; intros w L tr H Hok;
      cbn [Reshape_calls] in H.
    + injection H as <-. simpl. repeat constructor.
    + apply obind_Ok in H as ([[w1 L1] r] & E & H).
      apply obind_Ok in H as (rest & Er & H). injection H as <-.
      apply Forall_cons in Hok as [Hr Hok]. simpl in Hr.
      specialize (IH _ _ _ Er Hok). simpl.
      constructor; [exact IH|]. constructor.
      apply Reshape_realloc_step in E as (w2 & L2 & m & _ & _ & Hcase).
      simpl in Hcase.
      destruct r; [| |done].
      * destruct Hcase as (_ & Hws & _). unfold workspace_state in Hws.
        injection Hws as -> _ _. simpl. lia.
      * destruct Hcase as (Hlt & -> & _). simpl in Hlt. lia.
  - intros w L bottom top w' L' r H.
    apply Reshape_realloc_step in H as (w1 & L1 & m & E1 & Em & Hcase).
    exists w1, L1, m. split; [done|]. split; [done|]. simpl in *. split.
    + intros Hr. destruct r; [done| |]; by destruct Hcase.
    + intros Hle. destruct r; [| |]; destruct Hcase as (? & ? & ?);
        [done|lia|lia].
Qed.

(** X3.  What [Reshape] leaves behind when the allocation fails: the zero
    workspace sizes, the fallback algorithms, a NULL [workspaceData] and a
    zero [workspaceSizeInBytes]; the per-group pointers, however, are
    [NULL + g * max_workspace], written by the loop that follows the
    fallback. *)
Lemma Reshape_alloc_failed_state (V : Vendor) (w w' : World) (L L' : Layer)
    (bottom top : list Blob) :
  Reshape V w L bottom top = Ok (w', L', alloc_failed) ->
  exists w1 L1 m,
    Reshape_inputs V w L bottom top = Ok (w1, L1) /\
    max_workspace_of L1 (length bottom) = Ok m /\
    workspaceData L' = 0 /\ workspaceSizeInBytes L' = 0 /\
    (forall i, (i < length bottom)%nat ->
       choices L' i =
         ((Some (CUDNN_CONVOLUTION_FWD_ALGO_IMPLICIT_GEMM V), Some 0),
          (Some (CUDNN_CONVOLUTION_BWD_FILTER_ALGO_0 V), Some 0),
          (Some (CUDNN_CONVOLUTION_BWD_DATA_ALGO_0 V), Some 0))) /\
    (forall g,
       (g < Z.to_nat (group_ (base L) * CUDNN_STREAMS_PER_GROUP))%nat ->
       arr_data (workspace L') !! g = Some (size_mul (Z.of_nat g) m)).
Proof.
  intros H.
  apply Reshape_stages in H as (_ & w1 & L1 & w2 & E1 & E2 & Eb).
  exists w1, L1.
  pose proof (Reshape_inputs_members _ _ _ _ _ _ _ E1) as (Hf1 & _).
  apply Reshape_workspace_spec in E2 as (m & Em & _ & _ & _ & Hcase).
  simpl in Hcase. exists m.
  destruct Hcase as (_ & _ & _ & Hd & Hs & _ & Hws & Hz).
  assert (HG : group_ (base L1) = group_ (base L)).
  { unfold fixed_members in Hf1. by injection Hf1 as -> _ _ _ _ _ _ _ _ _. }
  rewrite HG in Hws.
  split_and!; try done.
  intros i Hi. destruct (Hz i Hi) as (H1 & H2 & H3).
  unfold choices. by rewrite H1, H2, H3.
Qed.

(** C8.  [Reshape] fails its CHECK_EQ whenever the number of spatial axes
    is not 2 and sets no descriptor then; with 2 spatial axes the check
    passes and the rest of [Reshape] runs; hence a [Reshape] that returns
    has configured descriptors for 2 spatial axes only. *)
Theorem Reshape_checks_spatial_axes (V : Vendor) (w : World) (L : Layer)
    (bottom top : list Blob) :
  (num_spatial_axes_ (base L) <> 2 ->
   Reshape V w L bottom top = Fatal CHECK_failed) /\
  (num_spatial_axes_ (base L) = 2 ->
   Reshape V w L bottom top = Reshape_checked V w L bottom top) /\
  (forall w' L' r, Reshape V w L bottom top = Ok (w', L', r) ->
                   num_spatial_axes_ (base L) = 2).
Proof.
  unfold Reshape.
  destruct (Z.eqb_spec (num_spatial_axes_ (base L)) 2) as [E|E]; simpl.
  - split_and!; try done.
  - split_and!; try done.
Qed.

(** ** LayerSetUp *)

Lemma new_array_Ok {A} (n : Z) (junk : A) (w w' : World) (a : Arr A) :
  new_array n junk w = Ok (w', a) ->
  0 <= n /\
  w' = set_w_heap (w_heap w ++ [Some ()]) w /\
  a = {| arr_id := length (w_heap w);
         arr_data := replicate (Z.to_nat n) junk |}.
Proof.
  unfold new_array. destruct (Z.ltb_spec n 0); [discriminate|].
  simpl. intros [= <- <-]. done.
Qed.

Lemma cudaStreamCreate_Ok (V : Vendor) (w w' : World) (s : nat) :
  cudaStreamCreate V w = Ok (w', s) ->
  s = length (w_streams w) /\
  w' = set_w_streams (w_streams w ++ [Some ()]) w.
Proof.
  unfold cudaStreamCreate. destruct (cudaStreamCreate_ok V w); [|discriminate].
  simpl. intros [= <- <-]. done.
Qed.

Lemma cudnnCreate_Ok (V : Vendor) (w w' : World) (h : nat) :
  cudnnCreate V w = Ok (w', h) ->
  h = length (w_handles w) /\
  w' = set_w_handles (w_handles w ++ [Some None]) w.
Proof.
  unfold cudnnCreate. destruct (cudnnCreate_ok V w); [|discriminate].
  simpl. intros [= <- <-]. done.
Qed.

Lemma cudnnSetStream_Ok (V : Vendor) (w w' : World) (h s : nat) :
  cudnnSetStream V w h s = Ok w' ->
  (h < length (w_handles w))%nat /\
  w' = set_w_handles (<[h:=Some (Some s)]> (w_handles w)) w.
Proof.
  unfold cudnnSetStream. destruct (cudnnSetStream_ok V w h s); [|discriminate].
  intros H. ok_inv H. subst w'.
  apply checked_Ok, st_put_Some in E as [? ->]. done.
Qed.

(** A list given by its length and its elements. *)
Lemma list_eq_tabulate {A} (f : nat -> A) (n : nat) (l : list A) :
  length l = n ->
  (forall g, (g < n)%nat -> l !! g = Some (f g)) ->
  l = map f (seq 0 n).
Proof.
  intros Hlen Hl. apply list_eq. intros g.
  change (map f (seq 0 n)) with (f <$> seq 0 n).
  rewrite list_lookup_fmap.
  destruct (decide (g < n)%nat) as [Hg|Hg].
  - rewrite Hl by done. by rewrite lookup_seq_lt.
  - rewrite lookup_ge_None_2 by lia. by rewrite lookup_seq_ge by lia.
Qed.

Lemma list_eq_replicate {A} (x : A) (n : nat) (l : list A) :
  length l = n -> (forall g, (g < n)%nat -> l !! g = Some x) ->
  l = replicate n x.
Proof.
  intros Hlen Hl. apply list_eq. intros g.
  destruct (decide (g < n)%nat) as [Hg|Hg].
  - rewrite Hl by done. symmetry. by apply lookup_replicate_2.
  - rewrite lookup_ge_None_2 by lia.
    symmetry. apply lookup_ge_None_2. rewrite length_replicate. lia.
Qed.

Lemma World_ext (w w' : World) :
  w_streams w = w_streams w' -> w_handles w = w_handles w' ->
  w_tensors w = w_tensors w' -> w_filters w = w_filters w' ->
  w_convs w = w_convs w' -> w_gpu w = w_gpu w' -> w_heap w = w_heap w' ->
  w = w'.
Proof. destruct w, w'. cbn. by intros -> -> -> -> -> -> ->. Qed.

Lemma Layer_ext (L L' : Layer) :
  fixed_members L = fixed_members L' -> offsets L = offsets L' ->
  algo_arrays L = algo_arrays L' -> workspace_state L = workspace_state L' ->
  L = L'.
Proof.
  destruct L, L'. unfold fixed_members, offsets, algo_arrays, workspace_state.
  cbn. by intros [= -> -> -> -> -> -> -> -> -> ->] [= -> ->]
    [= -> -> -> -> -> ->] [= -> -> ->].
Qed.

(** The loop over the groups creates one stream and one handle per group,
    binds the handle to the stream and NULLs the workspace pointer. *)
Lemma LayerSetUp_group_loop (V : Vendor) (n : nat) (w w' : World)
    (L L' : Layer) :
  for_loop (LayerSetUp_group V) (seq 0 n) (w, L) = Ok (w', L') ->
  w' = set_w_handles
         (w_handles w ++
          map (fun g => Some (Some (length (w_streams w) + g)%nat)) (seq 0 n))
         (set_w_streams (w_streams w ++ replicate n (Some ())) w) /\
  exists a1 a2 a3,
    L' = set_workspace a3 (set_handle_ a2 (set_stream_ a1 L)) /\
    arr_id a1 = arr_id (stream_ L) /\ arr_id a2 = arr_id (handle_ L) /\
    arr_id a3 = arr_id (workspace L) /\
    length (arr_data a1) = length (arr_data (stream_ L)) /\
    length (arr_data a2) = length (arr_data (handle_ L)) /\
    length (arr_data a3) = length (arr_data (workspace L)) /\
    (n <= length (arr_data (stream_ L)))%nat /\
    (n <= length (arr_data (handle_ L)))%nat /\
    (n <= length (arr_data (workspace L)))%nat /\
    forall g, (g < n)%nat ->
      arr_data a1 !! g = Some (length (w_streams w) + g)%nat /\
      arr_data a2 !! g = Some (length (w_handles w) + g)%nat /\
      arr_data a3 !! g = Some 0.
Proof.
  intros H.
  apply (for_loop_seq_inv
    (fun k s =>
       s.1 = set_w_handles
               (w_handles w ++
                map (fun g => Some (Some (length (w_streams w) + g)%nat))
                    (seq 0 k))
               (set_w_streams (w_streams w ++ replicate k (Some ())) w) /\
       exists a1 a2 a3,
         s.2 = set_workspace a3 (set_handle_ a2 (set_stream_ a1 L)) /\
         arr_id a1 = arr_id (stream_ L) /\ arr_id a2 = arr_id (handle_ L) /\
         arr_id a3 = arr_id (workspace L) /\
         length (arr_data a1) = length (arr_data (stream_ L)) /\
         length (arr_data a2) = length (arr_data (handle_ L)) /\
         length (arr_data a3) = length (arr_data (workspace L)) /\
         (k <= length (arr_data (stream_ L)))%nat /\
         (k <= length (arr_data (handle_ L)))%nat /\
         (k <= length (arr_data (workspace L)))%nat /\
         forall g, (g < k)%nat ->
           arr_data a1 !! g = Some (length (w_streams w) + g)%nat /\
           arr_data a2 !! g = Some (length (w_handles w) + g)%nat /\
           arr_data a3 !! g = Some 0)) in H; [exact H| |].
  - cbn [fst snd seq map replicate]. split.
    + rewrite !app_nil_r. by apply World_ext.
    + exists (stream_ L), (handle_ L), (workspace L).
      split_and!; try done; try lia.
  - clear H. intros k [wk Lk] [w2 L2] Hk (Hw & a1 & a2 & a3 & HL & Hids) Hb.
    rnorm_in Hw. rnorm_in HL. subst wk Lk.
    destruct Hids as (Hi1 & Hi2 & Hi3 & Hl1 & Hl2 & Hl3 & Hk1 & Hk2 & Hk3 & Hpt).
    rewrite seq_S, map_app, replicate_S_end.
    unfold LayerSetUp_group in Hb.
    apply obind_Ok in Hb as ([wa s] & Es & Hb).
    apply obind_Ok in Hb as (b1 & Eb1 & Hb). rnorm_in Hb.
    apply obind_Ok in Hb as ([wb h] & Eh & Hb).
    apply obind_Ok in Hb as (b2 & Eb2 & Hb). rnorm_in Hb.
    apply obind_Ok in Hb as (h' & Eh' & Hb).
    apply obind_Ok in Hb as (s' & Es' & Hb).
    apply obind_Ok in Hb as (wc & Ec & Hb).
    apply obind_Ok in Hb as (b3 & Eb3 & Hb). injection Hb as <- <-.
    apply cudaStreamCreate_Ok in Es as [-> ->].
    apply cudnnCreate_Ok in Eh as [-> ->].
    rnorm_in Eb1. rnorm_in Eb2. rnorm_in Eb3.
    apply arr_assign_Ok in Eb1 as [Hlt1 ->].
    apply arr_assign_Ok in Eb2 as [Hlt2 ->].
    apply arr_assign_Ok in Eb3 as [Hlt3 ->].
    apply index_Ok in Eh', Es'. cbn [arr_data] in Eh', Es'.
    rewrite list_lookup_insert_eq in Eh', Es' by done.
    injection Eh' as <-. injection Es' as <-.
    apply cudnnSetStream_Ok in Ec as [_ ->]. rnorm.
    rewrite !length_app, !length_replicate, !length_map, !length_seq.
    split.
    + apply World_ext; rnorm; try done.
      * by rewrite <- app_assoc.
      * rewrite <- (Nat.add_0_r (length (w_handles w) + k)) at 1.
        replace (length (w_handles w) + k)%nat with
          (length (w_handles w ++
             map (fun g => Some (Some (length (w_streams w) + g)%nat))
                 (seq 0 k))) at 1
          by (rewrite length_app, length_map, length_seq; lia).
        rewrite insert_app_r. cbn [insert list_insert map].
        by rewrite <- app_assoc.
    + eexists _, _, _. split; [reflexivity|]. rnorm_all.
      rewrite !length_insert. split_and!; try done; try lia.
      intros g Hg. destruct (decide (g = k)) as [->|Hne].
      * rewrite !list_lookup_insert_eq by lia. done.
      * rewrite !list_lookup_insert_ne by done. apply Hpt. lia.
Qed.

(** The loop that sets the per-input defaults. *)
Lemma LayerSetUp_defaults_loop (n : nat) (L L' : Layer) :
  for_loop LayerSetUp_defaults (seq 0 n) L = Ok L' ->
  algos_frame L L' /\
  forall i, (i < n)%nat ->
    choices L' i = ((Some 0, Some 0), (Some 0, Some 0), (Some 0, Some 0)).
Proof.
  intros H.
  apply (for_loop_seq_inv
    (fun k Lk =>
       algos_frame L Lk /\
       forall i, (i < k)%nat ->
         choices Lk i = ((Some 0, Some 0), (Some 0, Some 0), (Some 0, Some 0))))
    in H; [done| |].
  - split; [apply algos_frame_refl|]. intros i Hi. lia.
  - clear H. intros i L1 L2 Hi (Hfr & Hlt) Hb.
    unfold LayerSetUp_defaults in Hb. ok_inv Hb. subst L2. arr_facts.
    unfold_views. simpl in *. rewrite !length_insert.
    destruct Hfr as (Hf & Ho & Hw & Hsh). split; [done|].
    intros j Hj. destruct (decide (j = i)) as [->|Hne].
    + by rewrite !list_lookup_insert_eq.
    + rewrite !list_lookup_insert_ne by done. apply Hlt. lia.
Qed.

(** The loop that creates the per-input descriptors: two tensor descriptors
    and one convolution descriptor per input, appended to the vectors. *)
Lemma LayerSetUp_descs_loop (n : nat) (w w' : World) (L L' : Layer) :
  for_loop LayerSetUp_descs (seq 0 n) (w, L) = Ok (w', L') ->
  w' = set_w_convs (w_convs w ++ replicate n (Some None))
         (set_w_tensors (w_tensors w ++ replicate (2 * n) (Some None)) w) /\
  L' = set_conv_descs_
         (conv_descs_ L ++
          map (fun i => length (w_convs w) + i)%nat (seq 0 n))
         (set_top_descs_
            (top_descs_ L ++
             map (fun i => length (w_tensors w) + 2 * i + 1)%nat (seq 0 n))
            (set_bottom_descs_
               (bottom_descs_ L ++
                map (fun i => length (w_tensors w) + 2 * i)%nat (seq 0 n))
               L)).
Proof.
  intros H.
  apply (for_loop_seq_inv
    (fun k s =>
       s.1 = set_w_convs (w_convs w ++ replicate k (Some None))
               (set_w_tensors (w_tensors w ++ replicate (2 * k) (Some None))
                  w) /\
       s.2 = set_conv_descs_
               (conv_descs_ L ++
                map (fun i => length (w_convs w) + i)%nat (seq 0 k))
               (set_top_descs_
                  (top_descs_ L ++
                   map (fun i => length (w_tensors w) + 2 * i + 1)%nat
                       (seq 0 k))
                  (set_bottom_descs_
                     (bottom_descs_ L ++
                      map (fun i => length (w_tensors w) + 2 * i)%nat
                          (seq 0 k))
                     L)))) in H; [exact H| |].
  - cbn [fst snd seq map replicate Nat.mul]. rewrite !app_nil_r.
    split; [by apply World_ext|by apply Layer_ext].
  - clear H. intros k [wk Lk] [w2 L2] Hk (Hw & HL) Hb.
    simpl in Hw, HL. subst wk Lk.
    rewrite !seq_S, !map_app, replicate_S_end.
    replace (2 * S k)%nat with (2 * k + 2)%nat by lia.
    rewrite replicate_add.
    unfold LayerSetUp_descs, cudnn.createTensor4dDesc,
      cudnn.createConvolutionDesc, st_new in Hb.
    rnorm_in Hb. injection Hb as <- <-. cbn [fst snd].
    split.
    + apply World_ext; rnorm; rewrite <- ?app_assoc; done.
    + apply Layer_ext;
        unfold fixed_members, offsets, algo_arrays, workspace_state; rnorm;
        try done.
      rewrite !length_app, !length_replicate, <- !app_assoc.
      cbn [map]. repeat f_equal; lia.
Qed.

Lemma arr_ext {A} (a : Arr A) (id : nat) (d : list A) :
  arr_id a = id -> arr_data a = d -> a = {| arr_id := id; arr_data := d |}.
Proof. destruct a. cbn. by intros -> ->. Qed.

(** Everything [LayerSetUp] makes, object by object. *)
Lemma LayerSetUp_result (V : Vendor) (w w' : World) (L L' : Layer)
    (bottom top : list Blob) :
  LayerSetUp V w L bottom top = Ok (w', L') ->
  let G := Z.to_nat (group_ (base L) * CUDNN_STREAMS_PER_GROUP) in
  let B := length bottom in
  let nt := length (w_tensors w) in
  (* the vendor side *)
  w_streams w' = w_streams w ++ replicate G (Some ()) /\
  w_handles w' =
    w_handles w ++
    map (fun g => Some (Some (length (w_streams w) + g)%nat)) (seq 0 G) /\
  w_tensors w' =
    w_tensors w ++
    replicate (2 * B + (if bias_term_ (base L) then 1 else 0)) (Some None) /\
  (exists kernel_h kernel_w,
     kernel_shape_ (base L) !! 0%nat = Some kernel_h /\
     kernel_shape_ (base L) !! 1%nat = Some kernel_w /\
     w_filters w' =
       w_filters w ++
       [Some {| f_n := Z.quot (num_output_ (base L)) (group_ (base L));
                f_c := Z.quot (channels_ (base L)) (group_ (base L));
                f_h := kernel_h; f_w := kernel_w |}]) /\
  w_convs w' = w_convs w ++ replicate B (Some None) /\
  w_gpu w' = w_gpu w /\
  w_heap w' = w_heap w ++ replicate 9 (Some ()) /\
  (* the layer *)
  base L' = base L /\ handles_setup_ L' = true /\
  group_ (base L) <> 0 /\ 0 <= group_ (base L) * CUDNN_STREAMS_PER_GROUP /\
  arr_data (stream_ L') = map (fun g => length (w_streams w) + g)%nat (seq 0 G)
  /\
  arr_data (handle_ L') = map (fun g => length (w_handles w) + g)%nat (seq 0 G)
  /\
  arr_data (workspace L') = replicate G 0 /\
  algo_arrays L' =
    ({| arr_id := length (w_heap w) + 2; arr_data := replicate B 0 |},
     {| arr_id := length (w_heap w) + 3; arr_data := replicate B 0 |},
     {| arr_id := length (w_heap w) + 4; arr_data := replicate B 0 |},
     {| arr_id := length (w_heap w) + 5; arr_data := replicate B 0 |},
     {| arr_id := length (w_heap w) + 6; arr_data := replicate B 0 |},
     {| arr_id := length (w_heap w) + 7; arr_data := replicate B 0 |}) /\
  (arr_id (stream_ L'), arr_id (handle_ L'), arr_id (workspace L')) =
    (length (w_heap w), length (w_heap w) + 1, length (w_heap w) + 8)%nat /\
  workspaceSizeInBytes L' = 0 /\ workspaceData L' = 0 /\
  bias_offset_ L' = Z.quot (num_output_ (base L)) (group_ (base L)) /\
  offsets L' = offsets L /\
  filter_desc_ L' = length (w_filters w) /\
  bottom_descs_ L' =
    bottom_descs_ L ++ map (fun i => nt + 2 * i)%nat (seq 0 B) /\
  top_descs_ L' =
    top_descs_ L ++ map (fun i => nt + 2 * i + 1)%nat (seq 0 B) /\
  conv_descs_ L' =
    conv_descs_ L ++ map (fun i => length (w_convs w) + i)%nat (seq 0 B) /\
  bias_desc_ L' =
    if bias_term_ (base L) then (nt + 2 * B)%nat else bias_desc_ L.
Proof.
  unfold LayerSetUp. intros H.
  repeat match type of H with
  | obind (new_array _ _ _) _ = Ok _ =>
      let wn := fresh "wn" in let an := fresh "an" in
      let E := fresh "En" in
      apply obind_Ok in H as ([wn an] & E & H);
      apply new_array_Ok in E as (? & -> & ->); rnorm_in H
  end.
  apply obind_Ok in H as (La & Ea & H).
  apply obind_Ok in H as ([wg Lg] & Eg & H).
  apply obind_Ok in H as (q & Eq & H).
  apply obind_Ok in H as (kh & Ekh & H).
  apply obind_Ok in H as (kw & Ekw & H).
  apply obind_Ok in H as (fn & Efn & H).
  apply obind_Ok in H as (fc & Efc & H).
  unfold cudnn.createFilterDesc, st_new in H. rnorm_in H.
  apply obind_Ok in H as ([wd Ld] & Ed & H).
  apply LayerSetUp_defaults_loop in Ea as ((Hf & Ho & Hws & Hsh) & Hz).
  apply LayerSetUp_group_loop in Eg
    as (-> & a1 & a2 & a3 & -> & Hi1 & Hi2 & Hi3 & Hl1 & Hl2 & Hl3 & _ & _ & _ &
        Hpt).
  apply LayerSetUp_descs_loop in Ed as (-> & ->).
  arr_facts. subst q fn fc.
  unfold fixed_members, offsets, workspace_state, algo_arrays_shape,
    algo_arrays in *.
  rnorm_all.
  injection Hf as Hb Hhs Hst Hha Hfd Hbd Htd Hcd Hbi Hbo.
  injection Ho as Ho1 Ho2. injection Hws as Hw1 Hw2 Hw3.
  rewrite Hb in *. rewrite Hw3 in *. rewrite Hst, Hha in *. rnorm_all.
  rewrite !length_replicate, !length_app in *. cbn [length] in *.
  rewrite Nat2Z.id in Hsh.
  set (G := Z.to_nat (group_ (base L) * CUDNN_STREAMS_PER_GROUP)) in *.
  assert (HLa :
    (fwd_algo_ La, bwd_filter_algo_ La, bwd_data_algo_ La,
     workspace_fwd_sizes_ La, workspace_bwd_filter_sizes_ La,
     workspace_bwd_data_sizes_ La) =
    ({| arr_id := length (w_heap w) + 2;
        arr_data := replicate (length bottom) 0 |},
     {| arr_id := length (w_heap w) + 3;
        arr_data := replicate (length bottom) 0 |},
     {| arr_id := length (w_heap w) + 4;
        arr_data := replicate (length bottom) 0 |},
     {| arr_id := length (w_heap w) + 5;
        arr_data := replicate (length bottom) 0 |},
     {| arr_id := length (w_heap w) + 6;
        arr_data := replicate (length bottom) 0 |},
     {| arr_id := length (w_heap w) + 7;
        arr_data := replicate (length bottom) 0 |})).
  { injection Hsh as S1 S2 S3 S4 S5 S6 S7 S8 S9 S10 S11 S12.
    assert (Hz' : forall i, (i < length bottom)%nat ->
      arr_data (fwd_algo_ La) !! i = Some 0 /\
      arr_data (bwd_filter_algo_ La) !! i = Some 0 /\
      arr_data (bwd_data_algo_ La) !! i = Some 0 /\
      arr_data (workspace_fwd_sizes_ La) !! i = Some 0 /\
      arr_data (workspace_bwd_filter_sizes_ La) !! i = Some 0 /\
      arr_data (workspace_bwd_data_sizes_ La) !! i = Some 0).
    { intros i Hi. specialize (Hz i Hi).
      unfold choices, fwd_choice, bwd_filter_choice, bwd_data_choice in Hz.
      rnorm_in Hz. rnorm. injection Hz as E1 E2 E3 E4 E5 E6.
      split_and!; assumption. }
    rnorm_in Hz'.
    assert (Q1 : fwd_algo_ La =
      {| arr_id := length (w_heap w) + 2;
         arr_data := replicate (length bottom) 0 |}).
    { apply arr_ext; rnorm;
        [lia | apply list_eq_replicate; [done | intros; by apply Hz']]. }
    assert (Q2 : bwd_filter_algo_ La =
      {| arr_id := length (w_heap w) + 3;
         arr_data := replicate (length bottom) 0 |}).
    { apply arr_ext; rnorm;
        [lia | apply list_eq_replicate; [done | intros; by apply Hz']]. }
    assert (Q3 : bwd_data_algo_ La =
      {| arr_id := length (w_heap w) + 4;
         arr_data := replicate (length bottom) 0 |}).
    { apply arr_ext; rnorm;
        [lia | apply list_eq_replicate; [done | intros; by apply Hz']]. }
    assert (Q4 : workspace_fwd_sizes_ La =
      {| arr_id := length (w_heap w) + 5;
         arr_data := replicate (length bottom) 0 |}).
    { apply arr_ext; rnorm;
        [lia | apply list_eq_replicate; [done | intros; by apply Hz']]. }
    assert (Q5 : workspace_bwd_filter_sizes_ La =
      {| arr_id := length (w_heap w) + 6;
         arr_data := replicate (length bottom) 0 |}).
    { apply arr_ext; rnorm;
        [lia | apply list_eq_replicate; [done | intros; by apply Hz']]. }
    assert (Q6 : workspace_bwd_data_sizes_ La =
      {| arr_id := length (w_heap w) + 7;
         arr_data := replicate (length bottom) 0 |}).
    { apply arr_ext; rnorm;
        [lia | apply list_eq_replicate; [done | intros; by apply Hz']]. }
    by rewrite Q1, Q2, Q3, Q4, Q5, Q6. }
  assert (Ha1 : arr_data a1 =
                map (fun g => length (w_streams w) + g)%nat (seq 0 G)).
  { rnorm. apply list_eq_tabulate; [done|]. intros g Hg. by apply Hpt. }
  assert (Ha2 : arr_data a2 =
                map (fun g => length (w_handles w) + g)%nat (seq 0 G)).
  { rnorm. apply list_eq_tabulate; [done|]. intros g Hg. by apply Hpt. }
  assert (Ha3 : arr_data a3 = replicate G 0).
  { rnorm. apply list_eq_replicate; [done|]. intros g Hg. by apply Hpt. }
  rnorm_all.
  assert (Hheap : forall l : list (option ()),
    ((((((((l ++ [Some ()]) ++ [Some ()]) ++ [Some ()]) ++ [Some ()]) ++
         [Some ()]) ++ [Some ()]) ++ [Some ()]) ++ [Some ()]) ++ [Some ()]
    = l ++ replicate 9 (Some ())).
  { intros l. by rewrite <- !app_assoc. }
  destruct (bias_term_ (base L)) eqn:Ebias.
  - unfold cudnn.createTensor4dDesc, st_new in H. rnorm_in H.
    injection H as <- <-. rnorm.
    rewrite !length_app, !length_replicate.
    split_and!; try done; try lia;
      rewrite ?Hbd, ?Htd, ?Hcd, ?Hbi, ?Ho1, ?Ho2, ?Hi1, ?Hi2, ?Hi3; try done.
    + rewrite <- app_assoc. f_equal.
      replace (2 * length bottom + 1)%nat
        with (S (length bottom + (length bottom + 0)))%nat by lia.
      by rewrite replicate_S_end.
    + exists kh, kw. done.
    + f_equal. lia.
  - injection H as <- <-. rnorm.
    split_and!; try done; try lia;
      rewrite ?Hbd, ?Htd, ?Hcd, ?Hbi, ?Ho1, ?Ho2, ?Hi1, ?Hi2, ?Hi3; try done.
    + do 2 f_equal. lia.
    + exists kh, kw. done.
    + f_equal. lia.
Qed.

(** C4.  [LayerSetUp] creates exactly
    [G = group_ * CUDNN_STREAMS_PER_GROUP] streams and as many handles, where
    [CUDNN_STREAMS_PER_GROUP] is 1; [stream_[g]] and [handle_[g]] are the
    [g]-th stream and handle created and handle [g] is bound to stream [g];
    every [workspace[g]] is NULL; for every input the three algorithms are
    algorithm 0 and the three workspace sizes are 0; [bias_offset_] is
    [num_output_ / group_] and [handles_setup_] is true. *)
Theorem LayerSetUp_streams_handles_defaults (V : Vendor) (w w' : World)
    (L L' : Layer) (bottom top : list Blob) :
  LayerSetUp V w L bottom top = Ok (w', L') ->
  let G := Z.to_nat (group_ (base L) * CUDNN_STREAMS_PER_GROUP) in
  CUDNN_STREAMS_PER_GROUP = 1 /\ Z.of_nat G = group_ (base L) /\
  w_streams w' = w_streams w ++ replicate G (Some ()) /\
  length (w_handles w') = (length (w_handles w) + G)%nat /\
  take (length (w_handles w)) (w_handles w') = w_handles w /\
  length (arr_data (stream_ L')) = G /\
  length (arr_data (handle_ L')) = G /\
  length (arr_data (workspace L')) = G /\
  (forall g, (g < G)%nat ->
     let s := (length (w_streams w) + g)%nat in
     let h := (length (w_handles w) + g)%nat in
     arr_data (stream_ L') !! g = Some s /\
     arr_data (handle_ L') !! g = Some h /\
     st_get (w_streams w') s = Some () /\
     st_get (w_handles w') h = Some (Some s) /\
     arr_data (workspace L') !! g = Some 0) /\
  (forall i, (i < length bottom)%nat ->
     choices L' i = ((Some 0, Some 0), (Some 0, Some 0), (Some 0, Some 0))) /\
  workspaceSizeInBytes L' = 0 /\ workspaceData L' = 0 /\
  bias_offset_ L' = Z.quot (num_output_ (base L)) (group_ (base L)) /\
  handles_setup_ L' = true.
Proof.
  intros H G. apply LayerSetUp_result in H.
  cbv zeta in H. fold G in H.
  destruct H as (Hs & Hh & _ & _ & _ & _ & _ & _ & Hsetup & _ & HG & Hst & Hha &
                 Hws & Harr & _ & Hsz & Hd & Hbo & _).
  unfold algo_arrays in Harr. injection Harr as A1 A2 A3 A4 A5 A6.
  split_and!; try done.
  - unfold G, CUDNN_STREAMS_PER_GROUP in *. lia.
  - by rewrite Hh, length_app, length_map, length_seq.
  - rewrite Hh. by rewrite take_app_length.
  - by rewrite Hst, length_map, length_seq.
  - by rewrite Hha, length_map, length_seq.
  - by rewrite Hws, length_replicate.
  - intros g Hg s h. rewrite Hst, Hha, Hws, Hs, Hh. unfold st_get.
    change (map ?f ?l) with (f <$> l).
    rewrite !list_lookup_fmap, !lookup_seq_lt by done.
    split_and!; try done.
    + rewrite lookup_app_r by (unfold s; lia).
      replace (s - length (w_streams w))%nat with g by (unfold s; lia).
      by rewrite lookup_replicate_2.
    + rewrite lookup_app_r by (unfold h; lia).
      replace (h - length (w_handles w))%nat with g by (unfold h; lia).
      by rewrite list_lookup_fmap, lookup_seq_lt.
    + by rewrite lookup_replicate_2.
  - intros i Hi. unfold choices, fwd_choice, bwd_filter_choice,
      bwd_data_choice. rewrite A1, A2, A3, A4, A5, A6. cbn [arr_data].
    by rewrite lookup_replicate_2.
Qed.

(** ** Descriptors *)

Lemma NoDup_app3_lookup {A} (l1 l2 l3 : list A) :
  NoDup (l1 ++ l2 ++ l3) ->
  (forall i j x, l1 !! i = Some x -> l1 !! j = Some x -> i = j) /\
  (forall i j x, l2 !! i = Some x -> l2 !! j = Some x -> i = j) /\
  (forall i j x, l1 !! i = Some x -> l2 !! j = Some x -> False) /\
  (forall i x, l1 !! i = Some x -> x ∈ l3 -> False) /\
  (forall i x, l2 !! i = Some x -> x ∈ l3 -> False).
Proof.
  intros H. apply NoDup_app in H as (H1 & H12 & H23).
  apply NoDup_app in H23 as (H2 & H23 & H3).
  split_and!.
  - intros i j x. by apply NoDup_lookup.
  - intros i j x. by apply NoDup_lookup.
  - intros i j x Hi Hj. apply (H12 x); [by eapply list_elem_of_lookup_2|].
    apply elem_of_app. left. by eapply list_elem_of_lookup_2.
  - intros i x Hi Hx. apply (H12 x); [by eapply list_elem_of_lookup_2|].
    apply elem_of_app. by right.
  - intros i x Hi Hx. apply (H23 x); [by eapply list_elem_of_lookup_2|done].
Qed.

(** After the per-input loop every input's bottom and top descriptor holds
    the shape the loop gave it. *)
Lemma Reshape_inputs_tensors (V : Vendor) (lc : Locals) (B : nat)
    (w w' : World) (L L' : Layer) :
  for_loop (Reshape_input V lc) (seq 0 B) (w, L) = Ok (w', L') ->
  NoDup (bottom_descs_ L ++ top_descs_ L) ->
  forall i, (i < B)%nat ->
    exists bd td,
      bottom_descs_ L !! i = Some bd /\ top_descs_ L !! i = Some td /\
      st_get (w_tensors w') bd =
        Some (Some (bottom_tensor (base L) lc
                      (Z.quot (channels_ (base L)) (group_ (base L))))) /\
      st_get (w_tensors w') td =
        Some (Some (top_tensor (base L) lc
                      (Z.quot (num_output_ (base L)) (group_ (base L))))).
Proof.
  intros H Hnd i Hi.
  rewrite <- (app_nil_r (top_descs_ L)) in Hnd.
  apply NoDup_app3_lookup in Hnd as (Hb & Ht & Hbt & _ & _).
  apply (Reshape_inputs_at _ _ _ i) in H as (wa & La & wi & Li & Ea & Ei & Eb);
    [|done].
  apply Reshape_inputs_frame in Ea as ((Hf & _) & _).
  pose proof Ei as Ei'.
  apply Reshape_input_frame in Ei' as ((Hfi & _) & _).
  apply Reshape_input_spec in Ei
    as (bd & td & cd & Ebd & Etd & Ecd & _ & _ & _ & _ & _ & _ & _ & Hbd &
        Htd & _).
  apply Reshape_inputs_frame in Eb as (_ & _ & _ & _ & _ & _ & Hkeep & _).
  assert (Hd : base La = base L /\ bottom_descs_ La = bottom_descs_ L /\
               top_descs_ La = top_descs_ L).
  { unfold fixed_members in Hf. by injection Hf as -> _ _ _ _ -> -> _ _ _. }
  destruct Hd as (Hba & Hd1 & Hd2).
  assert (Hd' : bottom_descs_ Li = bottom_descs_ L /\
                top_descs_ Li = top_descs_ L).
  { unfold fixed_members in Hfi. rewrite <- Hd1, <- Hd2.
    by injection Hfi as _ _ _ _ _ -> -> _ _ _. }
  destruct Hd' as (Hd1' & Hd2').
  rewrite Hba, Hd1 in *. rewrite Hd2 in *. rewrite Hd1', Hd2' in Hkeep.
  exists bd, td. split_and!; try done.
  - rewrite Hkeep.
    + apply Hbd. intros ->. by eapply Hbt.
    + intros j Hj. apply elem_of_seq in Hj. split; intros Hj'.
      * assert (j = i) by (by eapply Hb). lia.
      * by eapply Hbt.
  - rewrite Hkeep; [done|].
    intros j Hj. apply elem_of_seq in Hj. split; intros Hj'.
    + by eapply Hbt.
    + assert (j = i) by (by eapply Ht). lia.
Qed.

Lemma Reshape_workspace_world (V : Vendor) (B : nat) (w w' : World)
    (L L' : Layer) (r : realloc) :
  Reshape_workspace V B (w, L) = Ok (w', L', r) ->
  vendor_objects w' = vendor_objects w /\ w_tensors w' = w_tensors w /\
  w_convs w' = w_convs w.
Proof.
  intros H. apply Reshape_workspace_spec in H as (m & _ & _ & _ & _ & H).
  cbv zeta in H. destruct r.
  - by destruct H as (_ & -> & _).
  - by destruct H as (_ & (p & _ & -> & _) & _).
  - by destruct H as (_ & _ & -> & _).
Qed.

(** On a layer whose descriptor vectors are empty, as the constructor leaves
    them, [LayerSetUp] makes pairwise different tensor descriptors. *)
Lemma LayerSetUp_descs_distinct (V : Vendor) (w w' : World) (L L' : Layer)
    (bottom top : list Blob) :
  LayerSetUp V w L bottom top = Ok (w', L') ->
  bottom_descs_ L = [] -> top_descs_ L = [] ->
  tensor_descs_distinct L'.
Proof.
  intros H Hb Ht. apply LayerSetUp_result in H. cbv zeta in H.
  destruct H as (_ & _ & _ & _ & _ & _ & _ & Hbase & _ & _ & _ & _ & _ & _ &
                 _ & _ & _ & _ & _ & _ & _ & Hbd & Htd & _ & Hbi).
  unfold tensor_descs_distinct. rewrite Hbase, Hbd, Htd, Hbi, Hb, Ht.
  cbn [app].
  set (nt := length (w_tensors w)). set (B := length bottom).
  apply NoDup_app. split_and!.
  - apply NoDup_fmap_2_strong; [|apply NoDup_seq].
    intros x y _ _. lia.
  - intros x Hx Hy.
    apply list_elem_of_fmap in Hx as (i & -> & Hi).
    apply elem_of_app in Hy as [Hy|Hy].
    + apply list_elem_of_fmap in Hy as (j & Hj & _). lia.
    + destruct (bias_term_ (base L)); [|by apply elem_of_nil in Hy].
      apply list_elem_of_singleton in Hy. apply elem_of_seq in Hi. lia.
  - apply NoDup_app. split_and!.
    + apply NoDup_fmap_2_strong; [|apply NoDup_seq].
      intros x y _ _. lia.
    + intros x Hx Hy.
      apply list_elem_of_fmap in Hx as (i & -> & Hi).
      destruct (bias_term_ (base L)); [|by apply elem_of_nil in Hy].
      apply list_elem_of_singleton in Hy. apply elem_of_seq in Hi. lia.
    + destruct (bias_term_ (base L)); [apply NoDup_singleton|apply NoDup_nil_2].
Qed.

(** [Reshape] leaves the members it only reads as they are. *)
Lemma Reshape_fixed_members (V : Vendor) (w w' : World) (L L' : Layer)
    (bottom top : list Blob) (r : realloc) :
  Reshape V w L bottom top = Ok (w', L', r) ->
  fixed_members L' = fixed_members L.
Proof.
  intros H. apply Reshape_stages in H as (_ & w1 & L1 & w2 & E1 & E2 & _).
  apply Reshape_inputs_members in E1 as (Hf1 & _).
  apply Reshape_workspace_spec in E2 as (m & _ & Hf2 & _).
  congruence.
Qed.

(** C6.  The shapes given to the vendor library are per-group shapes.
    [LayerSetUp] creates the filter descriptor with [num_output_ / group_]
    output channels, [channels_ / group_] input channels and the configured
    kernel height and width.  [Reshape] sets, for every input [i], the bottom
    descriptor to [(num_, channels_ / group_, height, width)] with the
    strides of the full channel count, the top descriptor to
    [(num_, num_output_ / group_, height_out, width_out)] with the strides of
    the full output count, and with [bias_term_] the bias descriptor to
    [(1, num_output_ / group_, 1, 1)]; it sets [bottom_offset_] to
    [bottom_dim_ / group_] and [top_offset_] to [top_dim_ / group_].  The
    tensor descriptors of the layer are assumed to be different objects;
    [LayerSetUp] makes them so on a layer whose descriptor vectors are
    empty, as the constructor leaves them, and [Reshape] keeps them so. *)
Theorem shapes_are_per_group (V : Vendor) :
  (forall w L bottom top w' L',
     LayerSetUp V w L bottom top = Ok (w', L') ->
     exists kernel_h kernel_w,
       kernel_shape_ (base L) !! 0%nat = Some kernel_h /\
       kernel_shape_ (base L) !! 1%nat = Some kernel_w /\
       st_get (w_filters w') (filter_desc_ L') =
         Some {| f_n := Z.quot (num_output_ (base L)) (group_ (base L));
                 f_c := Z.quot (channels_ (base L)) (group_ (base L));
                 f_h := kernel_h; f_w := kernel_w |}) /\
  (forall w L bottom top w' L' r,
     Reshape V w L bottom top = Ok (w', L', r) ->
     tensor_descs_distinct L ->
     let b := base L in
     exists bottom0 top0 height width height_out width_out,
       bottom !! 0%nat = Some bottom0 /\ top !! 0%nat = Some top0 /\
       shape bottom0 (channel_axis_ b + 1) = Ok height /\
       shape bottom0 (channel_axis_ b + 2) = Ok width /\
       shape top0 (channel_axis_ b + 1) = Ok height_out /\
       shape top0 (channel_axis_ b + 2) = Ok width_out /\
       bottom_offset_ L' = Z.quot (bottom_dim_ b) (group_ b) /\
       top_offset_ L' = Z.quot (top_dim_ b) (group_ b) /\
       (forall i, (i < length bottom)%nat ->
          exists bd td,
            bottom_descs_ L !! i = Some bd /\ top_descs_ L !! i = Some td /\
            st_get (w_tensors w') bd =
              Some (Some
                {| t_n := num_ b; t_c := Z.quot (channels_ b) (group_ b);
                   t_h := height; t_w := width;
                   t_strides := Some (channels_ b * height * width,
                                      height * width, width, 1) |}) /\
            st_get (w_tensors w') td =
              Some (Some
                {| t_n := num_ b; t_c := Z.quot (num_output_ b) (group_ b);
                   t_h := height_out; t_w := width_out;
                   t_strides := Some (num_output_ b * out_spatial_dim_ b,
                                      out_spatial_dim_ b, width_out, 1) |}))
       /\
       (bias_term_ b = true ->
        st_get (w_tensors w') (bias_desc_ L) =
          Some (Some
            {| t_n := 1; t_c := Z.quot (num_output_ b) (group_ b);
               t_h := 1; t_w := 1; t_strides := None |}))) /\
  (forall w L bottom top w' L',
     LayerSetUp V w L bottom top = Ok (w', L') ->
     bottom_descs_ L = [] -> top_descs_ L = [] ->
     tensor_descs_distinct L') /\
  (forall w L bottom top w' L' r,
     Reshape V w L bottom top = Ok (w', L', r) ->
     tensor_descs_distinct L -> tensor_descs_distinct L').
Proof.
  split; [|split; [|split]].
  4:{ intros w L bottom top w' L' r H Hnd.
      apply Reshape_fixed_members in H. unfold fixed_members in H.
      injection H as Hb _ _ _ _ Hbd Htd _ Hbi _.
      unfold tensor_descs_distinct. by rewrite Hb, Hbd, Htd, Hbi. }
  3:{ intros w L bottom top w' L'. apply LayerSetUp_descs_distinct. }
  - intros w L bottom top w' L' H. apply LayerSetUp_result in H.
    cbv zeta in H.
    destruct H as (_ & _ & _ & (kh & kw & E1 & E2 & Hf) & H).
    destruct H as (_ & _ & _ & _ & _ & _ & _ & _ & _ & _ & _ & _ &
                   _ & _ & _ & _ & Hfd & _).
    exists kh, kw. split_and!; try done.
    rewrite Hf, Hfd. unfold st_get. by rewrite list_lookup_middle.
  - intros w L bottom top w' L' r H Hnd b.
    apply Reshape_stages in H as (_ & w1 & L1 & w2 & E1 & E2 & Eb).
    pose proof (Reshape_inputs_members _ _ _ _ _ _ _ E1)
      as (Hf1 & _ & _ & Ho1 & _).
    apply Reshape_inputs_Ok in E1 as (_ & lc & Elc & _ & _ & Eloop).
    pose proof (Reshape_workspace_world _ _ _ _ _ _ _ E2) as (_ & Ht2 & _).
    apply Reshape_workspace_spec in E2 as (m & _ & Hf2 & Ho2 & _).
    assert (Hd : base L' = base L /\ bias_desc_ L' = bias_desc_ L).
    { unfold fixed_members in Hf1, Hf2. rewrite Hf1 in Hf2.
      by injection Hf2 as -> _ _ _ _ _ _ _ -> _. }
    destruct Hd as [Hb' Hbi']. rewrite Hb', Hbi' in Eb.
    unfold tensor_descs_distinct in Hnd. fold b in Hnd, Eb.
    pose proof (NoDup_app3_lookup _ _ _ Hnd) as (_ & _ & _ & Hbb & Htb).
    assert (Hnd2 : NoDup (bottom_descs_ L ++ top_descs_ L)).
    { rewrite app_assoc in Hnd. by apply NoDup_app in Hnd as (? & _). }
    pose proof (Reshape_inputs_tensors _ _ _ _ _ _ _ Eloop Hnd2) as Hten.
    unfold Reshape_locals in Elc. fold b in Elc.
    apply obind_Ok in Elc as (bottom0 & Eb0 & Elc).
    apply obind_Ok in Elc as (he & Ehe & Elc).
    apply obind_Ok in Elc as (wi & Ewi & Elc).
    apply obind_Ok in Elc as (top0 & Et0 & Elc).
    apply obind_Ok in Elc as (ho & Eho & Elc).
    apply obind_Ok in Elc as (wo & Ewo & Elc).
    ok_inv Elc. subst lc. apply index_Ok in Eb0, Et0.
    exists bottom0, top0, he, wi, ho, wo.
    unfold offsets in Ho1, Ho2. rewrite Ho1 in Ho2.
    injection Ho2 as Hbo Hto.
    split_and!; try done.
    + intros i Hi. destruct (Hten i Hi) as (bd & td & Ebd & Etd & Hbd & Htd).
      exists bd, td. split; [done|]. split; [done|].
      unfold bottom_tensor, top_tensor in Hbd, Htd.
      cbn [height width height_out width_out base] in Hbd, Htd.
      fold b in Hbd, Htd. rewrite <- Ht2 in Hbd, Htd.
      destruct (bias_term_ b) eqn:Ebias; rewrite ?Ebias in *.
      * apply setTensor4dDesc_Ok in Eb as [_ ->]. cbn [w_tensors set_w_tensors].
        rewrite !st_get_put_ne; [done| |].
        -- intros Heq. eapply Htb; [exact Etd|]. rewrite <- Heq.
           by apply list_elem_of_singleton.
        -- intros Heq. eapply Hbb; [exact Ebd|]. rewrite <- Heq.
           by apply list_elem_of_singleton.
      * by subst w'.
    + intros Ebias. rewrite Ebias in Eb.
      apply setTensor4dDesc_Ok in Eb as [Hlt ->]. cbn [w_tensors set_w_tensors].
      by rewrite st_get_put_eq.
Qed.

(** ** The destructor *)

(** The loop over the per-input descriptors destroys them and nothing
    else. *)
Lemma destroy_descs_loop (L : Layer) (n : nat) (w w' : World) :
  for_loop (destroy_descs L) (seq 0 n) w = Ok w' ->
  vendor_objects w' = vendor_objects w /\ w_gpu w' = w_gpu w /\
  (forall d, st_get (w_tensors w) d = None -> st_get (w_tensors w') d = None)
  /\
  (forall d, st_get (w_convs w) d = None -> st_get (w_convs w') d = None) /\
  forall i, (i < n)%nat ->
    exists bd td cd,
      bottom_descs_ L !! i = Some bd /\ top_descs_ L !! i = Some td /\
      conv_descs_ L !! i = Some cd /\
      st_get (w_tensors w') bd = None /\ st_get (w_tensors w') td = None /\
      st_get (w_convs w') cd = None.
Proof.
  intros H.
  apply (for_loop_seq_inv
    (fun k wk =>
       vendor_objects wk = vendor_objects w /\ w_gpu wk = w_gpu w /\
       (forall d, st_get (w_tensors w) d = None ->
                  st_get (w_tensors wk) d = None) /\
       (forall d, st_get (w_convs w) d = None ->
                  st_get (w_convs wk) d = None) /\
       forall i, (i < k)%nat ->
         exists bd td cd,
           bottom_descs_ L !! i = Some bd /\ top_descs_ L !! i = Some td /\
           conv_descs_ L !! i = Some cd /\
           st_get (w_tensors wk) bd = None /\
           st_get (w_tensors wk) td = None /\
           st_get (w_convs wk) cd = None)) in H; [done| |].
  - split_and!; try done. intros i Hi. lia.
  - clear H. intros k w1 w2 Hk (Hv & Hg & Ht & Hc & Hdone) Hb.
    unfold destroy_descs in Hb.
    apply obind_Ok in Hb as (bd & Ebd & Hb).
    apply obind_Ok in Hb as (td & Etd & Hb).
    apply obind_Ok in Hb as (cd & Ecd & Hb). injection Hb as <-.
    apply index_Ok in Ebd, Etd, Ecd.
    unfold cudnnDestroyConvolutionDescriptor, cudnnDestroyTensorDescriptor.
    unfold vendor_objects in *. rnorm.
    split_and!; try done.
    + intros d Hd. by do 2 apply st_get_del_None; apply Ht.
    + intros d Hd. by apply st_get_del_None, Hc.
    + intros i Hi. destruct (decide (i = k)) as [->|Hne].
      * exists bd, td, cd. split_and!; try done.
        -- apply st_get_del_None, st_get_del.
        -- apply st_get_del.
        -- apply st_get_del.
      * destruct (Hdone i) as (bd' & td' & cd' & ? & ? & ? & ? & ? & ?);
          [lia|].
        exists bd', td', cd'. split_and!; try done.
        -- by do 2 apply st_get_del_None.
        -- by do 2 apply st_get_del_None.
        -- by apply st_get_del_None.
Qed.

(** The loop over the groups destroys their streams and handles and nothing
    else. *)
Lemma destroy_group_loop (L : Layer) (n : nat) (w w' : World) :
  for_loop (destroy_group L) (seq 0 n) w = Ok w' ->
  w_tensors w' = w_tensors w /\ w_filters w' = w_filters w /\
  w_convs w' = w_convs w /\ w_gpu w' = w_gpu w /\ w_heap w' = w_heap w /\
  forall g, (g < n)%nat ->
    exists s h,
      arr_data (stream_ L) !! g = Some s /\
      arr_data (handle_ L) !! g = Some h /\
      st_get (w_streams w') s = None /\ st_get (w_handles w') h = None.
Proof.
  intros H.
  apply (for_loop_seq_inv
    (fun k wk =>
       w_tensors wk = w_tensors w /\ w_filters wk = w_filters w /\
       w_convs wk = w_convs w /\ w_gpu wk = w_gpu w /\
       w_heap wk = w_heap w /\
       forall g, (g < k)%nat ->
         exists s h,
           arr_data (stream_ L) !! g = Some s /\
           arr_data (handle_ L) !! g = Some h /\
           st_get (w_streams wk) s = None /\
           st_get (w_handles wk) h = None)) in H; [done| |].
  - split_and!; try done. intros g Hg. lia.
  - clear H. intros k w1 w2 Hk (Ht & Hf & Hc & Hg & Hh & Hdone) Hb.
    unfold destroy_group in Hb.
    apply obind_Ok in Hb as (s & Es & Hb).
    apply obind_Ok in Hb as (h & Eh & Hb). injection Hb as <-.
    apply index_Ok in Es, Eh.
    unfold cudnnDestroy, cudaStreamDestroy. rnorm.
    split_and!; try done.
    intros g Hlt. destruct (decide (g = k)) as [->|Hne].
    + exists s, h. split_and!; try done; apply st_get_del.
    + destruct (Hdone g) as (s' & h' & ? & ? & ? & ?); [lia|].
      exists s', h'. split_and!; try done; by apply st_get_del_None.
Qed.

(** C5.  On a layer whose [handles_setup_] is set the destructor releases
    what the layer holds: the bottom, top and convolution descriptor of every
    input, the bias descriptor when [bias_term_] is set, the filter
    descriptor, the stream and the handle of every one of the
    [group_ * CUDNN_STREAMS_PER_GROUP] groups, the device block
    [workspaceData], and the heap blocks of [stream_], [handle_], the three
    algorithm arrays and the three workspace-size arrays.  When
    [handles_setup_] is not set it returns at once and releases nothing. *)
Theorem destructor_releases (w w' : World) (L : Layer) :
  destructor w L = Ok w' ->
  (handles_setup_ L = false -> w' = w) /\
  (handles_setup_ L = true ->
   (forall i, (i < length (bottom_descs_ L))%nat ->
      exists bd td cd,
        bottom_descs_ L !! i = Some bd /\ top_descs_ L !! i = Some td /\
        conv_descs_ L !! i = Some cd /\
        st_get (w_tensors w') bd = None /\ st_get (w_tensors w') td = None /\
        st_get (w_convs w') cd = None) /\
   (bias_term_ (base L) = true ->
    st_get (w_tensors w') (bias_desc_ L) = None) /\
   st_get (w_filters w') (filter_desc_ L) = None /\
   (forall g,
      (g < Z.to_nat (group_ (base L) * CUDNN_STREAMS_PER_GROUP))%nat ->
      exists s h,
        arr_data (stream_ L) !! g = Some s /\
        arr_data (handle_ L) !! g = Some h /\
        st_get (w_streams w') s = None /\ st_get (w_handles w') h = None) /\
   (forall b, b ∈ w_gpu w' -> b.1 <> workspaceData L) /\
   Forall (fun id => st_get (w_heap w') id = None)
     [arr_id (stream_ L); arr_id (handle_ L); arr_id (fwd_algo_ L);
      arr_id (bwd_filter_algo_ L); arr_id (bwd_data_algo_ L);
      arr_id (workspace_fwd_sizes_ L); arr_id (workspace_bwd_data_sizes_ L);
      arr_id (workspace_bwd_filter_sizes_ L)]).
Proof.
  unfold destructor. intros H.
  destruct (handles_setup_ L); cbn [negb] in H.
  2:{ injection H as <-. split; [done|]. discriminate. }
  split; [discriminate|]. intros _.
  apply obind_Ok in H as (w1 & E1 & H).
  apply obind_Ok in H as (w2 & E2 & H). injection H as <-.
  apply destroy_descs_loop in E1 as (Hv1 & Hg1 & Ht1 & Hc1 & Hd1).
  apply destroy_group_loop in E2 as (Ht2 & Hf2 & Hc2 & Hg2 & Hh2 & Hd2).
  unfold delete_array, cudaFree. rnorm.
  unfold nat_range in *.
  split_and!.
  - intros i Hi. destruct (Hd1 i Hi) as (bd & td & cd & ? & ? & ? & ? & ? & ?).
    exists bd, td, cd. rewrite Ht2, Hc2.
    unfold cudnnDestroyFilterDescriptor. rnorm.
    destruct (bias_term_ (base L)); unfold cudnnDestroyTensorDescriptor;
      rnorm; split_and!; try done; by apply st_get_del_None.
  - intros Hb. rewrite Ht2. rewrite Hb.
    unfold cudnnDestroyFilterDescriptor, cudnnDestroyTensorDescriptor. rnorm.
    apply st_get_del.
  - rewrite Hf2. unfold cudnnDestroyFilterDescriptor. rnorm. apply st_get_del.
  - exact Hd2.
  - intros b Hb. apply list_elem_of_filter in Hb as [Hb _]. exact Hb.
  - repeat constructor;
      repeat (first [apply st_get_del | apply st_get_del_None]).
Qed.

(** ** The model at work *)

Import Sample.

(** C7, as the code runs: two groups, one input whose algorithms need 200
    bytes of workspace, and a device allocation that fails.  [Reshape]
    returns, with zero sizes, the fallback algorithms, a NULL
    [workspaceData] and a zero [workspaceSizeInBytes], but [workspace[1]] is
    [NULL + 1 * 200], not NULL. *)
Lemma Reshape_alloc_failure_dangling_pointer :
  exists w0 L0 w' L',
    set_up V8_no_memory 2 1 = Ok (w0, L0) /\
    Reshape V8_no_memory w0 (reshaped 2 10 L0) (blobs 1 4 10) (blobs 1 8 10)
      = Ok (w', L', alloc_failed) /\
    choices L' 0 = ((Some 0, Some 0), (Some 0, Some 0), (Some 0, Some 0)) /\
    workspaceData L' = 0 /\ workspaceSizeInBytes L' = 0 /\
    arr_data (workspace L') = [0; 200].
Proof.
  eexists _, _, _, _.
  split; [vm_compute; reflexivity|].
  split; [vm_compute; reflexivity|].
  vm_compute. done.
Qed.

(** Witness of C1 (amended): two groups, one input under cuDNN 8.  The
    first [Reshape], on height 10, allocates 2 * 200 bytes and aliases the
    second group 200 bytes into the block.  The second, on height 5, needs
    100 bytes per group and keeps the workspace: the two regions of 100
    bytes start 200 bytes apart, inside the block and disjoint. *)
Lemma Reshape_workspace_layout_witness :
  exists w0 L0 w1 L1 w2 L2,
    set_up V8 2 1 = Ok (w0, L0) /\
    Reshape V8 w0 (reshaped 2 10 L0) (blobs 1 4 10) (blobs 1 8 10)
      = Ok (w1, L1, reallocated) /\
    max_workspace_of L1 1 = Ok 200 /\
    workspaceSizeInBytes L1 = 2 * 1 * 200 /\
    arr_data (workspace L1) !! 1%nat = Some (workspaceData L1 + 1 * 200) /\
    Reshape V8 w1 (reshaped 2 5 L1) (blobs 1 4 5) (blobs 1 8 5)
      = Ok (w2, L2, kept) /\
    max_workspace_of L2 1 = Ok 100 /\
    arr_data (workspace L2) !! 1%nat = Some (workspaceData L2 + 1 * 200) /\
    region_within (workspaceData L2 + 1 * 200) 100
      (workspaceData L2) (workspaceSizeInBytes L2) /\
    regions_disjoint (workspaceData L2 + 1 * 200) (workspaceData L2 + 0 * 200)
      100.
Proof.
  eexists _, _, _, _, _, _.
  split; [vm_compute; reflexivity|].
  match goal with
  | |- ?R = Ok (?w', ?L', _) /\ _ =>
      assert (H : R = Ok (w', L', reallocated)) by (vm_compute; reflexivity)
  end.
  split; [exact H|].
  destruct (Reshape_workspace_layout _ _ _ _ _ _ _ _ H) as (m & Hm & _ & Hlay);
    [discriminate|].
  assert (m = 200) as -> by (vm_compute in Hm; congruence).
  split; [exact Hm|].
  destruct Hlay as (_ & _ & Hsize & _ & Hptr); [vm_compute; discriminate|
    vm_compute; reflexivity|].
  split; [exact Hsize|].
  split.
  { destruct (Hptr 1) as (Hp & _);
      [vm_compute; split; [discriminate|reflexivity]|].
    exact Hp. }
  match goal with
  | |- ?R = Ok (?w', ?L', _) /\ _ =>
      assert (H2 : R = Ok (w', L', kept)) by (vm_compute; reflexivity)
  end.
  split; [exact H2|].
  destruct (Reshape_workspace_layout _ _ _ _ _ _ _ _ H2)
    as (m & Hm2 & _ & Hlay2); [discriminate|].
  assert (m = 100) as -> by (vm_compute in Hm2; congruence).
  split; [exact Hm2|].
  destruct Hlay2 as (_ & _ & _ & Hkept); [vm_compute; discriminate|
    vm_compute; reflexivity|].
  destruct (Hkept 200 Hsize (fun g Hg => proj1 (Hptr g Hg)) 1)
    as (_ & Hp2 & Hin & Hdis);
    [vm_compute; split; [discriminate|reflexivity]|].
  split; [exact Hp2|]. split; [exact Hin|].
  apply (Hdis 0); [vm_compute; split; [discriminate|reflexivity]|discriminate].
Defined.

(** Counterexample to C1 as stated: after a second [Reshape] whose need is
    smaller (inputs of height 5, [max_workspace] 100) the workspace is kept,
    and [workspace[1]] still is [workspaceData + 200], not
    [workspaceData + 1 * max_workspace]. *)
Lemma Reshape_keeps_earlier_aliases :
  exists w0 L0 w1 L1 w2 L2,
    set_up V8 2 1 = Ok (w0, L0) /\
    Reshape V8 w0 (reshaped 2 10 L0) (blobs 1 4 10) (blobs 1 8 10)
      = Ok (w1, L1, reallocated) /\
    Reshape V8 w1 (reshaped 2 5 L1) (blobs 1 4 5) (blobs 1 8 5)
      = Ok (w2, L2, kept) /\
    max_workspace_of L2 1 = Ok 100 /\
    workspaceData L2 = 4096 /\
    arr_data (workspace L2) !! 1%nat = Some 4296 /\
    workspaceData L2 + 1 * 100 = 4196.
Proof.
  eexists _, _, _, _, _, _.
  split; [vm_compute; reflexivity|].
  split; [vm_compute; reflexivity|].
  split; [vm_compute; reflexivity|].
  vm_compute. done.
Qed.

(** Witness of C2 (amended): before cuDNN 8 the stored choices of the one
    input are the six answers of the vendor. *)
Lemma Reshape_choices_from_vendor_witness :
  exists w0 L0 w' L',
    set_up V7_fixed 2 1 = Ok (w0, L0) /\
    Reshape V7_fixed w0 (reshaped 2 10 L0) (blobs 1 4 10) (blobs 1 8 10)
      = Ok (w', L', reallocated) /\
    choices L' 0 = ((Some 1, Some 100), (Some 3, Some 70), (Some 1, Some 50)).
Proof.
  eexists _, _, _, _.
  split; [vm_compute; reflexivity|].
  match goal with
  | |- ?R = Ok (?w', ?L', _) /\ _ =>
      assert (H : R = Ok (w', L', reallocated)) by (vm_compute; reflexivity)
  end.
  split; [exact H|].
  destruct (Reshape_choices_from_vendor _ _ _ _ _ _ _ _ 0 H)
    as (w1 & L1 & wi & h0 & bd & td & cd & _ & Hkeep & _ & _ & _ & _ & _ &
        _ & Hq); [vm_compute; lia|].
  rewrite Hkeep by discriminate. clear Hkeep H.
  cbv zeta in Hq. change (CUDNN_VERSION_MIN_8 V7_fixed) with false in Hq.
  destruct Hq as (fa & fs & ra & rs & da & ds & Q1 & Q2 & Q3 & Q4 & Q5 & Q6 &
                  ->).
  vm_compute in Q1, Q2, Q3, Q4, Q5, Q6.
  congruence.
Defined.

(** Counterexample to C2 as stated: under cuDNN 8 the backward-filter
    algorithm and its workspace size are not answers of the vendor.  With a
    vendor that reports 100 bytes for the forward algorithm taken,
    [Reshape] stores algorithm 1 with 200 bytes for the backward filter,
    and no entry of any answer of the vendor's two queries has a memory of
    200 bytes. *)
Lemma bwd_filter_choice_not_a_vendor_answer :
  exists w0 L0 w' L',
    set_up V8_fixed 1 1 = Ok (w0, L0) /\
    Reshape V8_fixed w0 (reshaped 1 10 L0) (blobs 1 4 10) (blobs 1 8 10)
      = Ok (w', L', reallocated) /\
    bwd_filter_choice L' 0 = (Some 1, Some 200) /\
    forall wq h a b c d n prefs p,
      cudnnGetConvolutionForwardAlgorithm_v7 V8_fixed wq h a b c d n
        = Some prefs \/
      cudnnGetConvolutionBackwardDataAlgorithm_v7 V8_fixed wq h a b c d n
        = Some prefs ->
      p ∈ prefs -> memory p <> 200.
Proof.
  eexists _, _, _, _.
  split; [vm_compute; reflexivity|].
  split; [vm_compute; reflexivity|].
  split; [vm_compute; reflexivity|].
  intros wq h a b c d n prefs p [H|H] Hp; vm_compute in H; injection H as <-;
    repeat (apply elem_of_cons in Hp as [->|Hp]; [vm_compute; discriminate|]);
    by apply elem_of_nil in Hp.
Qed.

(** Witness of C3: the vendor's first forward entry is WINOGRAD_NONFUSED,
    the second has a failure status; the third is taken.  The first
    backward-data entry is WINOGRAD; the second is taken. *)
Lemma Reshape_v8_selects_first_suitable_witness :
  exists w0 L0 w' L',
    set_up V8_fixed 2 1 = Ok (w0, L0) /\
    Reshape V8_fixed w0 (reshaped 2 10 L0) (blobs 1 4 10) (blobs 1 8 10)
      = Ok (w', L', reallocated) /\
    fwd_choice L' 0 = (Some 1, Some 100) /\
    bwd_data_choice L' 0 = (Some 1, Some 50).
Proof.
  eexists _, _, _, _.
  split; [vm_compute; reflexivity|].
  match goal with
  | |- ?R = Ok (?w', ?L', _) /\ _ =>
      assert (H : R = Ok (w', L', reallocated)) by (vm_compute; reflexivity)
  end.
  split; [exact H|].
  destruct (Reshape_v8_selects_first_suitable V8_fixed _ _ _ _ _ _ _ 0
              eq_refl H)
    as (w1 & L1 & wi & h0 & bd & td & cd & pf & pb & _ & Hkeep & _ & _ & _ &
        _ & _ & _ & Ef & Eb & Hf & _ & Hb & _); [vm_compute; lia|].
  apply choices_eq in Hkeep as (-> & _ & ->); [|discriminate]. clear H.
  vm_compute in Ef, Eb. injection Ef as <-. injection Eb as <-.
  split.
  - apply (Hf 2%nat {| algo := 1; status := 0; memory := 100 |}).
    split; [reflexivity|]. split; [reflexivity|].
    intros [|[|m]] q Hm Hq; [| |lia]; injection Hq as <-; reflexivity.
  - apply (Hb 1%nat {| algo := 1; status := 0; memory := 50 |}).
    split; [reflexivity|]. split; [reflexivity|].
    intros [|m] q Hm Hq; [|lia]. injection Hq as <-. reflexivity.
Defined.

(** Witness of C4: a layer with 2 groups and 1 input. *)
Lemma LayerSetUp_streams_handles_defaults_witness :
  exists w0 L0,
    set_up V8 2 1 = Ok (w0, L0) /\
    w_streams w0 = [Some (); Some ()] /\
    length (w_handles w0) = 2%nat /\
    st_get (w_handles w0) 1 = Some (Some 1%nat) /\
    choices L0 0 = ((Some 0, Some 0), (Some 0, Some 0), (Some 0, Some 0)) /\
    bias_offset_ L0 = 4 /\ handles_setup_ L0 = true.
Proof.
  eexists _, _.
  match goal with
  | |- ?R = Ok (?w', ?L') /\ _ =>
      assert (H : R = Ok (w', L')) by (vm_compute; reflexivity)
  end.
  split; [exact H|]. unfold set_up in H.
  destruct (LayerSetUp_streams_handles_defaults _ _ _ _ _ _ _ H)
    as (_ & _ & Hs & Hh & _ & _ & _ & _ & Hg & Hi & _ & _ & Hb & Hset).
  split; [exact Hs|]. split; [exact Hh|].
  destruct (Hg 1%nat) as (_ & _ & _ & Hbind & _); [vm_compute; lia|].
  split; [exact Hbind|].
  split; [apply Hi; vm_compute; lia|].
  split; [exact Hb|exact Hset].
Defined.

(** Witness of C5: the layer set up above, reshaped once and destroyed. *)
Lemma destructor_releases_witness :
  exists w0 L0 w1 L1 w2,
    set_up V8 2 1 = Ok (w0, L0) /\
    Reshape V8 w0 (reshaped 2 10 L0) (blobs 1 4 10) (blobs 1 8 10)
      = Ok (w1, L1, reallocated) /\
    destructor w1 L1 = Ok w2 /\
    st_get (w_filters w2) (filter_desc_ L1) = None /\
    st_get (w_tensors w2) (bias_desc_ L1) = None /\
    (forall b, b ∈ w_gpu w2 -> b.1 <> workspaceData L1) /\
    st_get (w_heap w2) (arr_id (stream_ L1)) = None.
Proof.
  eexists _, _, _, _, _.
  split; [vm_compute; reflexivity|].
  split; [vm_compute; reflexivity|].
  match goal with
  | |- ?R = Ok ?w' /\ _ =>
      assert (H : R = Ok w') by (vm_compute; reflexivity)
  end.
  split; [exact H|].
  destruct (destructor_releases _ _ _ H) as (_ & Hrel).
  destruct Hrel as (_ & Hbias & Hfilter & _ & Hgpu & Hheap); [reflexivity|].
  split; [exact Hfilter|]. split; [apply Hbias; reflexivity|].
  split; [exact Hgpu|].
  apply Forall_cons in Hheap as [Hst _]. exact Hst.
Defined.

(** Witness of C6: 8 outputs and 4 channels in 2 groups, inputs 10 by 6. *)
Lemma shapes_are_per_group_witness :
  exists w0 L0 w' L',
    set_up V8 2 1 = Ok (w0, L0) /\
    st_get (w_filters w0) (filter_desc_ L0) =
      Some {| f_n := 4; f_c := 2; f_h := 3; f_w := 3 |} /\
    Reshape V8 w0 (reshaped 2 10 L0) (blobs 1 4 10) (blobs 1 8 10)
      = Ok (w', L', reallocated) /\
    bottom_offset_ L' = 120 /\ top_offset_ L' = 240 /\
    st_get (w_tensors w') (bias_desc_ L0) =
      Some (Some {| t_n := 1; t_c := 4; t_h := 1; t_w := 1;
                    t_strides := None |}).
Proof.
  eexists _, _, _, _.
  match goal with
  | |- ?R = Ok (?w', ?L') /\ _ =>
      assert (H0 : R = Ok (w', L')) by (vm_compute; reflexivity)
  end.
  split; [exact H0|]. unfold set_up in H0.
  destruct (shapes_are_per_group V8) as (Hsetup & Hreshape & _ & _).
  destruct (Hsetup _ _ _ _ _ _ H0) as (kh & kw & Ekh & Ekw & Hf).
  vm_compute in Ekh, Ekw. injection Ekh as <-. injection Ekw as <-.
  split; [exact Hf|].
  match goal with
  | |- ?R = Ok (?w', ?L', _) /\ _ =>
      assert (H : R = Ok (w', L', reallocated)) by (vm_compute; reflexivity)
  end.
  split; [exact H|].
  destruct (Hreshape _ _ _ _ _ _ _ H)
    as (b0 & t0 & he & wi & ho & wo & _ & _ & _ & _ & _ & _ & Hbo & Hto & _ &
        Hbias).
  { apply (bool_decide_unpack _). vm_compute. exact I. }
  split; [exact Hbo|]. split; [exact Hto|].
  apply Hbias. reflexivity.
Defined.

(** Witness of C8: three spatial axes. *)
Lemma Reshape_checks_spatial_axes_witness :
  exists w0 L0,
    set_up V8 2 1 = Ok (w0, L0) /\
    Reshape V8 w0 (set_base (conv_base 2 10 3) L0) (blobs 1 4 10)
      (blobs 1 8 10) = Fatal CHECK_failed.
Proof.
  eexists _, _.
  split; [vm_compute; reflexivity|].
  apply (proj1 (Reshape_checks_spatial_axes _ _ _ _ _)).
  vm_compute. discriminate.
Defined.

(** Witness of C9: inputs of height 10, then 5, then 20; the workspace
    holds 400, 400 and 800 bytes. *)
Lemma workspaceSizeInBytes_monotone_witness :
  exists w0 L0 tr,
    set_up V8 2 1 = Ok (w0, L0) /\
    Reshape_calls V8 (map (call 2 1) [10; 5; 20]) w0 L0 = Ok tr /\
    map snd tr = [reallocated; kept; reallocated] /\
    Sorted Z.le
      (workspaceSizeInBytes L0 ::
       map (fun s => workspaceSizeInBytes s.1.2) tr).
Proof.
  eexists _, _, _.
  split; [vm_compute; reflexivity|].
  match goal with
  | |- ?R = Ok ?tr /\ _ =>
      assert (H : R = Ok tr) by (vm_compute; reflexivity)
  end.
  split; [exact H|].
  split; [vm_compute; reflexivity|].
  apply (proj1 (workspaceSizeInBytes_monotone V8) _ _ _ _ H).
  repeat constructor; discriminate.
Defined.

(** ** Further properties of the lifecycle *)


Lemma st_get_del_ne {A} (i j : nat) (s : store A) :
  i <> j -> st_get (st_del i s) j = st_get s j.
Proof. intros H. unfold st_del. by rewrite st_get_put_ne. Qed.

Lemma st_get_new {A} (s : store A) (l : list (option A)) (k : nat) (x : A) :
  l !! k = Some (Some x) -> st_get (s ++ l) (length s + k) = Some x.
Proof.
  intros H. unfold st_get. rewrite lookup_app_r by lia.
  replace (length s + k - length s)%nat with k by lia. by rewrite H.
Qed.

(** X1.  The array [workspace] of per-group pointers, allocated by
    [LayerSetUp] with [new], is not among the arrays the destructor deletes:
    its heap block is still allocated after the destructor has run. *)
Theorem destructor_keeps_workspace_array (V : Vendor) (w w1 w2 : World)
    (L L1 : Layer) (bottom top : list Blob) :
  LayerSetUp V w L bottom top = Ok (w1, L1) ->
  destructor w1 L1 = Ok w2 ->
  st_get (w_heap w1) (arr_id (workspace L1)) = Some () /\
  st_get (w_heap w2) (arr_id (workspace L1)) = Some ().
Proof.
  intros Hs Hd. apply LayerSetUp_result in Hs. cbv zeta in Hs.
  destruct Hs as (_ & _ & _ & _ & _ & _ & Hheap & _ & Hset & _ & _ & _ & _ &
                  _ & Halg & Hids & _).
  unfold algo_arrays in Halg.
  injection Halg as A1 A2 A3 A4 A5 A6. injection Hids as I1 I2 I3.
  assert (Hlive : st_get (w_heap w1) (arr_id (workspace L1)) = Some ()).
  { rewrite Hheap, I3. by apply st_get_new. }
  split; [exact Hlive|].
  unfold destructor in Hd. rewrite Hset in Hd. cbn [negb] in Hd.
  apply obind_Ok in Hd as (wa & Ea & Hd).
  apply obind_Ok in Hd as (wb & Eb & Hd). injection Hd as <-.
  apply destroy_descs_loop in Ea as (Hva & _).
  apply destroy_group_loop in Eb as (_ & _ & _ & _ & Hhb & _).
  unfold vendor_objects in Hva. injection Hva as _ _ _ Hha.
  unfold delete_array, cudaFree. rnorm.
  rewrite A1, A2, A3, A4, A5, A6, I1, I2, I3 in *. rnorm.
  rewrite !st_get_del_ne by lia.
  rewrite Hhb.
  unfold cudnnDestroyFilterDescriptor.
  destruct (bias_term_ (base L1)); unfold cudnnDestroyTensorDescriptor;
    rnorm; by rewrite Hha.
Qed.

(** Witness of X1: a layer with 2 groups and 1 input, set up and
    destroyed. *)
Lemma destructor_keeps_workspace_array_witness :
  exists w1 L1 w2,
    set_up V8 2 1 = Ok (w1, L1) /\ destructor w1 L1 = Ok w2 /\
    st_get (w_heap w2) (arr_id (workspace L1)) = Some ().
Proof.
  eexists _, _, _.
  match goal with
  | |- ?S = Ok (?w1, ?L1) /\ ?D = Ok ?w2 /\ _ =>
      assert (Hs : S = Ok (w1, L1)) by (vm_compute; reflexivity);
      assert (Hd : D = Ok w2) by (vm_compute; reflexivity)
  end.
  split; [exact Hs|]. split; [exact Hd|].
  unfold set_up in Hs.
  exact (proj2 (destructor_keeps_workspace_array _ _ _ _ _ _ _ _ Hs Hd)).
Defined.

(** Setting a descriptor neither makes nor destroys one. *)
Lemma st_put_live {A} (i : nat) (x : A) (s s' : store A) :
  st_put i x s = Some s' -> forall d, st_live s' d <-> st_live s d.
Proof.
  unfold st_put, st_live. destruct (st_get s i) as [y|] eqn:E; [|done].
  intros [= <-] d. destruct (decide (i = d)) as [<-|Hne].
  - rewrite st_get_put_eq, E; [done|].
    unfold st_get in E. destruct (s !! i) eqn:El; [|done].
    by apply lookup_lt_Some in El.
  - by rewrite st_get_put_ne.
Qed.

Lemma setTensor4dDesc_live (d : nat) (t : Tensor4d) (w w' : World) :
  cudnn.setTensor4dDesc d t w = Ok w' ->
  (forall d', st_live (w_tensors w') d' <-> st_live (w_tensors w) d') /\
  w_convs w' = w_convs w.
Proof.
  unfold cudnn.setTensor4dDesc. intros H.
  apply obind_Ok in H as (st & E & H). injection H as <-.
  apply checked_Ok in E. split; [|done]. rnorm. exact (st_put_live _ _ _ _ E).
Qed.

Lemma setConvolutionDesc_live (d : nat) (c : Conv2d) (w w' : World) :
  cudnn.setConvolutionDesc d c w = Ok w' ->
  (forall d', st_live (w_convs w') d' <-> st_live (w_convs w) d') /\
  w_tensors w' = w_tensors w.
Proof.
  unfold cudnn.setConvolutionDesc. intros H.
  apply obind_Ok in H as (st & E & H). injection H as <-.
  apply checked_Ok in E. split; [|done]. rnorm. exact (st_put_live _ _ _ _ E).
Qed.

Lemma Reshape_input_live (V : Vendor) (lc : Locals) (i : nat) (w w1 : World)
    (L L1 : Layer) :
  Reshape_input V lc i (w, L) = Ok (w1, L1) ->
  (forall d, st_live (w_tensors w1) d <-> st_live (w_tensors w) d) /\
  (forall d, st_live (w_convs w1) d <-> st_live (w_convs w) d).
Proof.
  unfold Reshape_input. intros H.
  apply obind_Ok in H as (bd & _ & H).
  apply obind_Ok in H as (cb & _ & H).
  apply obind_Ok in H as (wa & Ewa & H).
  apply obind_Ok in H as (td & _ & H).
  apply obind_Ok in H as (ct & _ & H).
  apply obind_Ok in H as (wb & Ewb & H).
  apply obind_Ok in H as (cd & _ & H).
  apply obind_Ok in H as (wc & Ewc & H).
  apply obind_Ok in H as (L2 & _ & H). injection H as <- <-.
  apply setTensor4dDesc_live in Ewa as [Ta Ca].
  apply setTensor4dDesc_live in Ewb as [Tb Cb].
  apply setConvolutionDesc_live in Ewc as [Cc Tc].
  split; intros d.
  - by rewrite Tc, Tb, Ta.
  - by rewrite Cc, Cb, Ca.
Qed.

(** [Reshape] sets descriptors that exist: a tensor or convolution
    descriptor exists after the call exactly if it existed before. *)
Lemma Reshape_live (V : Vendor) (w w' : World) (L L' : Layer)
    (bottom top : list Blob) (r : realloc) :
  Reshape V w L bottom top = Ok (w', L', r) ->
  (forall d, st_live (w_tensors w') d <-> st_live (w_tensors w) d) /\
  (forall d, st_live (w_convs w') d <-> st_live (w_convs w) d).
Proof.
  intros H.
  apply Reshape_stages in H as (_ & wa & La & wb & E1 & E2 & Eb).
  apply Reshape_inputs_Ok in E1 as (_ & lc & _ & _ & _ & E1).
  apply (for_loop_preserves
    (fun s =>
       (forall d, st_live (w_tensors s.1) d <-> st_live (w_tensors w) d) /\
       (forall d, st_live (w_convs s.1) d <-> st_live (w_convs w) d)))
    in E1; [| done |].
  - cbn [fst] in E1. destruct E1 as [T1 C1].
    pose proof (Reshape_workspace_world _ _ _ _ _ _ _ E2) as (_ & T2 & C2).
    assert (Hb : (forall d, st_live (w_tensors w') d
                            <-> st_live (w_tensors wb) d) /\
                 w_convs w' = w_convs wb).
    { destruct (bias_term_ (base L')).
      - exact (setTensor4dDesc_live _ _ _ _ Eb).
      - by subst w'. }
    destruct Hb as [T3 C3]. split; intros d.
    + by rewrite T3, T2.
    + by rewrite C3, C2.
  - clear. intros i [w1 L1] [w2 L2] _ [T C] Hb. cbn [fst] in *.
    apply Reshape_input_live in Hb as [T2 C2]. split; intros d.
    + by rewrite T2.
    + by rewrite C2.
Qed.

(** What [Reshape] leaves as it is, on the vendor side and in the layer. *)
Lemma Reshape_objects_frame (V : Vendor) (w w' : World) (L L' : Layer)
    (bottom top : list Blob) (r : realloc) :
  Reshape V w L bottom top = Ok (w', L', r) ->
  vendor_objects w' = vendor_objects w /\
  length (w_tensors w') = length (w_tensors w) /\
  length (w_convs w') = length (w_convs w) /\
  fixed_members L' = fixed_members L /\
  algo_arrays_shape L' = algo_arrays_shape L /\
  workspace_shape L' = workspace_shape L.
Proof.
  intros H. pose proof (Reshape_fixed_members _ _ _ _ _ _ _ _ H) as Hfix.
  apply Reshape_stages in H as (_ & wa & La & wb & E1 & E2 & Eb).
  pose proof (Reshape_inputs_members _ _ _ _ _ _ _ E1)
    as (_ & Hws1 & Hsh1 & _ & Hv1 & _).
  apply Reshape_inputs_Ok in E1 as (_ & lc & _ & _ & _ & E1).
  apply Reshape_inputs_frame in E1 as (_ & _ & _ & Hlt & Hlc & _).
  rnorm_in Hlt. rnorm_in Hlc.
  pose proof (Reshape_workspace_world _ _ _ _ _ _ _ E2) as (Hv2 & Ht2 & Hc2).
  pose proof (Reshape_workspace_spec _ _ _ _ _ _ _ E2)
    as (m & _ & _ & _ & Hwsh & Hcase).
  assert (Hsh2 : algo_arrays_shape L' = algo_arrays_shape La).
  { cbv zeta in Hcase. destruct r.
    - by destruct Hcase as (_ & _ & ->).
    - destruct Hcase as (_ & _ & _ & Ha & _).
      unfold algo_arrays in Ha. injection Ha as A1 A2 A3 A4 A5 A6.
      unfold algo_arrays_shape. by rewrite A1, A2, A3, A4, A5, A6.
    - by destruct Hcase as (_ & _ & _ & _ & _ & Ha & _). }
  assert (Hwsh1 : workspace_shape La = workspace_shape L).
  { unfold workspace_state in Hws1. injection Hws1 as _ _ Hw.
    unfold workspace_shape. by rewrite Hw. }
  assert (Hb : vendor_objects w' = vendor_objects wb /\
               length (w_tensors w') = length (w_tensors wb) /\
               w_convs w' = w_convs wb).
  { destruct (bias_term_ (base L')).
    - apply setTensor4dDesc_Ok in Eb as [_ ->]. rnorm.
      by rewrite length_insert.
    - by subst w'. }
  destruct Hb as (Hv3 & Ht3 & Hc3).
  split_and!; try done; congruence.
Qed.

(** X2.  [Reshape] creates and destroys no vendor object and no heap
    block: streams, handles, filter descriptors and the heap are as before,
    the stores of tensor and convolution descriptors have the size they
    had and a tensor or convolution descriptor exists after the call
    exactly if it existed before, and the members naming them, as well as
    the heap blocks and lengths of the per-input arrays and of
    [workspace], are unchanged.  Of
    the device memory it touches the workspace block alone: nothing when
    the workspace is kept; otherwise the blocks at the old [workspaceData]
    are freed and, if the allocation succeeds, the one new block is
    added. *)
Theorem Reshape_creates_no_object (V : Vendor) (w w' : World) (L L' : Layer)
    (bottom top : list Blob) (r : realloc) :
  Reshape V w L bottom top = Ok (w', L', r) ->
  vendor_objects w' = vendor_objects w /\
  length (w_tensors w') = length (w_tensors w) /\
  length (w_convs w') = length (w_convs w) /\
  (forall d, st_live (w_tensors w') d <-> st_live (w_tensors w) d) /\
  (forall d, st_live (w_convs w') d <-> st_live (w_convs w) d) /\
  fixed_members L' = fixed_members L /\
  algo_arrays_shape L' = algo_arrays_shape L /\
  workspace_shape L' = workspace_shape L /\
  match r with
  | kept => w_gpu w' = w_gpu w
  | reallocated =>
      w_gpu w' =
        (workspaceData L', workspaceSizeInBytes L')
          :: filter (fun b => b.1 ≠ workspaceData L) (w_gpu w)
  | alloc_failed =>
      w_gpu w' = filter (fun b => b.1 ≠ workspaceData L) (w_gpu w)
  end.
Proof.
  intros H.
  pose proof (Reshape_objects_frame _ _ _ _ _ _ _ _ H)
    as (Hv & Ht & Hc & Hf & Ha & Hw).
  pose proof (Reshape_live _ _ _ _ _ _ _ _ H) as (Hlt & Hlc).
  apply Reshape_realloc_step in H as (wa & La & m & _ & _ & Hcase).
  cbv zeta in Hcase.
  split_and!; try done.
  destruct r.
  - by destruct Hcase as (_ & _ & ?).
  - destruct Hcase as (_ & Hs & Hg). by rewrite Hs.
  - by destruct Hcase as (_ & _ & ?).
Qed.

(** Witness of X2: the first [Reshape] of a layer with 2 groups and 1
    input. *)
Lemma Reshape_creates_no_object_witness :
  exists w0 L0 w' L',
    set_up V8 2 1 = Ok (w0, L0) /\
    Reshape V8 w0 (reshaped 2 10 L0) (blobs 1 4 10) (blobs 1 8 10)
      = Ok (w', L', reallocated) /\
    vendor_objects w' = vendor_objects w0 /\
    forall d, st_live (w_tensors w') d <-> st_live (w_tensors w0) d.
Proof.
  eexists _, _, _, _.
  split; [vm_compute; reflexivity|].
  match goal with
  | |- ?R = Ok (?w', ?L', _) /\ _ =>
      assert (H : R = Ok (w', L', reallocated)) by (vm_compute; reflexivity)
  end.
  split; [exact H|].
  destruct (Reshape_creates_no_object _ _ _ _ _ _ _ _ H)
    as (Hv & _ & _ & Hl & _).
  split; [exact Hv | exact Hl].
Defined.

(** Witness of X3: two groups, one input, a device allocation that
    fails. *)
Lemma Reshape_alloc_failed_state_witness :
  exists w0 L0 w' L',
    set_up V8_no_memory 2 1 = Ok (w0, L0) /\
    Reshape V8_no_memory w0 (reshaped 2 10 L0) (blobs 1 4 10) (blobs 1 8 10)
      = Ok (w', L', alloc_failed) /\
    workspaceData L' = 0 /\ workspaceSizeInBytes L' = 0.
Proof.
  eexists _, _, _, _.
  split; [vm_compute; reflexivity|].
  match goal with
  | |- ?R = Ok (?w', ?L', _) /\ _ =>
      assert (H : R = Ok (w', L', alloc_failed)) by (vm_compute; reflexivity)
  end.
  split; [exact H|].
  destruct (Reshape_alloc_failed_state _ _ _ _ _ _ _ H)
    as (wa & La & m & _ & _ & Hd & Hs & _).
  split; [exact Hd | exact Hs].
Defined.

(** ** From set-up to destruction *)


(** A counting loop returns when every step does. *)
Lemma for_loop_seq_total {St} (I : nat -> St -> Prop)
    (body : nat -> St -> outcome St) (n a : nat) (s : St) :
  I a s ->
  (forall i s1, (a <= i < a + n)%nat -> I i s1 ->
                exists s2, body i s1 = Ok s2 /\ I (S i) s2) ->
  exists s', for_loop body (seq a n) s = Ok s' /\ I (a + n)%nat s'.
Proof.
  revert a s. induction n as [|n IH]; intros a s Ha Hstep.
  - exists s. rewrite Nat.add_0_r. done.
  - destruct (Hstep a s) as (s1 & E1 & H1); [lia|done|].
    destruct (IH (S a) s1 H1) as (s' & E' & H').
    { intros i t Hi. apply Hstep. lia. }
    exists s'. cbn [seq for_loop]. rewrite E1. cbn [obind].
    replace (a + S n)%nat with (S a + n)%nat by lia. done.
Qed.

Lemma index_lt {A} (l : list A) (i : nat) :
  (i < length l)%nat -> exists x, index l i = Ok x /\ l !! i = Some x.
Proof.
  intros H. destruct (lookup_lt_is_Some_2 l i H) as [x Hx].
  exists x. unfold index. by rewrite Hx.
Qed.

Lemma st_get_ge {A} (s : store A) (i : nat) :
  (length s <= i)%nat -> st_get s i = None.
Proof. intros H. unfold st_get. by rewrite lookup_ge_None_2. Qed.

Lemma length_st_del {A} (i : nat) (s : store A) :
  length (st_del i s) = length s.
Proof. unfold st_del. by rewrite length_insert. Qed.

(** The loops of the destructor return on vectors and arrays that are long
    enough, and destroy in place. *)
Lemma destroy_descs_total (L : Layer) (n : nat) (w : World) :
  (n <= length (bottom_descs_ L))%nat -> (n <= length (top_descs_ L))%nat ->
  (n <= length (conv_descs_ L))%nat ->
  exists w', for_loop (destroy_descs L) (seq 0 n) w = Ok w' /\
             length (w_tensors w') = length (w_tensors w) /\
             length (w_convs w') = length (w_convs w).
Proof.
  intros Hb Ht Hc.
  destruct (for_loop_seq_total
    (fun _ wk => length (w_tensors wk) = length (w_tensors w) /\
                 length (w_convs wk) = length (w_convs w))
    (destroy_descs L) n 0 w) as (w' & E & H); [done| |by exists w'].
  intros i w1 Hi [H1 H2]. unfold destroy_descs.
  destruct (index_lt (bottom_descs_ L) i) as (bd & -> & _); [lia|].
  destruct (index_lt (top_descs_ L) i) as (td & -> & _); [lia|].
  destruct (index_lt (conv_descs_ L) i) as (cd & -> & _); [lia|].
  cbn [obind]. eexists. split; [done|].
  unfold cudnnDestroyConvolutionDescriptor, cudnnDestroyTensorDescriptor.
  rnorm. by rewrite !length_st_del.
Qed.

Lemma destroy_group_total (L : Layer) (n : nat) (w : World) :
  (n <= length (arr_data (stream_ L)))%nat ->
  (n <= length (arr_data (handle_ L)))%nat ->
  exists w', for_loop (destroy_group L) (seq 0 n) w = Ok w' /\
             length (w_streams w') = length (w_streams w) /\
             length (w_handles w') = length (w_handles w).
Proof.
  intros Hs Hh.
  destruct (for_loop_seq_total
    (fun _ wk => length (w_streams wk) = length (w_streams w) /\
                 length (w_handles wk) = length (w_handles w))
    (destroy_group L) n 0 w) as (w' & E & H); [done| |by exists w'].
  intros i w1 Hi [H1 H2]. unfold destroy_group.
  destruct (index_lt (arr_data (stream_ L)) i) as (s & -> & _); [lia|].
  destruct (index_lt (arr_data (handle_ L)) i) as (h & -> & _); [lia|].
  cbn [obind]. eexists. split; [done|].
  unfold cudnnDestroy, cudaStreamDestroy. rnorm. by rewrite !length_st_del.
Qed.

(** One [Reshape] keeps what the layer holds. *)
Lemma Reshape_holds (V : Vendor) (w1 : World) (L1 : Layer) (w w' : World)
    (L L' : Layer) (c : Call) (r : realloc) :
  holds_objects_of w1 L1 w L ->
  same_grouping (base L1) c ->
  Reshape V w (set_base (call_base c) L) (call_bottom c) (call_top c)
    = Ok (w', L', r) ->
  holds_objects_of w1 L1 w' L'.
Proof.
  intros (Hom & Hg & Hbt & Has & Hws & Hv & Hlt & Hlc & Hgpu) [Hcg Hcb] E.
  pose proof (Reshape_objects_frame _ _ _ _ _ _ _ _ E)
    as (Hv' & Hlt' & Hlc' & Hf & Ha & Hw).
  apply Reshape_realloc_step in E as (wa & La & m & _ & _ & Hcase).
  cbv zeta in Hcase.
  change (algo_arrays_shape (set_base (call_base c) L))
    with (algo_arrays_shape L) in Ha.
  change (workspace_shape (set_base (call_base c) L))
    with (workspace_shape L) in Hw.
  unfold fixed_members in Hf. rnorm_in Hf.
  injection Hf as F1 F2 F3 F4 F5 F6 F7 F8 F9 F10.
  unfold holds_objects_of, object_members in *.
  split_and!; try congruence.
  intros b Hb. rnorm_in Hcase. destruct r.
  - destruct Hcase as (_ & Hst & Hgp). unfold workspace_state in Hst.
    rnorm_in Hst. injection Hst as _ Hd _. rewrite Hgp in Hb.
    rewrite Hd. by apply Hgpu.
  - destruct Hcase as (_ & _ & Hgp). rewrite Hgp in Hb.
    apply elem_of_cons in Hb as [->|Hb]; [by right|].
    apply list_elem_of_filter in Hb as [Hne Hb].
    destruct (Hgpu b Hb) as [?|?]; [by left|done].
  - destruct Hcase as (_ & _ & Hgp). rewrite Hgp in Hb.
    apply list_elem_of_filter in Hb as [Hne Hb].
    destruct (Hgpu b Hb) as [?|?]; [by left|done].
Qed.

(** So does any sequence of them. *)
Lemma Reshape_calls_hold (V : Vendor) (w1 : World) (L1 : Layer)
    (calls : list Call) :
  forall w L tr,
    holds_objects_of w1 L1 w L ->
    Forall (same_grouping (base L1)) calls ->
    Reshape_calls V calls w L = Ok tr ->
    holds_objects_of w1 L1 (last_state w L tr).1 (last_state w L tr).2.
Proof.
  induction calls as [|c calls IH]; intros w L tr Hh Hc H;
    cbn [Reshape_calls] in H.
  - injection H as <-. done.
  - apply obind_Ok in H as ([[w' L'] r] & E & H).
    apply obind_Ok in H as (rest & Er & H). injection H as <-.
    apply Forall_cons in Hc as [Hc1 Hc].
    pose proof (Reshape_holds _ _ _ _ _ _ _ _ _ Hh Hc1 E) as Hh'.
    specialize (IH _ _ _ Hh' Hc Er).
    unfold last_state in *. rewrite last_cons.
    destruct (last rest) as [[[wl Ll] rl]|]; done.
Qed.

(** X4.  A layer that is set up on fresh descriptor vectors, reshaped any
    number of times with the group count and the bias switch it was set up
    with, and then destroyed, leaves nothing behind but the array
    [workspace]: the destructor returns, every stream, handle, tensor,
    filter and convolution descriptor made since the start is destroyed,
    every device block still allocated was allocated before the set-up,
    and every heap block made since the start, the one of [workspace]
    apart, is deleted. *)
Theorem lifecycle_releases_all_but_workspace (V : Vendor) (w0 w1 : World)
    (L0 L1 : Layer) (bottom top : list Blob) (calls : list Call)
    (tr : list (World * Layer * realloc)) :
  LayerSetUp V w0 L0 bottom top = Ok (w1, L1) ->
  bottom_descs_ L0 = [] -> top_descs_ L0 = [] -> conv_descs_ L0 = [] ->
  Forall (same_grouping (base L0)) calls ->
  Reshape_calls V calls w1 L1 = Ok tr ->
  exists w_end,
    destructor (last_state w1 L1 tr).1 (last_state w1 L1 tr).2 = Ok w_end /\
    released_from (length (w_streams w0)) (w_streams w_end) /\
    released_from (length (w_handles w0)) (w_handles w_end) /\
    released_from (length (w_tensors w0)) (w_tensors w_end) /\
    released_from (length (w_filters w0)) (w_filters w_end) /\
    released_from (length (w_convs w0)) (w_convs w_end) /\
    (forall b, b ∈ w_gpu w_end -> b ∈ w_gpu w0) /\
    (forall id, (length (w_heap w0) <= id)%nat ->
                id <> arr_id (workspace L1) ->
                st_get (w_heap w_end) id = None).
Proof.
  intros Hs Hb0 Ht0 Hc0 Hcalls Hr.
  apply LayerSetUp_result in Hs. cbv zeta in Hs.
  destruct Hs as (S1 & S2 & S3 & (kh & kw & _ & _ & S4) & S5 & S6 & S7 & S8 &
    S9 & S10 & S11 & S12 & S13 & S14 & S15 & S16 & _ & _ & _ & _ & S21 &
    S22 & S23 & S24 & S25).
  rewrite Hb0 in S22. rewrite Ht0 in S23. rewrite Hc0 in S24.
  cbn [app] in S22, S23, S24.
  assert (Hh : holds_objects_of w1 L1 w1 L1).
  { unfold holds_objects_of. split_and!; try done. intros b Hb. by left. }
  rewrite <- S8 in Hcalls.
  pose proof (Reshape_calls_hold V w1 L1 calls w1 L1 tr Hh Hcalls Hr) as Hn.
  destruct (last_state w1 L1 tr) as [wn Ln]. cbn [fst snd] in *.
  destruct Hn as (Hom & Hg & Hbt & Has & Hws & Hv & Hlt & Hlc & Hgpu).
  unfold object_members in Hom.
  injection Hom as O1 O2 O3 O4 O5 O6 O7 O8.
  unfold algo_arrays in S15. injection S15 as A1 A2 A3 A4 A5 A6.
  injection S16 as I1 I2 I3.
  unfold algo_arrays_shape in Has.
  injection Has as B1 _ B2 _ B3 _ B4 _ B5 _ B6 _.
  unfold vendor_objects in Hv. injection Hv as V1 V2 V3 V4.
  set (G := Z.to_nat (group_ (base L0) * CUDNN_STREAMS_PER_GROUP)) in *.
  set (B := length bottom) in *.
  destruct (destroy_descs_total Ln (length (bottom_descs_ Ln)) wn)
    as (wa & Ea & Lta & Lca).
  { done. }
  { rewrite O5, O6, S22, S23, !length_map. done. }
  { rewrite O5, O7, S22, S24, !length_map. done. }
  set (w2 := cudnnDestroyFilterDescriptor (filter_desc_ Ln)
              (if bias_term_ (base Ln)
               then cudnnDestroyTensorDescriptor (bias_desc_ Ln) wa
               else wa)).
  destruct (destroy_group_total Ln G w2) as (wb & Eb & Lsb & Lhb).
  { rewrite O2, S12, length_map, length_seq. done. }
  { rewrite O3, S13, length_map, length_seq. done. }
  unfold destructor. rewrite O1, S9. cbn [negb]. rewrite Ea. cbn [obind].
  unfold nat_range. rewrite Hg, S8. fold G. fold w2. rewrite Eb.
  cbn [obind]. eexists. split; [reflexivity|].
  apply destroy_descs_loop in Ea as (Hva & Hga & Hta & Hca & Hda).
  apply destroy_group_loop in Eb as (Htb & Hfb & Hcb & Hgb & Hhb & Hdb).
  unfold vendor_objects in Hva. injection Hva as Va1 Va2 Va3 Va4.
  assert (W2s : w_streams w2 = w_streams wa).
  { unfold w2, cudnnDestroyFilterDescriptor, cudnnDestroyTensorDescriptor.
    by destruct (bias_term_ (base Ln)). }
  assert (W2h : w_handles w2 = w_handles wa).
  { unfold w2, cudnnDestroyFilterDescriptor, cudnnDestroyTensorDescriptor.
    by destruct (bias_term_ (base Ln)). }
  assert (W2c : w_convs w2 = w_convs wa).
  { unfold w2, cudnnDestroyFilterDescriptor, cudnnDestroyTensorDescriptor.
    by destruct (bias_term_ (base Ln)). }
  assert (W2g : w_gpu w2 = w_gpu wa).
  { unfold w2, cudnnDestroyFilterDescriptor, cudnnDestroyTensorDescriptor.
    by destruct (bias_term_ (base Ln)). }
  assert (W2p : w_heap w2 = w_heap wa).
  { unfold w2, cudnnDestroyFilterDescriptor, cudnnDestroyTensorDescriptor.
    by destruct (bias_term_ (base Ln)). }
  assert (W2f : w_filters w2 = st_del (filter_desc_ Ln) (w_filters wa)).
  { unfold w2, cudnnDestroyFilterDescriptor, cudnnDestroyTensorDescriptor.
    by destruct (bias_term_ (base Ln)). }
  assert (W2t : w_tensors w2 =
                if bias_term_ (base Ln)
                then st_del (bias_desc_ Ln) (w_tensors wa)
                else w_tensors wa).
  { unfold w2, cudnnDestroyFilterDescriptor, cudnnDestroyTensorDescriptor.
    by destruct (bias_term_ (base Ln)). }
  clearbody w2.
  unfold delete_array, cudaFree, released_from. rnorm.
  assert (Hbias : bias_term_ (base Ln) = bias_term_ (base L0))
    by congruence.
  split_and!.
  - intros s Hs.
    destruct (decide (s < length (w_streams w0) + G)%nat) as [Hlt'|Hge].
    + destruct (Hdb (s - length (w_streams w0))%nat)
        as (s' & h' & Es & _ & Hs' & _); [lia|].
      rewrite O2, S12, list_lookup_fmap, lookup_seq_lt in Es by lia.
      cbn in Es. injection Es as <-.
      by replace (length (w_streams w0) + (s - length (w_streams w0)))%nat
        with s in Hs' by lia.
    + apply st_get_ge.
      rewrite Lsb, W2s, Va1, V1, S1, length_app, length_replicate. lia.
  - intros h Hh'.
    destruct (decide (h < length (w_handles w0) + G)%nat) as [Hlt'|Hge].
    + destruct (Hdb (h - length (w_handles w0))%nat)
        as (s' & h' & _ & Eh & _ & Hh''); [lia|].
      rewrite O3, S13, list_lookup_fmap, lookup_seq_lt in Eh by lia.
      cbn in Eh. injection Eh as <-.
      by replace (length (w_handles w0) + (h - length (w_handles w0)))%nat
        with h in Hh'' by lia.
    + apply st_get_ge.
      rewrite Lhb, W2h, Va2, V2, S2, length_app, length_map, length_seq.
      lia.
  - intros d Hd. rewrite Htb, W2t, Hbias.
    set (nt := length (w_tensors w0)) in *.
    destruct (decide (d < nt + 2 * B)%nat) as [Hlt'|Hge].
    + set (i := ((d - nt) / 2)%nat).
      assert (Hi : (i < B)%nat /\ (d = nt + 2 * i \/ d = nt + 2 * i + 1)%nat).
      { pose proof (Nat.div_mod_eq (d - nt) 2).
        pose proof (Nat.mod_upper_bound (d - nt) 2). fold i in H. lia. }
      destruct Hi as [Hi Hcase]. clearbody i.
      destruct (Hda i) as (bd & td & cd & Ebd & Etd & _ & Hbd & Htd & _).
      { rewrite O5, S22, length_map, length_seq. done. }
      rewrite O5, S22, list_lookup_fmap, lookup_seq_lt in Ebd by lia.
      rewrite O6, S23, list_lookup_fmap, lookup_seq_lt in Etd by lia.
      cbn in Ebd, Etd. injection Ebd as <-. injection Etd as <-.
      assert (Hdead : st_get (w_tensors wa) d = None).
      { destruct Hcase as [->| ->]; done. }
      destruct (bias_term_ (base L0)); [by apply st_get_del_None|done].
    + destruct (bias_term_ (base L0)) eqn:Eb0.
      * destruct (decide (d = nt + 2 * B)%nat) as [->|Hne].
        -- rewrite O8, S25. apply st_get_del.
        -- apply st_get_ge.
           rewrite length_st_del, Lta, Hlt, S3, length_app, length_replicate.
           fold nt. lia.
      * apply st_get_ge.
        rewrite Lta, Hlt, S3, length_app, length_replicate. fold nt. lia.
  - intros d Hd. rewrite Hfb, W2f.
    destruct (decide (d = length (w_filters w0))) as [->|Hne].
    + rewrite O4, S21. apply st_get_del.
    + apply st_get_ge. rewrite length_st_del, Va3, V3, S4, length_app.
      cbn [length]. lia.
  - intros d Hd. rewrite Hcb, W2c.
    destruct (decide (d < length (w_convs w0) + B)%nat) as [Hlt'|Hge].
    + destruct (Hda (d - length (w_convs w0))%nat)
        as (bd & td & cd & _ & _ & Ecd & _ & _ & Hcd).
      { rewrite O5, S22, length_map, length_seq. lia. }
      rewrite O7, S24, list_lookup_fmap, lookup_seq_lt in Ecd by lia.
      cbn in Ecd. injection Ecd as <-.
      by replace (length (w_convs w0) + (d - length (w_convs w0)))%nat
        with d in Hcd by lia.
    + apply st_get_ge. rewrite Lca, Hlc, S5, length_app, length_replicate.
      lia.
  - intros b Hb. apply list_elem_of_filter in Hb as [Hne Hb].
    rewrite Hgb, W2g, Hga in Hb.
    destruct (Hgpu b Hb) as [Hin|Heq]; [by rewrite <- S6|done].
  - intros id Hid Hne. rewrite I3 in Hne.
    rewrite Hhb, W2p, Va4, V4, S7.
    rewrite B1, B2, B3, B4, B5, B6, A1, A2, A3, A4, A5, A6, O2, O3, I1, I2.
    rnorm.
    set (h0 := length (w_heap w0)) in *.
    destruct (decide (id < h0 + 9)%nat) as [Hlt'|Hge].
    + assert (Hc : id = h0 \/ id = (h0 + 1)%nat \/ id = (h0 + 2)%nat \/
                   id = (h0 + 3)%nat \/ id = (h0 + 4)%nat \/
                   id = (h0 + 5)%nat \/ id = (h0 + 6)%nat \/
                   id = (h0 + 7)%nat) by lia.
      destruct Hc as [->|[->|[->|[->|[->|[->|[->| ->]]]]]]];
        repeat first [apply st_get_del | apply st_get_del_None].
    + apply st_get_ge. rewrite !length_st_del, length_app, length_replicate.
      fold h0. lia.
Qed.

(** Witness of X4: two groups, one input, a [Reshape] at height 10 and one
    at height 5, then the destructor. *)
Lemma lifecycle_releases_all_but_workspace_witness :
  exists w1 L1 tr,
    set_up V8 2 1 = Ok (w1, L1) /\
    Reshape_calls V8 [call 2 1 10; call 2 1 5] w1 L1 = Ok tr /\
    exists w_end,
      destructor (last_state w1 L1 tr).1 (last_state w1 L1 tr).2 = Ok w_end /\
      released_from 0 (w_streams w_end) /\
      forall b, b ∈ w_gpu w_end -> b ∈ w_gpu empty_world.
Proof.
  eexists _, _, _.
  match goal with
  | |- ?S = Ok (?w1, ?L1) /\ ?R = Ok ?tr /\ _ =>
      assert (Hs : S = Ok (w1, L1)) by (vm_compute; reflexivity);
      assert (Hr : R = Ok tr) by (vm_compute; reflexivity)
  end.
  split; [exact Hs|]. split; [exact Hr|].
  unfold set_up in Hs.
  assert (Hc : Forall (same_grouping (base (fresh_layer (conv_base 2 16 2))))
                      [call 2 1 10; call 2 1 5]) by (repeat constructor).
  destruct (lifecycle_releases_all_but_workspace _ _ _ _ _ _ _ _ _ Hs
              eq_refl eq_refl eq_refl Hc Hr)
    as (w_end & Hd & Hst & _ & _ & _ & _ & Hgpu & _).
  exists w_end. split_and!; done.
Defined.

(** ** Nothing suitable *)






(** ** At the bounds *)

(** X6.  [Reshape] reads [bottom_descs_[i]], [top_descs_[i]] and
    [conv_descs_[i]] for every input [i]: called with more inputs than the
    layer has descriptors, it indexes a vector out of range and never
    returns normally. *)
Theorem Reshape_reads_a_descriptor_per_input (V : Vendor) (w : World)
    (L : Layer) (bottom top : list Blob) :
  (length (bottom_descs_ L) < length bottom)%nat \/
  (length (top_descs_ L) < length bottom)%nat \/
  (length (conv_descs_ L) < length bottom)%nat ->
  forall res, Reshape V w L bottom top <> Ok res.
Proof.
  intros Hlen [[w' L'] r] E.
  apply Reshape_stages in E as (_ & wa & La & wb & E1 & _).
  assert (Hall : forall i, (i < length bottom)%nat ->
    is_Some (bottom_descs_ L !! i) /\ is_Some (top_descs_ L !! i) /\
    is_Some (conv_descs_ L !! i)).
  { intros i Hi.
    destruct (Reshape_inputs_choice _ _ _ _ _ _ _ i E1 Hi)
      as (lc & wi & Lb & Li & bd & td & cd & _ & _ & _ & _ & Hb & Ht & Hc & _).
    rewrite Hb, Ht, Hc. done. }
  destruct Hlen as [Hl|[Hl|Hl]].
  - destruct (Hall _ Hl) as ([x Hx] & _).
    apply lookup_lt_Some in Hx. lia.
  - destruct (Hall _ Hl) as (_ & [x Hx] & _).
    apply lookup_lt_Some in Hx. lia.
  - destruct (Hall _ Hl) as (_ & _ & [x Hx]).
    apply lookup_lt_Some in Hx. lia.
Qed.

(** X7.  The total workspace size is the product of [max_workspace] and
    the number of groups modulo 2^64.  When the product exceeds the range
    of [size_t], a reallocating [Reshape] allocates fewer bytes than the
    groups need, and the region of [max_workspace] bytes of some group
    reaches past the end of the block. *)
Theorem Reshape_total_wraps (V : Vendor) (w w' : World) (L L' : Layer)
    (bottom top : list Blob) (m : Z) :
  Reshape V w L bottom top = Ok (w', L', reallocated) ->
  max_workspace_of L' (length bottom) = Ok m ->
  let G := group_ (base L) * CUDNN_STREAMS_PER_GROUP in
  0 < G -> m < size_t_modulus -> size_t_modulus <= G * m ->
  workspaceSizeInBytes L' = (G * m) mod size_t_modulus /\
  workspaceSizeInBytes L' < G * m /\
  exists g p,
    0 <= g < G /\ arr_data (workspace L') !! Z.to_nat g = Some p /\
    ~ region_within p m (workspaceData L') (workspaceSizeInBytes L').
Proof.
  intros H Em G HG Hm Hov.
  apply Reshape_stages in H as (_ & w1 & L1 & w2 & E1 & E2 & Eb).
  pose proof (Reshape_inputs_members _ _ _ _ _ _ _ E1) as (Hf1 & _).
  apply Reshape_workspace_spec in E2 as (m' & Em' & _ & _ & _ & Hcase).
  cbv zeta in Hcase.
  destruct Hcase as (_ & _ & Hsize & Harr & Hal).
  rewrite (max_workspace_of_arrays L1 L') in Em by done.
  assert (m' = m) as -> by congruence.
  assert (HGe : group_ (base L1) = group_ (base L)).
  { unfold fixed_members in Hf1. by injection Hf1 as -> _ _ _ _ _ _ _ _ _. }
  rewrite HGe in Hal. fold G in Hal.
  assert (Hsz : workspaceSizeInBytes L' = (G * m) mod size_t_modulus).
  { rewrite Hsize. unfold groups, size_mul, to_size_t. rewrite HGe. fold G.
    rewrite Z.mul_mod_idemp_r by (unfold size_t_modulus; lia).
    f_equal. lia. }
  assert (HM : 0 < size_t_modulus) by reflexivity.
  pose proof (Z.mod_pos_bound (G * m) size_t_modulus HM) as Hb.
  assert (Hmpos : 0 < m) by nia.
  split; [exact Hsz|]. split; [lia|].
  set (g := Z.min (G - 1) ((size_t_modulus - 1) / m)).
  pose proof (Z.mul_div_le (size_t_modulus - 1) m Hmpos) as Hd1.
  pose proof (Z.mul_succ_div_gt (size_t_modulus - 1) m Hmpos) as Hd2.
  assert (Hdiv0 : 0 <= (size_t_modulus - 1) / m)
    by (apply Z.div_pos; lia).
  assert (Hg : 0 <= g < G) by (unfold g; lia).
  assert (Hgm : g * m < size_t_modulus) by (unfold g; nia).
  assert (Hgm1 : size_t_modulus <= (g + 1) * m) by (unfold g; nia).
  exists g, (workspaceData L' + g * m). split; [exact Hg|]. split.
  - rewrite Hal by lia. rewrite Z2Nat.id by lia.
    rewrite size_mul_exact; [done|]. nia.
  - unfold region_within. lia.
Qed.

(** Witness of X6: a layer set up for one input, reshaped with two. *)
Lemma Reshape_reads_a_descriptor_per_input_witness :
  exists w1 L1,
    set_up V8 2 1 = Ok (w1, L1) /\
    forall res,
      Reshape V8 w1 (reshaped 2 10 L1) (blobs 2 4 10) (blobs 2 8 10)
        <> Ok res.
Proof.
  eexists _, _.
  split; [vm_compute; reflexivity|].
  apply Reshape_reads_a_descriptor_per_input.
  left. vm_compute. lia.
Defined.

(** Witness of X7: two groups and a need of 2^63 + 2 bytes; the block has
    4 bytes. *)
Lemma Reshape_total_wraps_witness :
  exists w1 L1 w' L',
    set_up V8_huge_need 2 1 = Ok (w1, L1) /\
    Reshape V8_huge_need w1 (reshaped 2 10 L1) (blobs 1 4 10) (blobs 1 8 10)
      = Ok (w', L', reallocated) /\
    workspaceSizeInBytes L' = 4.
Proof.
  eexists _, _, _, _.
  split; [vm_compute; reflexivity|].
  match goal with
  | |- ?R = Ok (?w', ?L', _) /\ _ =>
      assert (H : R = Ok (w', L', reallocated)) by (vm_compute; reflexivity)
  end.
  split; [exact H|].
  destruct (Reshape_total_wraps _ _ _ _ _ _ _ (2 ^ 63 + 2) H)
    as (Hs & _); [vm_compute; reflexivity | reflexivity | reflexivity |
                  vm_compute; discriminate |].
  rewrite Hs. reflexivity.
Defined.

(** ** What the vendor decides *)

Lemma new_array_total {A} (n : Z) (junk : A) (w : World) :
  0 <= n ->
  new_array n junk w =
    Ok (set_w_heap (w_heap w ++ [Some ()]) w,
        {| arr_id := length (w_heap w);
           arr_data := replicate (Z.to_nat n) junk |}).
Proof.
  intros H. unfold new_array. destruct (Z.ltb_spec n 0); [lia|]. done.
Qed.

Lemma arr_assign_total {A} (a : Arr A) (i : nat) (x : A) :
  (i < length (arr_data a))%nat ->
  arr_assign a i x =
    Ok {| arr_id := arr_id a; arr_data := <[i:=x]> (arr_data a) |}.
Proof.
  intros H. unfold arr_assign, assign. by rewrite decide_True.
Qed.

Lemma LayerSetUp_defaults_total (n : nat) (L : Layer) :
  (n <= length (arr_data (fwd_algo_ L)))%nat ->
  (n <= length (arr_data (bwd_filter_algo_ L)))%nat ->
  (n <= length (arr_data (bwd_data_algo_ L)))%nat ->
  (n <= length (arr_data (workspace_fwd_sizes_ L)))%nat ->
  (n <= length (arr_data (workspace_bwd_filter_sizes_ L)))%nat ->
  (n <= length (arr_data (workspace_bwd_data_sizes_ L)))%nat ->
  exists L', for_loop LayerSetUp_defaults (seq 0 n) L = Ok L'.
Proof.
  intros H1 H2 H3 H4 H5 H6.
  destruct (for_loop_seq_total
    (fun _ Lk => algo_arrays_shape Lk = algo_arrays_shape L)
    LayerSetUp_defaults n 0 L) as (L' & E & _); [done| |by exists L'].
  intros i Lk Hi Hk. unfold algo_arrays_shape in Hk.
  injection Hk as J1 K1 J2 K2 J3 K3 J4 K4 J5 K5 J6 K6.
  unfold LayerSetUp_defaults.
  rewrite arr_assign_total by lia. cbn [obind]. rnorm.
  rewrite arr_assign_total by lia. cbn [obind]. rnorm.
  rewrite arr_assign_total by lia. cbn [obind]. rnorm.
  rewrite arr_assign_total by lia. cbn [obind]. rnorm.
  rewrite arr_assign_total by lia. cbn [obind]. rnorm.
  rewrite arr_assign_total by lia. cbn [obind]. rnorm.
  eexists. split; [done|].
  unfold algo_arrays_shape. rnorm. rewrite !length_insert. congruence.
Qed.




(** Up to the loop over the groups [LayerSetUp] cannot fail: it allocates
    the nine arrays and sets the defaults, so that the loop starts in the
    world with nine more heap blocks. *)
Lemma LayerSetUp_prefix (V : Vendor) (w : World) (L : Layer)
    (bottom top : list Blob) :
  0 <= group_ (base L) * CUDNN_STREAMS_PER_GROUP ->
  let G := Z.to_nat (group_ (base L) * CUDNN_STREAMS_PER_GROUP) in
  exists La k,
    length (arr_data (stream_ La)) = G /\
    length (arr_data (handle_ La)) = G /\
    length (arr_data (workspace La)) = G /\
    LayerSetUp V w L bottom top =
      obind (for_loop (LayerSetUp_group V) (seq 0 G)
               (set_w_heap (w_heap w ++ replicate 9 (Some ())) w, La)) k.
Proof.
  intros HG' G. unfold LayerSetUp.
  assert (HB : 0 <= Z.of_nat (length bottom)) by lia.
  rewrite new_array_total by done. cbn [obind]. rnorm.
  rewrite new_array_total by done. cbn [obind]. rnorm.
  rewrite new_array_total by done. cbn [obind]. rnorm.
  rewrite new_array_total by done. cbn [obind]. rnorm.
  rewrite new_array_total by done. cbn [obind]. rnorm.
  rewrite new_array_total by done. cbn [obind]. rnorm.
  rewrite new_array_total by done. cbn [obind]. rnorm.
  rewrite new_array_total by done. cbn [obind]. rnorm.
  rewrite new_array_total by done. cbn [obind]. rnorm.
  match goal with
  | |- context [for_loop LayerSetUp_defaults _ ?X] => set (L9 := X)
  end.
  assert (Hl9 :
    length (arr_data (fwd_algo_ L9)) = length bottom /\
    length (arr_data (bwd_filter_algo_ L9)) = length bottom /\
    length (arr_data (bwd_data_algo_ L9)) = length bottom /\
    length (arr_data (workspace_fwd_sizes_ L9)) = length bottom /\
    length (arr_data (workspace_bwd_filter_sizes_ L9)) = length bottom /\
    length (arr_data (workspace_bwd_data_sizes_ L9)) = length bottom).
  { unfold L9. rnorm. by rewrite !length_replicate, Nat2Z.id. }
  assert (Hg9 : length (arr_data (stream_ L9)) = G /\
                length (arr_data (handle_ L9)) = G /\
                length (arr_data (workspace L9)) = G).
  { unfold L9. rnorm. by rewrite !length_replicate. }
  clearbody L9.
  destruct Hl9 as (A1 & A2 & A3 & A4 & A5 & A6).
  destruct (LayerSetUp_defaults_total (length bottom) L9) as (La & Ea);
    [lia..|].
  rewrite Ea. cbn [obind].
  apply LayerSetUp_defaults_loop in Ea as ((Hf & _ & Hw & _) & _).
  unfold fixed_members in Hf. injection Hf as F1 _ F3 F4 _ _ _ _ _ _.
  unfold workspace_state in Hw. injection Hw as _ _ W3.
  destruct Hg9 as (G1 & G2 & G3).
  unfold nat_range. fold G.
  eexists La, _. rewrite F3, F4, W3. split_and!; [done..|].
  rewrite <- !app_assoc. reflexivity.
Qed.

(** X9.  On a layer with at least one group [LayerSetUp] aborts in the
    first round of the loop over the groups when a vendor call fails
    there, whatever the vendor answers anywhere else: on the CUDA check
    when [cudaStreamCreate] fails in the world in which the nine arrays are
    allocated, on the cuDNN check when [cudnnCreate] fails in the world
    that has the new stream as well, and on the cuDNN check when
    [cudnnSetStream] fails for the new handle and the new stream. *)
Theorem LayerSetUp_aborts_on_vendor_failure (V : Vendor) (w : World)
    (L : Layer) (bottom top : list Blob) :
  0 < group_ (base L) ->
  let w9 := set_w_heap (w_heap w ++ replicate 9 (Some ())) w in
  let ws := set_w_streams (w_streams w ++ [Some ()]) w9 in
  let wh := set_w_handles (w_handles w ++ [Some None]) ws in
  (cudaStreamCreate_ok V w9 = false ->
   LayerSetUp V w L bottom top = Fatal cuda_error) /\
  (cudaStreamCreate_ok V w9 = true ->
   cudnnCreate_ok V ws = false ->
   LayerSetUp V w L bottom top = Fatal cudnn_error) /\
  (cudaStreamCreate_ok V w9 = true ->
   cudnnCreate_ok V ws = true ->
   cudnnSetStream_ok V wh (length (w_handles w)) (length (w_streams w))
     = false ->
   LayerSetUp V w L bottom top = Fatal cudnn_error).
Proof.
  intros HG w9 ws wh.
  destruct (LayerSetUp_prefix V w L bottom top)
    as (La & k & G1 & G2 & G3 & ->).
  { unfold CUDNN_STREAMS_PER_GROUP. lia. }
  fold w9.
  destruct (Z.to_nat (group_ (base L) * CUDNN_STREAMS_PER_GROUP)) as [|n]
    eqn:EG.
  { unfold CUDNN_STREAMS_PER_GROUP in EG. lia. }
  cbn [seq for_loop].
  split_and!;
    unfold LayerSetUp_group at 1, cudaStreamCreate, cudnnCreate,
      cudnnSetStream, st_new; cbv beta iota zeta.
  - intros Hs. rewrite Hs. reflexivity.
  - intros Hs Hc. rewrite Hs. cbn [obind]. rnorm.
    rewrite arr_assign_total by lia. cbn [obind]. rnorm.
    match goal with
    | |- context [cudnnCreate_ok V ?x] => change x with ws
    end.
    rewrite Hc. reflexivity.
  - intros Hs Hc Hb. rewrite Hs. cbn [obind]. rnorm.
    rewrite arr_assign_total by lia. cbn [obind]. rnorm.
    match goal with
    | |- context [cudnnCreate_ok V ?x] => change x with ws
    end.
    rewrite Hc. cbn [obind]. rnorm.
    rewrite arr_assign_total by lia. cbn [obind]. rnorm.
    unfold index. rewrite !list_lookup_insert_eq by lia. cbn [obind].
    match goal with
    | |- context [cudnnSetStream_ok V ?x ?h ?s] =>
        change (cudnnSetStream_ok V x h s)
          with (cudnnSetStream_ok V wh (length (w_handles w))
                  (length (w_streams w)))
    end.
    rewrite Hb. reflexivity.
Qed.


(** Witness of X9: a cuDNN that binds every handle but the first.  The
    set-up of two groups in the empty world creates its first stream and
    its first handle and aborts on binding them. *)
Lemma LayerSetUp_aborts_on_vendor_failure_witness :
  cudnnSetStream_ok V8_first_handle_unbound empty_world 1 1 = true /\
  LayerSetUp V8_first_handle_unbound empty_world
    (fresh_layer (conv_base 2 16 2)) (blobs 1 4 16) (blobs 1 8 16)
    = Fatal cudnn_error.
Proof.
  split; [reflexivity|].
  exact (proj2 (proj2 (LayerSetUp_aborts_on_vendor_failure
                         V8_first_handle_unbound empty_world
                         (fresh_layer (conv_base 2 16 2))
                         (blobs 1 4 16) (blobs 1 8 16) eq_refl))
           eq_refl eq_refl eq_refl).
Defined.

(** ** The build with the cuDNN frontend *)


(** Member access on the object of the frontend build. *)
Ltac fnorm :=
  cbn
    [
     layer workspace_size_ second_run_ op_graph_ plan_cache_ set_layer
     set_workspace_size_ set_second_run_ set_op_graph_ set_plan_cache_
     base handles_setup_ stream_ handle_ fwd_algo_ bwd_filter_algo_
     bwd_data_algo_ workspace_fwd_sizes_ workspace_bwd_filter_sizes_
     workspace_bwd_data_sizes_ workspaceSizeInBytes workspaceData workspace
     bias_offset_ bottom_offset_ top_offset_ filter_desc_ bottom_descs_
     top_descs_ conv_descs_ bias_desc_ set_base set_handles_setup_
     set_stream_ set_handle_ set_fwd_algo_ set_bwd_filter_algo_
     set_bwd_data_algo_ set_workspace_fwd_sizes_
     set_workspace_bwd_filter_sizes_ set_workspace_bwd_data_sizes_
     set_workspaceSizeInBytes set_workspaceData set_workspace
     set_bias_offset_ set_bottom_offset_ set_top_offset_ set_filter_desc_
     set_bottom_descs_ set_top_descs_ set_conv_descs_ set_bias_desc_
     w_streams w_handles w_tensors w_filters w_convs w_gpu w_heap
     set_w_streams set_w_handles set_w_tensors set_w_filters set_w_convs
     set_w_gpu set_w_heap arr_id arr_data fst snd
    ].
Ltac fnorm_in H :=
  cbn
    [
     layer workspace_size_ second_run_ op_graph_ plan_cache_ set_layer
     set_workspace_size_ set_second_run_ set_op_graph_ set_plan_cache_
     base handles_setup_ stream_ handle_ fwd_algo_ bwd_filter_algo_
     bwd_data_algo_ workspace_fwd_sizes_ workspace_bwd_filter_sizes_
     workspace_bwd_data_sizes_ workspaceSizeInBytes workspaceData workspace
     bias_offset_ bottom_offset_ top_offset_ filter_desc_ bottom_descs_
     top_descs_ conv_descs_ bias_desc_ set_base set_handles_setup_
     set_stream_ set_handle_ set_fwd_algo_ set_bwd_filter_algo_
     set_bwd_data_algo_ set_workspace_fwd_sizes_
     set_workspace_bwd_filter_sizes_ set_workspace_bwd_data_sizes_
     set_workspaceSizeInBytes set_workspaceData set_workspace
     set_bias_offset_ set_bottom_offset_ set_top_offset_ set_filter_desc_
     set_bottom_descs_ set_top_descs_ set_conv_descs_ set_bias_desc_
     w_streams w_handles w_tensors w_filters w_convs w_gpu w_heap
     set_w_streams set_w_handles set_w_tensors set_w_filters set_w_convs
     set_w_gpu set_w_heap arr_id arr_data fst snd
    ] in H.

(** One round of the loop over the inputs: skipped, served by the cache,
    or planned and allocated. *)
Lemma Reshape_frontend_input_spec (V : Vendor) (F : Frontend) (lc : Locals)
    (kernel_h kernel_w : Z) (i : nat) (w w' : World)
    (L L' : FrontendLayer F) :
  Reshape_frontend_input V lc kernel_h kernel_w i (w, L) = Ok (w', L') ->
  (second_run_ L = false /\ w' = w /\ L' = set_second_run_ true L) \/
  (second_run_ L = true /\
   exists h0 g,
     arr_data (handle_ (layer L)) !! 0%nat = Some h0 /\
     create_graph_operation F w
       [num_ (base (layer L)); channels_ (base (layer L)); height lc;
        width lc]
       [num_output_ (base (layer L)); channels_ (base (layer L)); kernel_h;
        kernel_w]
       [num_ (base (layer L)); num_output_ (base (layer L)); height_out lc;
        width_out lc]
       [pad_h lc; pad_w lc] [1; 1] [stride_h lc; stride_w lc] h0
       (bias_term_ (base (layer L))) = Some g /\
     ((is_Some (get_plan_from_cache F (plan_cache_ L) g) /\
       w' = w /\ L' = set_op_graph_ (Some g) L) \/
      (get_plan_from_cache F (plan_cache_ L) g = None /\
       exists plan p,
         get_execution_plan F w g h0 = Some plan /\
         cudaMalloc_result V w (getWorkspaceSize F plan) = Some p /\
         w' = set_w_gpu ((p, getWorkspaceSize F plan) :: w_gpu w) w /\
         L' = set_layer (set_workspaceData p (layer L))
                (set_workspace_size_ (getWorkspaceSize F plan)
                   (set_plan_cache_
                      (add_plan_to_cache F (plan_cache_ L) g plan)
                      (set_op_graph_ (Some g) L)))))).
Proof.
  unfold Reshape_frontend_input. cbv zeta.
  destruct (second_run_ L) eqn:Esr; cbn [negb].
  2:{ intros [= <- <-]. left. done. }
  intros H. right. split; [done|].
  apply obind_Ok in H as (h0 & Eh & H).
  apply obind_Ok in H as (g & Eg & H).
  apply index_Ok in Eh. apply checked_Ok in Eg.
  exists h0, g. split; [done|]. split; [done|].
  fnorm_in H.
  destruct (get_plan_from_cache F (plan_cache_ L) g) as [cp|] eqn:Ec.
  - injection H as <- <-. left. done.
  - right. split; [done|].
    apply obind_Ok in H as (plan & Ep & H).
    apply obind_Ok in H as ([w1 p] & Em & H).
    apply checked_Ok in Ep. fnorm_in H. injection H as <- <-.
    unfold cudaMalloc_checked in Em. apply checked_Ok in Em.
    unfold cudaMalloc in Em. fnorm_in Em.
    destruct (cudaMalloc_result V w (getWorkspaceSize F plan)) as [q|] eqn:Eq;
      [|discriminate].
    injection Em as <- <-. exists plan, q. done.
Qed.

(** The loop over the inputs only adds device blocks, at most one per
    round that is not skipped, and changes [workspaceData] alone among the
    members shared with the other builds. *)
Lemma Reshape_frontend_loop (V : Vendor) (F : Frontend) (lc : Locals)
    (kernel_h kernel_w : Z) (n : nat) (w w' : World)
    (L L' : FrontendLayer F) :
  for_loop (Reshape_frontend_input V lc kernel_h kernel_w) (seq 0 n) (w, L)
    = Ok (w', L') ->
  exists blocks,
    w' = set_w_gpu (blocks ++ w_gpu w) w /\
    (length blocks <= if second_run_ L then n else pred n)%nat /\
    layer L' = set_workspaceData (workspaceData (layer L')) (layer L) /\
    second_run_ L' = second_run_ L || negb (n =? 0)%nat /\
    (blocks = [] ->
     workspaceData (layer L') = workspaceData (layer L) /\
     workspace_size_ L' = workspace_size_ L /\
     plan_cache_ L' = plan_cache_ L) /\
    (blocks <> [] ->
     head blocks = Some (workspaceData (layer L'), workspace_size_ L')).
Proof.
  intros H.
  apply (for_loop_seq_inv
    (fun k s =>
       exists blocks,
         s.1 = set_w_gpu (blocks ++ w_gpu w) w /\
         (length blocks <= if second_run_ L then k else pred k)%nat /\
         layer s.2 = set_workspaceData (workspaceData (layer s.2)) (layer L) /\
         second_run_ s.2 = second_run_ L || negb (k =? 0)%nat /\
         (blocks = [] ->
          workspaceData (layer s.2) = workspaceData (layer L) /\
          workspace_size_ s.2 = workspace_size_ L /\
          plan_cache_ s.2 = plan_cache_ L) /\
         (blocks <> [] ->
          head blocks = Some (workspaceData (layer s.2), workspace_size_ s.2))))
    in H; [exact H| |].
  - exists []. cbn [fst snd app length]. split_and!; try done.
    + destruct (second_run_ L); lia.
    + by rewrite orb_false_r.
  - clear H. intros k [w1 L1] [w2 L2] Hk (blocks & Hw & Hlen & Hl & Hsr & H0 & H1)
      Hb.
    cbn [fst snd] in *.
    apply Reshape_frontend_input_spec in Hb
      as [(Esr & -> & ->)|(Esr & h0 & g & _ & _ &
           [(_ & -> & ->)|(_ & plan & p & _ & _ & -> & ->)])].
    + rewrite Esr in Hsr. symmetry in Hsr.
      apply orb_false_iff in Hsr as [Hsr Hk0].
      apply negb_false_iff, Nat.eqb_eq in Hk0. subst k.
      exists blocks. fnorm. rewrite Hsr in *. split_and!; try done.
    + exists blocks. fnorm. split_and!; try done.
      * destruct (second_run_ L); lia.
      * rewrite Esr. cbn. by rewrite orb_true_r.
    + exists ((p, getWorkspaceSize F plan) :: blocks). fnorm.
      split_and!; try done.
      * by rewrite Hw.
      * rewrite Esr in Hsr. cbn [length].
        destruct (second_run_ L); [lia|].
        cbn in Hsr. symmetry in Hsr.
        apply negb_true_iff, Nat.eqb_neq in Hsr. lia.
      * by rewrite Hl.
      * rewrite Esr. cbn. by rewrite orb_true_r.
Qed.

(** [Reshape] past its checks: the loop over the inputs, on the layer with
    its two offsets set. *)
Lemma Reshape_frontend_Ok (V : Vendor) (F : Frontend) (w w' : World)
    (L L' : FrontendLayer F) (bottom top : list Blob) :
  Reshape_frontend V w L bottom top = Ok (w', L') ->
  num_spatial_axes_ (base (layer L)) = 2 /\
  group_ (base (layer L)) <> 0 /\
  exists lc kernel_h kernel_w L2,
    Reshape_locals V w (base (layer L)) bottom top = Ok lc /\
    kernel_shape_ (base (layer L)) !! 0%nat = Some kernel_h /\
    kernel_shape_ (base (layer L)) !! 1%nat = Some kernel_w /\
    layer L2 =
      set_top_offset_
        (Z.quot (top_dim_ (base (layer L))) (group_ (base (layer L))))
        (set_bottom_offset_
           (Z.quot (bottom_dim_ (base (layer L))) (group_ (base (layer L))))
           (layer L)) /\
    (workspace_size_ L2, second_run_ L2, op_graph_ L2, plan_cache_ L2) =
      (workspace_size_ L, second_run_ L, op_graph_ L, plan_cache_ L) /\
    for_loop (Reshape_frontend_input V lc kernel_h kernel_w)
      (seq 0 (length bottom)) (w, L2) = Ok (w', L').
Proof.
  unfold Reshape_frontend. cbv zeta.
  destruct (Z.eqb_spec (num_spatial_axes_ (base (layer L))) 2);
    cbn [negb]; [|discriminate].
  intros H. split; [done|].
  apply obind_Ok in H as (q1 & E1 & H).
  apply obind_Ok in H as (q2 & E2 & H).
  apply obind_Ok in H as (lc & Elc & H).
  apply obind_Ok in H as (kh & Ekh & H).
  apply obind_Ok in H as (kw & Ekw & H).
  apply idiv_Ok in E1 as [Hg ->]. apply idiv_Ok in E2 as [_ ->].
  apply index_Ok in Ekh, Ekw.
  split; [done|]. eexists lc, kh, kw, _.
  split_and!; [done|done|done| | |exact H]; done.
Qed.

(** X10.  In the frontend build [Reshape] only ever adds device blocks: the
    world afterwards is the world before with new blocks in front, at most
    one per input, and one less on a layer whose first run is still to
    come.  It touches no stream, handle, descriptor or heap block, never
    frees the block [workspaceData] named before, and never sets the
    per-group pointers or [workspaceSizeInBytes].  When a block is added,
    the newest one is [workspaceData] with [workspace_size_] bytes; when
    none is, [workspaceData], [workspace_size_] and the plan cache are as
    before. *)
Theorem Reshape_frontend_only_allocates (V : Vendor) (F : Frontend)
    (w w' : World) (L L' : FrontendLayer F) (bottom top : list Blob) :
  Reshape_frontend V w L bottom top = Ok (w', L') ->
  exists blocks,
    w' = set_w_gpu (blocks ++ w_gpu w) w /\
    (length blocks <=
       if second_run_ L then length bottom else pred (length bottom))%nat /\
    (handles_setup_ (layer L'), stream_ (layer L'), handle_ (layer L'),
     workspace (layer L'), workspaceSizeInBytes (layer L')) =
    (handles_setup_ (layer L), stream_ (layer L), handle_ (layer L),
     workspace (layer L), workspaceSizeInBytes (layer L)) /\
    (blocks = [] ->
     workspaceData (layer L') = workspaceData (layer L) /\
     workspace_size_ L' = workspace_size_ L /\
     plan_cache_ L' = plan_cache_ L) /\
    (blocks <> [] ->
     head blocks = Some (workspaceData (layer L'), workspace_size_ L')).
Proof.
  intros H.
  apply Reshape_frontend_Ok in H
    as (_ & _ & lc & kh & kw & L2 & _ & _ & _ & Hl2 & Hm2 & H).
  injection Hm2 as M1 M2 M3 M4.
  apply Reshape_frontend_loop in H
    as (blocks & Hw & Hlen & Hl & _ & H0 & H1).
  exists blocks. rewrite M2 in Hlen. rewrite Hl2 in Hl, H0. fnorm_in H0.
  rewrite M1, M4 in H0.
  split_and!; try done.
  rewrite Hl. by fnorm.
Qed.

(** X11.  The first run is skipped: by the end of any [Reshape] with at
    least one input the flag [second_run_] is set, and on a layer on which
    it was not, a [Reshape] with one input builds no graph and no plan and
    allocates nothing. *)
Theorem Reshape_frontend_skips_first_run (V : Vendor) (F : Frontend)
    (w w' : World) (L L' : FrontendLayer F) (bottom top : list Blob) :
  Reshape_frontend V w L bottom top = Ok (w', L') ->
  (bottom <> [] -> second_run_ L' = true) /\
  (second_run_ L = false -> length bottom = 1%nat ->
   w' = w /\
   (workspaceData (layer L'), workspace_size_ L', op_graph_ L',
    plan_cache_ L') =
   (workspaceData (layer L), workspace_size_ L, op_graph_ L,
    plan_cache_ L)).
Proof.
  intros H.
  apply Reshape_frontend_Ok in H
    as (_ & _ & lc & kh & kw & L2 & _ & _ & _ & Hl2 & Hm2 & H).
  injection Hm2 as M1 M2 M3 M4.
  split.
  - intros Hne.
    apply Reshape_frontend_loop in H as (blocks & _ & _ & _ & Hsr & _).
    rewrite Hsr. destruct bottom; [done|]. cbn. by rewrite orb_true_r.
  - intros Hsr Hlen. rewrite Hlen in H. cbn [seq for_loop] in H.
    apply obind_Ok in H as ([w1 L1] & E & H). injection H as <- <-.
    apply Reshape_frontend_input_spec in E
      as [(_ & -> & ->)|(Esr & _)]; [|congruence].
    fnorm. rewrite Hl2. fnorm. by rewrite M1, M3, M4.
Qed.

(** The destructor on a layer that was set up: the loop over the groups,
    the conditional [cudaFree], the two [delete []]. *)
Lemma destructor_frontend_Ok (F : Frontend) (w w' : World)
    (L : FrontendLayer F) :
  destructor_frontend w L = Ok w' ->
  handles_setup_ (layer L) = true ->
  exists wa,
    for_loop (destroy_group (layer L))
      (seq 0 (Z.to_nat (group_ (base (layer L)) * CUDNN_STREAMS_PER_GROUP)))
      w = Ok wa /\
    (0 < workspace_size_ L ->
     cudaFree_ok F wa (workspaceData (layer L)) = true) /\
    w' = delete_array (handle_ (layer L))
           (delete_array (stream_ (layer L))
              (if 0 <? workspace_size_ L
               then cudaFree (workspaceData (layer L)) wa
               else wa)).
Proof.
  unfold destructor_frontend. intros H Hs. rewrite Hs in H.
  cbn [negb] in H.
  apply obind_Ok in H as (wa & Ea & H).
  apply obind_Ok in H as (wb & Eb & H). injection H as <-.
  exists wa. split; [exact Ea|].
  destruct (Z.ltb_spec 0 (workspace_size_ L)) as [Hpos|Hle].
  - unfold cudaFree_checked in Eb.
    destruct (cudaFree_ok F wa (workspaceData (layer L))); [|discriminate].
    injection Eb as <-. done.
  - injection Eb as <-. split; [lia|done].
Qed.

(** X12.  The destructor of the frontend build destroys the stream and the
    handle of every group and deletes the arrays [stream_] and [handle_].
    It frees [workspaceData] only when [workspace_size_] is positive, and
    then the blocks at that address alone; it touches no descriptor and
    deletes no other heap block, the array [workspace] included.  On a layer
    that was not set up it does nothing. *)
Theorem destructor_frontend_releases (F : Frontend) (w w' : World)
    (L : FrontendLayer F) :
  destructor_frontend w L = Ok w' ->
  (handles_setup_ (layer L) = false -> w' = w) /\
  (handles_setup_ (layer L) = true ->
   (forall g,
      (g < Z.to_nat (group_ (base (layer L)) * CUDNN_STREAMS_PER_GROUP))%nat ->
      exists s h,
        arr_data (stream_ (layer L)) !! g = Some s /\
        arr_data (handle_ (layer L)) !! g = Some h /\
        st_get (w_streams w') s = None /\ st_get (w_handles w') h = None) /\
   (w_tensors w', w_filters w', w_convs w') =
     (w_tensors w, w_filters w, w_convs w) /\
   w_gpu w' =
     (if 0 <? workspace_size_ L
      then filter (fun b => b.1 ≠ workspaceData (layer L)) (w_gpu w)
      else w_gpu w) /\
   st_get (w_heap w') (arr_id (stream_ (layer L))) = None /\
   st_get (w_heap w') (arr_id (handle_ (layer L))) = None /\
   forall id,
     id <> arr_id (stream_ (layer L)) -> id <> arr_id (handle_ (layer L)) ->
     st_get (w_heap w') id = st_get (w_heap w) id).
Proof.
  intros H. split.
  - intros Hs. unfold destructor_frontend in H. rewrite Hs in H.
    by injection H as <-.
  - intros Hs.
    apply destructor_frontend_Ok in H as (wa & Ea & _ & ->); [|done].
    apply destroy_group_loop in Ea as (Ht & Hf & Hc & Hg & Hh & Hd).
    unfold delete_array, cudaFree.
    destruct (0 <? workspace_size_ L); rnorm;
      (split_and!;
       [ exact Hd | by rewrite Ht, Hf, Hc | by rewrite Hg
       | apply st_get_del_None, st_get_del | apply st_get_del
       | intros id H1 H2; by rewrite !st_get_del_ne, Hh by done ]).
Qed.

(** X13.  In the frontend build a device block is freed by the destructor
    alone, and only at the address [workspaceData] has at the end: every
    block that was allocated before a [Reshape], at another address than
    the one [workspaceData] has after it, is still allocated when the
    destructor has run.  A workspace that a later plan replaced is never
    freed. *)
Theorem frontend_replaced_workspace_is_never_freed (V : Vendor)
    (F : Frontend) (w w' w_end : World) (L L' : FrontendLayer F)
    (bottom top : list Blob) :
  Reshape_frontend V w L bottom top = Ok (w', L') ->
  destructor_frontend w' L' = Ok w_end ->
  forall b, b ∈ w_gpu w -> b.1 <> workspaceData (layer L') ->
            b ∈ w_gpu w_end.
Proof.
  intros Hr Hd b Hb Hne.
  apply Reshape_frontend_Ok in Hr
    as (_ & _ & lc & kh & kw & L2 & _ & _ & _ & _ & _ & Hr).
  apply Reshape_frontend_loop in Hr as (blocks & -> & _).
  assert (Hin : b ∈ blocks ++ w_gpu w) by (apply elem_of_app; by right).
  destruct (handles_setup_ (layer L')) eqn:Hs.
  - apply destructor_frontend_Ok in Hd as (wa & Ea & _ & ->); [|done].
    apply destroy_group_loop in Ea as (_ & _ & _ & Hg & _).
    rnorm_in Hg. unfold delete_array, cudaFree.
    destruct (0 <? workspace_size_ L'); rnorm; rewrite Hg; [|done].
    by apply list_elem_of_filter.
  - unfold destructor_frontend in Hd. rewrite Hs in Hd.
    by injection Hd as <-.
Qed.

(** X14.  [LayerSetUp] of the frontend build creates a stream and a handle
    per group, binds handle [g] to stream [g], and allocates the three
    arrays [stream_], [handle_] and [workspace], whose pointers it sets to
    NULL.  It creates no descriptor and no per-input array, sets the
    workspace sizes to zero and [workspaceData] to NULL, and leaves the
    flag of the first run and the plan cache as they are. *)
Theorem LayerSetUp_frontend_streams_handles (V : Vendor) (F : Frontend)
    (w w' : World) (L L' : FrontendLayer F) (bottom top : list Blob) :
  LayerSetUp_frontend V w L bottom top = Ok (w', L') ->
  let G := Z.to_nat (group_ (base (layer L)) * CUDNN_STREAMS_PER_GROUP) in
  w_streams w' = w_streams w ++ replicate G (Some ()) /\
  w_handles w' =
    w_handles w ++
    map (fun g => Some (Some (length (w_streams w) + g)%nat)) (seq 0 G) /\
  (w_tensors w', w_filters w', w_convs w', w_gpu w') =
    (w_tensors w, w_filters w, w_convs w, w_gpu w) /\
  w_heap w' = w_heap w ++ replicate 3 (Some ()) /\
  (forall g, (g < G)%nat ->
     arr_data (stream_ (layer L')) !! g = Some (length (w_streams w) + g)%nat
     /\
     arr_data (handle_ (layer L')) !! g = Some (length (w_handles w) + g)%nat
     /\
     arr_data (workspace (layer L')) !! g = Some 0) /\
  (arr_id (stream_ (layer L')), arr_id (handle_ (layer L')),
   arr_id (workspace (layer L'))) =
    (length (w_heap w), length (w_heap w) + 1, length (w_heap w) + 2)%nat /\
  (workspaceSizeInBytes (layer L'), workspaceData (layer L'),
   workspace_size_ L') = (0, 0, 0) /\
  bias_offset_ (layer L') =
    Z.quot (num_output_ (base (layer L))) (group_ (base (layer L))) /\
  handles_setup_ (layer L') = true /\
  algo_arrays (layer L') = algo_arrays (layer L) /\
  (filter_desc_ (layer L'), bottom_descs_ (layer L'), top_descs_ (layer L'),
   conv_descs_ (layer L'), bias_desc_ (layer L')) =
    (filter_desc_ (layer L), bottom_descs_ (layer L), top_descs_ (layer L),
     conv_descs_ (layer L), bias_desc_ (layer L)) /\
  (second_run_ L', op_graph_ L', plan_cache_ L') =
    (second_run_ L, op_graph_ L, plan_cache_ L).
Proof.
  intros H G. unfold LayerSetUp_frontend in H.
  repeat match type of H with
  | obind (new_array _ _ _) _ = Ok _ =>
      let wn := fresh "wn" in let an := fresh "an" in
      let E := fresh "En" in
      apply obind_Ok in H as ([wn an] & E & H);
      apply new_array_Ok in E as (? & -> & ->); fnorm_in H
  end.
  apply obind_Ok in H as ([wg Lg] & Eg & H).
  apply obind_Ok in H as (q & Eq & H). fnorm_in H. injection H as <- <-.
  apply idiv_Ok in Eq as [_ ->].
  unfold nat_range in Eg. fold G in Eg.
  apply LayerSetUp_group_loop in Eg
    as (-> & a1 & a2 & a3 & -> & Hi1 & Hi2 & Hi3 & _ & _ & _ & _ & _ & _ &
        Hpt).
  fnorm. fnorm_in Hi1. fnorm_in Hi2. fnorm_in Hi3. fnorm_in Hpt.
  rewrite !length_app in *. cbn [length] in *.
  split_and!; try done.
  - by rewrite <- !app_assoc.
  - rewrite Hi1, Hi2, Hi3.
    by replace (length (w_heap w) + 1 + 1)%nat
      with (length (w_heap w) + 2)%nat by lia.
Qed.

(** Witness of X10: the run at height 16 is skipped; the one at height 10
    plans and allocates. *)
Lemma Reshape_frontend_only_allocates_witness :
  exists s w' L',
    FrontendSample.run 2 [16] = Ok s /\
    FrontendSample.reshape 2 10 s = Ok (w', L') /\
    exists blocks, w' = set_w_gpu (blocks ++ w_gpu s.1) s.1.
Proof.
  eexists _, _, _.
  match goal with
  | |- ?A = Ok ?s /\ _ =>
      assert (Hs : A = Ok s) by (vm_compute; reflexivity)
  end.
  match goal with
  | |- _ /\ ?R = Ok ?res /\ _ =>
      assert (Hr : R = Ok res) by (vm_compute; reflexivity)
  end.
  split; [exact Hs|]. split; [exact Hr|].
  unfold FrontendSample.reshape in Hr.
  destruct (Reshape_frontend_only_allocates _ _ _ _ _ _ _ _ Hr)
    as (blocks & Hw & _).
  exists blocks. exact Hw.
Defined.

(** Witness of X11: the first [Reshape] after the set-up. *)
Lemma Reshape_frontend_skips_first_run_witness :
  exists s w' L',
    FrontendSample.set_up 2 = Ok s /\
    FrontendSample.reshape 2 16 s = Ok (w', L') /\
    w' = s.1 /\ second_run_ L' = true.
Proof.
  eexists _, _, _.
  match goal with
  | |- ?A = Ok ?s /\ _ =>
      assert (Hs : A = Ok s) by (vm_compute; reflexivity)
  end.
  match goal with
  | |- _ /\ ?R = Ok ?res /\ _ =>
      assert (Hr : R = Ok res) by (vm_compute; reflexivity)
  end.
  split; [exact Hs|]. split; [exact Hr|].
  unfold FrontendSample.reshape in Hr.
  destruct (Reshape_frontend_skips_first_run _ _ _ _ _ _ _ _ Hr)
    as (H1 & H2).
  split; [exact (proj1 (H2 eq_refl eq_refl))|].
  apply H1. discriminate.
Defined.

(** Witness of X12: a layer that was set up and reshaped twice. *)
Lemma destructor_frontend_releases_witness :
  exists s w',
    FrontendSample.run 2 [16; 10] = Ok s /\
    destructor_frontend s.1 s.2 = Ok w' /\
    st_get (w_heap w') (arr_id (stream_ (layer s.2))) = None /\
    st_get (w_heap w') (arr_id (workspace (layer s.2))) = Some ().
Proof.
  eexists _, _.
  match goal with
  | |- ?A = Ok ?s /\ _ =>
      assert (Hs : A = Ok s) by (vm_compute; reflexivity)
  end.
  match goal with
  | |- _ /\ ?R = Ok ?res /\ _ =>
      assert (Hr : R = Ok res) by (vm_compute; reflexivity)
  end.
  split; [exact Hs|]. split; [exact Hr|].
  destruct (destructor_frontend_releases _ _ _ _ Hr) as (_ & H2).
  destruct (H2 eq_refl) as (_ & _ & _ & H3 & _ & H4).
  split; [exact H3|].
  rewrite H4; [reflexivity|discriminate|discriminate].
Defined.

(** Witness of X13: the block of 160 bytes allocated at height 10 is
    replaced at height 5 and survives the destructor. *)
Lemma frontend_replaced_workspace_is_never_freed_witness :
  exists s w' L' w_end,
    FrontendSample.run 2 [16; 10] = Ok s /\
    FrontendSample.reshape 2 5 s = Ok (w', L') /\
    destructor_frontend w' L' = Ok w_end /\
    (4096, 160) ∈ w_gpu w_end.
Proof.
  eexists _, _, _, _.
  match goal with
  | |- ?A = Ok ?s /\ _ =>
      assert (Hs : A = Ok s) by (vm_compute; reflexivity)
  end.
  match goal with
  | |- _ /\ ?R = Ok ?res /\ _ =>
      assert (Hr : R = Ok res) by (vm_compute; reflexivity)
  end.
  match goal with
  | |- _ /\ _ /\ ?D = Ok ?res /\ _ =>
      assert (Hd : D = Ok res) by (vm_compute; reflexivity)
  end.
  split; [exact Hs|]. split; [exact Hr|]. split; [exact Hd|].
  unfold FrontendSample.reshape in Hr.
  apply (frontend_replaced_workspace_is_never_freed _ _ _ _ _ _ _ _ _ Hr Hd).
  - apply elem_of_cons. left. reflexivity.
  - discriminate.
Defined.

(** Witness of X14. *)
Lemma LayerSetUp_frontend_streams_handles_witness :
  exists w' L',
    FrontendSample.set_up 2 = Ok (w', L') /\
    w_streams w' = [Some (); Some ()] /\ handles_setup_ (layer L') = true.
Proof.
  eexists _, _.
  match goal with
  | |- ?A = Ok ?s /\ _ =>
      assert (Hs : A = Ok s) by (vm_compute; reflexivity)
  end.
  split; [exact Hs|].
  unfold FrontendSample.set_up in Hs.
  destruct (LayerSetUp_frontend_streams_handles _ _ _ _ _ _ _ _ Hs)
    as (H1 & _ & _ & _ & _ & _ & _ & _ & H9 & _).
  split; [exact H1 | exact H9].
Defined.

(** ** The plan cache *)

(** The shapes [Reshape] reads do not depend on the state of the vendor
    side. *)
Lemma Reshape_locals_shapes (V : Vendor) (w w' : World) (b : ConvBase)
    (bottom top : list Blob) (lc lc' : Locals) :
  Reshape_locals V w b bottom top = Ok lc ->
  Reshape_locals V w' b bottom top = Ok lc' ->
  forall F wg kh kw h0,
    graph_of F wg b lc' kh kw h0 = graph_of F wg b lc kh kw h0.
Proof.
  unfold Reshape_locals. intros H H'.
  repeat (apply obind_Ok in H as (? & ? & H)).
  repeat (apply obind_Ok in H' as (? & ? & H')).
  injection H as <-. injection H' as <-.
  intros F wg kh kw h0. unfold graph_of. cbn [height width height_out
    width_out pad_h pad_w stride_h stride_w].
  repeat f_equal; congruence.
Qed.

(** With a cache that keeps what is added, once the loop has planned or
    found a plan for the graph of the layer, the cache holds one. *)
Lemma Reshape_frontend_loop_caches (V : Vendor) (F : Frontend) (lc : Locals)
    (kernel_h kernel_w : Z) (n : nat) (w w' : World)
    (L L' : FrontendLayer F) :
  cache_keeps_added F -> graphs_from_shapes F ->
  for_loop (Reshape_frontend_input V lc kernel_h kernel_w) (seq 0 n) (w, L)
    = Ok (w', L') ->
  second_run_ L = true -> (0 < n)%nat ->
  exists h0 g,
    arr_data (handle_ (layer L)) !! 0%nat = Some h0 /\
    graph_of F w (base (layer L)) lc kernel_h kernel_w h0 = Some g /\
    is_Some (get_plan_from_cache F (plan_cache_ L') g).
Proof.
  intros Hkeep Hshapes H Hsr Hn.
  apply (for_loop_seq_inv
    (fun k s =>
       base (layer s.2) = base (layer L) /\
       handle_ (layer s.2) = handle_ (layer L) /\
       second_run_ s.2 = true /\
       ((0 < k)%nat ->
        exists h0 g,
          arr_data (handle_ (layer L)) !! 0%nat = Some h0 /\
          graph_of F w (base (layer L)) lc kernel_h kernel_w h0 = Some g /\
          is_Some (get_plan_from_cache F (plan_cache_ s.2) g))))
    in H.
  - destruct H as (_ & _ & _ & H). apply H. lia.
  - cbn [fst snd]. split_and!; try done. lia.
  - clear H. intros k [w1 L1] [w2 L2] Hk (Hb & Hh & Hs & Hc) Hstep.
    cbn [fst snd] in *.
    apply Reshape_frontend_input_spec in Hstep
      as [(Esr & _)|(_ & h0 & g & Eh & Eg & Hcase)]; [congruence|].
    rewrite Hh in Eh.
    assert (Eg' : graph_of F w (base (layer L)) lc kernel_h kernel_w h0
                  = Some g).
    { change (graph_of F w1 (base (layer L1)) lc kernel_h kernel_w h0
              = Some g) in Eg.
      rewrite Hb in Eg. unfold graph_of. rewrite <- Eg. apply Hshapes. }
    destruct Hcase as [(Hhit & -> & ->)|(_ & plan & p & _ & _ & -> & ->)];
      fnorm; (split_and!; try done); intros _; exists h0, g;
      (split_and!; try done).
Qed.

(** With a plan for the graph of the layer in the cache, the loop changes
    nothing but [op_graph_]. *)
Lemma Reshape_frontend_loop_hits (V : Vendor) (F : Frontend) (lc : Locals)
    (kernel_h kernel_w : Z) (n : nat) (w w' : World)
    (L L' : FrontendLayer F) :
  for_loop (Reshape_frontend_input V lc kernel_h kernel_w) (seq 0 n) (w, L)
    = Ok (w', L') ->
  second_run_ L = true ->
  (forall h0 g,
     arr_data (handle_ (layer L)) !! 0%nat = Some h0 ->
     graph_of F w (base (layer L)) lc kernel_h kernel_w h0 = Some g ->
     is_Some (get_plan_from_cache F (plan_cache_ L) g)) ->
  w' = w /\ layer L' = layer L /\ workspace_size_ L' = workspace_size_ L /\
  plan_cache_ L' = plan_cache_ L /\ second_run_ L' = true.
Proof.
  intros H Hsr Hcached.
  apply (for_loop_seq_inv
    (fun _ s =>
       s.1 = w /\ layer s.2 = layer L /\
       workspace_size_ s.2 = workspace_size_ L /\
       plan_cache_ s.2 = plan_cache_ L /\ second_run_ s.2 = true))
    in H; [exact H|done|].
  clear H. intros k [w1 L1] [w2 L2] Hk (Hw & Hl & Hs & Hc & Hr) Hstep.
  cbn [fst snd] in *.
  apply Reshape_frontend_input_spec in Hstep
    as [(Esr & _)|(_ & h0 & g & Eh & Eg & Hcase)]; [congruence|].
  subst w1. rewrite Hl in Eh.
  change (graph_of F w (base (layer L1)) lc kernel_h kernel_w h0 = Some g)
    in Eg.
  rewrite Hl in Eg. rewrite Hc in Hcase.
  destruct Hcase as [(_ & -> & ->)|(Hmiss & _)].
  - fnorm. done.
  - destruct (Hcached h0 g Eh Eg) as [x Hx]. congruence.
Qed.

(** X15.  With a plan cache that finds what was added to it and graphs
    that are built from the shapes alone, a [Reshape] on a layer past its
    first run leaves a plan for its graph in the cache, and a second
    [Reshape] with the same inputs finds it: the second call allocates
    nothing and leaves the vendor side, [workspaceData], [workspace_size_]
    and the cache as the first call left them. *)
Theorem Reshape_frontend_same_shapes_allocates_once (V : Vendor)
    (F : Frontend) (w w1 w2 : World) (L L1 L2 : FrontendLayer F)
    (bottom top : list Blob) :
  cache_keeps_added F -> graphs_from_shapes F ->
  second_run_ L = true -> bottom <> [] ->
  Reshape_frontend V w L bottom top = Ok (w1, L1) ->
  Reshape_frontend V w1 L1 bottom top = Ok (w2, L2) ->
  w2 = w1 /\
  (workspaceData (layer L2), workspace_size_ L2, plan_cache_ L2) =
  (workspaceData (layer L1), workspace_size_ L1, plan_cache_ L1).
Proof.
  intros Hkeep Hshapes Hsr Hne H1 H2.
  apply Reshape_frontend_Ok in H1
    as (_ & _ & lc & kh & kw & La & Elc & Ekh & Ekw & Hla & Hma & H1).
  injection Hma as _ Ma2 _ _.
  assert (Hba : base (layer La) = base (layer L)) by (by rewrite Hla).
  assert (Hha : handle_ (layer La) = handle_ (layer L)) by (by rewrite Hla).
  pose proof H1 as H1'.
  apply Reshape_frontend_loop in H1'
    as (blocks & _ & _ & Hl1 & Hsr1 & _).
  rewrite Ma2, Hsr in Hsr1. cbn [orb] in Hsr1.
  apply Reshape_frontend_loop_caches in H1
    as (h0 & g & Eh & Eg & Hcached); [|done|done|congruence|].
  2:{ destruct bottom; [done|]. cbn [length]. lia. }
  rewrite Hha in Eh. rewrite Hba in Eg.
  assert (Hb1 : base (layer L1) = base (layer L))
    by (rewrite Hl1; exact Hba).
  assert (Hh1 : handle_ (layer L1) = handle_ (layer L))
    by (rewrite Hl1; exact Hha).
  apply Reshape_frontend_Ok in H2
    as (_ & _ & lc' & kh' & kw' & Lb & Elc' & Ekh' & Ekw' & Hlb & Hmb & H2).
  injection Hmb as Mb1 Mb2 _ Mb4.
  assert (Hbb : base (layer Lb) = base (layer L))
    by (rewrite Hlb; exact Hb1).
  assert (Hhb : handle_ (layer Lb) = handle_ (layer L))
    by (rewrite Hlb; exact Hh1).
  rewrite Hb1 in Elc', Ekh', Ekw'.
  assert (kh' = kh) as -> by congruence.
  assert (kw' = kw) as -> by congruence.
  apply Reshape_frontend_loop_hits in H2 as (-> & Hl2 & Hs2 & Hc2 & _).
  - split; [done|]. rewrite Hl2, Hlb, Hs2, Hc2, Mb1, Mb4. by fnorm.
  - congruence.
  - intros h0' g' Eh' Eg'. rewrite Hhb in Eh'. rewrite Hbb in Eg'.
    rewrite (Reshape_locals_shapes _ _ _ _ _ _ _ _ Elc Elc') in Eg'.
    assert (h0' = h0) as -> by congruence.
    assert (Hg : graph_of F w1 (base (layer L)) lc kh kw h0 = Some g).
    { unfold graph_of. unfold graph_of in Eg. rewrite <- Eg.
      apply Hshapes. }
    assert (g' = g) as -> by congruence.
    by rewrite Mb4.
Qed.

(** The sample frontend has the two properties. *)
Lemma frontend_cache_keeps_added : cache_keeps_added FrontendSample.frontend.
Proof.
  intros c g p.
  cbn [get_plan_from_cache add_plan_to_cache FrontendSample.frontend
       FrontendSample.lookup_plan].
  rewrite decide_True by done. by eexists.
Qed.

Lemma frontend_graphs_from_shapes :
  graphs_from_shapes FrontendSample.frontend.
Proof. intros w w' x wd y pad dilation stride h bias. reflexivity. Qed.

(** Witness of X15: two calls at height 10 after the skipped first run. *)
Lemma Reshape_frontend_same_shapes_allocates_once_witness :
  exists s w1 L1 w2 L2,
    FrontendSample.run 2 [16] = Ok s /\
    FrontendSample.reshape 2 10 s = Ok (w1, L1) /\
    FrontendSample.reshape 2 10 (w1, L1) = Ok (w2, L2) /\
    w2 = w1.
Proof.
  eexists _, _, _, _, _.
  match goal with
  | |- ?A = Ok ?s /\ _ =>
      assert (Hs : A = Ok s) by (vm_compute; reflexivity)
  end.
  match goal with
  | |- _ /\ ?R = Ok ?res /\ _ =>
      assert (H1 : R = Ok res) by (vm_compute; reflexivity)
  end.
  match goal with
  | |- _ /\ _ /\ ?R = Ok ?res /\ _ =>
      assert (H2 : R = Ok res) by (vm_compute; reflexivity)
  end.
  split; [exact Hs|]. split; [exact H1|]. split; [exact H2|].
  unfold FrontendSample.reshape in H1, H2.
  refine (proj1 (Reshape_frontend_same_shapes_allocates_once Sample.V8
            FrontendSample.frontend _ _ _ _ _ _ _ _
            frontend_cache_keeps_added frontend_graphs_from_shapes
            _ _ H1 H2)).
  - reflexivity.
  - discriminate.
Defined.

(** ** Reshape returns *)


(** An assignment into an array that is long enough, and the read that
    follows it. *)
Ltac assign_step :=
  rewrite arr_assign_total by (rnorm; rewrite ?length_insert; lia);
  cbn [obind]; rnorm.
Ltac index_step :=
  unfold index at 1; rewrite list_lookup_insert_eq by (rewrite ?length_insert; lia);
  cbn [obind]; rnorm.

Lemma choose_algos_v8_total (V : Vendor) (lc : Locals) (w : World)
    (i bd td cd : nat) (L : Layer) :
  (forall w h bd fd cd td n,
     is_Some (cudnnGetConvolutionForwardAlgorithm_v7 V w h bd fd cd td n)) ->
  (forall w h fd td cd bd n,
     is_Some
       (cudnnGetConvolutionBackwardDataAlgorithm_v7 V w h fd td cd bd n)) ->
  (0 < length (arr_data (handle_ L)))%nat ->
  (i < length (arr_data (fwd_algo_ L)))%nat ->
  (i < length (arr_data (bwd_filter_algo_ L)))%nat ->
  (i < length (arr_data (bwd_data_algo_ L)))%nat ->
  (i < length (arr_data (workspace_fwd_sizes_ L)))%nat ->
  (i < length (arr_data (workspace_bwd_filter_sizes_ L)))%nat ->
  (i < length (arr_data (workspace_bwd_data_sizes_ L)))%nat ->
  exists L1, choose_algos_v8 V lc w i bd td cd L = Ok L1.
Proof.
  intros Hf Hb Hh H1 H2 H3 H4 H5 H6. unfold choose_algos_v8.
  destruct (index_lt (arr_data (handle_ L)) 0) as (h0 & -> & _); [lia|].
  cbn [obind].
  destruct (Hf w h0 bd (filter_desc_ L) cd td 4%nat) as [fp ->].
  cbn [checked obind].
  destruct (first_suitable (fwd_suitable V (free_memory lc)) (take 4 fp))
    as [p|].
  - do 3 assign_step. index_step. assign_step.
    destruct (Hb w h0 (filter_desc_ L) td cd bd 4%nat) as [bp ->].
    cbn [checked obind].
    destruct (first_suitable _ _) as [q|]; [|by eexists].
    do 2 assign_step. by eexists.
  - cbn [obind].
    destruct (Hb w h0 (filter_desc_ L) td cd bd 4%nat) as [bp ->].
    cbn [checked obind].
    destruct (first_suitable _ _) as [q|]; [|by eexists].
    do 2 assign_step. by eexists.
Qed.

Lemma choose_algos_legacy_total (V : Vendor) (lc : Locals) (w : World)
    (i bd td cd : nat) (L : Layer) :
  (forall w h bd fd cd td l,
     is_Some (cudnnGetConvolutionForwardAlgorithm V w h bd fd cd td l)) ->
  (forall w h bd fd cd td a,
     is_Some (cudnnGetConvolutionForwardWorkspaceSize V w h bd fd cd td a)) ->
  (forall w h bd td cd fd l,
     is_Some
       (cudnnGetConvolutionBackwardFilterAlgorithm V w h bd td cd fd l)) ->
  (forall w h bd td cd fd a,
     is_Some
       (cudnnGetConvolutionBackwardFilterWorkspaceSize V w h bd td cd fd a)) ->
  (forall w h fd td cd bd l,
     is_Some (cudnnGetConvolutionBackwardDataAlgorithm V w h fd td cd bd l)) ->
  (forall w h fd td cd bd a,
     is_Some
       (cudnnGetConvolutionBackwardDataWorkspaceSize V w h fd td cd bd a)) ->
  (0 < length (arr_data (handle_ L)))%nat ->
  (i < length (arr_data (fwd_algo_ L)))%nat ->
  (i < length (arr_data (bwd_filter_algo_ L)))%nat ->
  (i < length (arr_data (bwd_data_algo_ L)))%nat ->
  (i < length (arr_data (workspace_fwd_sizes_ L)))%nat ->
  (i < length (arr_data (workspace_bwd_filter_sizes_ L)))%nat ->
  (i < length (arr_data (workspace_bwd_data_sizes_ L)))%nat ->
  exists L1, choose_algos_legacy V lc w i bd td cd L = Ok L1.
Proof.
  intros Q1 Q2 Q3 Q4 Q5 Q6 Hh H1 H2 H3 H4 H5 H6.
  unfold choose_algos_legacy. cbv zeta.
  destruct (index_lt (arr_data (handle_ L)) 0) as (h0 & -> & _); [lia|].
  cbn [obind].
  destruct (Q1 w h0 bd (filter_desc_ L) cd td (workspace_limit_bytes lc))
    as [fa ->].
  cbn [checked obind]. assign_step. index_step.
  destruct (Q2 w h0 bd (filter_desc_ L) cd td fa) as [fs ->].
  cbn [checked obind]. assign_step.
  destruct (Q3 w h0 bd td cd (filter_desc_ L) (workspace_limit_bytes lc))
    as [ra ->].
  cbn [checked obind]. assign_step. index_step.
  destruct (Q4 w h0 bd td cd (filter_desc_ L) ra) as [rs ->].
  cbn [checked obind]. assign_step.
  destruct (Q5 w h0 (filter_desc_ L) td cd bd (workspace_limit_bytes lc))
    as [da ->].
  cbn [checked obind]. assign_step. index_step.
  destruct (Q6 w h0 (filter_desc_ L) td cd bd da) as [ds ->].
  cbn [checked obind]. assign_step. by eexists.
Qed.

Lemma st_put_total {A} (d : nat) (x : A) (s : store A) :
  is_Some (st_get s d) -> st_put d x s = Some (<[d:=Some x]> s).
Proof. intros [y Hy]. unfold st_put. by rewrite Hy. Qed.

Lemma st_get_is_Some_lt {A} (s : store A) (d : nat) :
  is_Some (st_get s d) -> (d < length s)%nat.
Proof.
  unfold st_get. intros [y Hy]. destruct (s !! d) eqn:E; [|done].
  by apply lookup_lt_Some in E.
Qed.

Lemma st_get_insert_is_Some {A} (s : store A) (i d : nat) (x : A) :
  is_Some (st_get s d) -> is_Some (st_get (<[i:=Some x]> s) d).
Proof.
  intros H. destruct (decide (i = d)) as [->|Hne].
  - rewrite st_get_put_eq; [done|]. by apply st_get_is_Some_lt.
  - by rewrite st_get_put_ne.
Qed.

Lemma setTensor4dDesc_total (d : nat) (t : Tensor4d) (w : World) :
  is_Some (st_get (w_tensors w) d) ->
  cudnn.setTensor4dDesc d t w =
    Ok (set_w_tensors (<[d:=Some (Some t)]> (w_tensors w)) w).
Proof.
  intros H. unfold cudnn.setTensor4dDesc. by rewrite st_put_total.
Qed.

Lemma setConvolutionDesc_total (d : nat) (c : Conv2d) (w : World) :
  is_Some (st_get (w_convs w) d) ->
  cudnn.setConvolutionDesc d c w =
    Ok (set_w_convs (<[d:=Some (Some c)]> (w_convs w)) w).
Proof.
  intros H. unfold cudnn.setConvolutionDesc. by rewrite st_put_total.
Qed.

(** Whichever build runs, the algorithm choice for input [i] returns. *)
Lemma choose_algos_total (V : Vendor) (lc : Locals) (w : World)
    (i bd td cd B G : nat) (bias : bool) (w0 : World) (L : Layer) :
  answers_queries V -> ready_for w0 L B G bias -> (i < B)%nat ->
  exists L1,
    (if CUDNN_VERSION_MIN_8 V then choose_algos_v8 V lc w i bd td cd L
     else choose_algos_legacy V lc w i bd td cd L) = Ok L1 /\
    algos_frame L L1.
Proof.
  intros Ha (_ & _ & _ & R4 & R5 & R6 & R7 & R8 & R9 & R10 & _) Hi.
  unfold answers_queries in Ha.
  destruct (CUDNN_VERSION_MIN_8 V).
  - destruct Ha as (Q1 & Q2).
    destruct (choose_algos_v8_total V lc w i bd td cd L) as (L1 & E);
      [done|done|lia..|].
    exists L1. split; [done|].
    by apply choose_algos_v8_spec in E as (? & _).
  - destruct Ha as (Q1 & Q2 & Q3 & Q4 & Q5 & Q6).
    destruct (choose_algos_legacy_total V lc w i bd td cd L) as (L1 & E);
      [done|done|done|done|done|done|lia..|].
    exists L1. split; [done|].
    by apply choose_algos_legacy_spec in E as (? & _).
Qed.

(** The layer stays ready when members that [Reshape] only reads, the
    shapes of the arrays, and the life of the descriptors are kept. *)
Lemma ready_for_frame (w w' : World) (L L' : Layer) (B G : nat)
    (bias : bool) :
  ready_for w L B G bias ->
  fixed_members L' = fixed_members L ->
  algo_arrays_shape L' = algo_arrays_shape L ->
  workspace_shape L' = workspace_shape L ->
  (forall d, is_Some (st_get (w_tensors w) d) ->
             is_Some (st_get (w_tensors w') d)) ->
  (forall d, is_Some (st_get (w_convs w) d) ->
             is_Some (st_get (w_convs w') d)) ->
  ready_for w' L' B G bias.
Proof.
  intros (R1 & R2 & R3 & R4 & R5 & R6 & R7 & R8 & R9 & R10 & R11 & R12 &
          R13 & R14) Hf Ha Hw Ht Hc.
  unfold fixed_members in Hf. injection Hf as F1 F2 F3 F4 F5 F6 F7 F8 F9 F10.
  unfold algo_arrays_shape in Ha.
  injection Ha as _ A1 _ A2 _ A3 _ A4 _ A5 _ A6.
  unfold workspace_shape in Hw. injection Hw as _ W.
  unfold ready_for.
  rewrite F4, F6, F7, F8, F9, A1, A2, A3, A4, A5, A6, W.
  split_and!; try done.
  - intros d Hd. by apply Ht, R12.
  - intros d Hd. by apply Hc, R13.
  - intros Hb. by apply Ht, R14.
Qed.

Lemma Reshape_input_total (V : Vendor) (lc : Locals) (i B G : nat)
    (bias : bool) (w : World) (L : Layer) :
  answers_queries V -> ready_for w L B G bias -> (i < B)%nat ->
  group_ (base L) <> 0 ->
  exists w1 L1,
    Reshape_input V lc i (w, L) = Ok (w1, L1) /\
    ready_for w1 L1 B G bias /\ fixed_members L1 = fixed_members L /\
    workspace_state L1 = workspace_state L /\ w_gpu w1 = w_gpu w.
Proof.
  intros Ha Hr Hi Hg.
  pose proof Hr as (R1 & R2 & R3 & _ & _ & _ & _ & _ & _ & _ & _ & R12 & R13
                    & _).
  unfold Reshape_input.
  destruct (index_lt (bottom_descs_ L) i) as (bd & -> & Ebd); [lia|].
  destruct (index_lt (top_descs_ L) i) as (td & -> & Etd); [lia|].
  destruct (index_lt (conv_descs_ L) i) as (cd & -> & Ecd); [lia|].
  cbn [obind]. unfold idiv. rewrite (proj2 (Z.eqb_neq _ 0)) by done.
  cbn [obind].
  assert (Lbd : is_Some (st_get (w_tensors w) bd)).
  { apply R12, elem_of_app. left. by eapply list_elem_of_lookup_2. }
  assert (Ltd : is_Some (st_get (w_tensors w) td)).
  { apply R12, elem_of_app. right. by eapply list_elem_of_lookup_2. }
  assert (Lcd : is_Some (st_get (w_convs w) cd)).
  { apply R13. by eapply list_elem_of_lookup_2. }
  rewrite setTensor4dDesc_total by done. cbn [obind].
  rewrite setTensor4dDesc_total by (rnorm; by apply st_get_insert_is_Some).
  cbn [obind]. rnorm.
  rewrite setConvolutionDesc_total by (rnorm; done).
  cbn [obind]. rnorm.
  match goal with
  | |- context [choose_algos_v8 V lc ?wx i bd td cd L] =>
      destruct (choose_algos_total V lc wx i bd td cd B G bias w L Ha Hr Hi)
        as (L1 & -> & Hfr)
  end.
  cbn [obind]. eexists _, L1. split; [reflexivity|].
  destruct Hfr as (Hf & _ & Hw & Hs).
  split_and!; try done.
  apply (ready_for_frame w _ L L1); try done.
  - unfold workspace_state in Hw. injection Hw as _ _ Hw3.
    unfold workspace_shape. by rewrite Hw3.
  - intros d Hd. rnorm. by do 2 apply st_get_insert_is_Some.
  - intros d Hd. rnorm. by apply st_get_insert_is_Some.
Qed.

Lemma Reshape_inputs_loop_total (V : Vendor) (lc : Locals) (n B G : nat)
    (bias : bool) (w : World) (L : Layer) :
  answers_queries V -> ready_for w L B G bias -> (n <= B)%nat ->
  group_ (base L) <> 0 ->
  exists w1 L1,
    for_loop (Reshape_input V lc) (seq 0 n) (w, L) = Ok (w1, L1) /\
    ready_for w1 L1 B G bias /\ fixed_members L1 = fixed_members L /\
    workspace_state L1 = workspace_state L /\ w_gpu w1 = w_gpu w.
Proof.
  intros Ha Hr Hn Hg.
  destruct (for_loop_seq_total
    (fun _ s => ready_for s.1 s.2 B G bias /\
                fixed_members s.2 = fixed_members L /\
                workspace_state s.2 = workspace_state L /\
                w_gpu s.1 = w_gpu w)
    (Reshape_input V lc) n 0 (w, L)) as ([w1 L1] & E & H);
    [done| |by exists w1, L1].
  intros i [wk Lk] Hi (Hrk & Hfk & Hwk & Hgk). cbn [fst snd] in *.
  destruct (Reshape_input_total V lc i B G bias wk Lk)
    as (w2 & L2 & E & Hr2 & Hf2 & Hw2 & Hg2); [done|done|lia| |].
  { unfold fixed_members in Hfk. injection Hfk as -> _ _ _ _ _ _ _ _ _.
    done. }
  exists (w2, L2). cbn [fst snd]. split_and!; try done; congruence.
Qed.

Lemma max_workspace_of_total (L : Layer) (B : nat) :
  (B <= length (arr_data (workspace_fwd_sizes_ L)))%nat ->
  (B <= length (arr_data (workspace_bwd_data_sizes_ L)))%nat ->
  (B <= length (arr_data (workspace_bwd_filter_sizes_ L)))%nat ->
  exists m, max_workspace_of L B = Ok m.
Proof.
  intros H1 H2 H3. unfold max_workspace_of.
  destruct (for_loop_seq_total (fun _ _ => True) (reduce_sizes L) B 0
              (0, 0, 0)) as ([[f d] r] & -> & _); [done| |by eexists].
  intros i [[a b] c] Hi _. unfold reduce_sizes.
  destruct (index_lt (arr_data (workspace_fwd_sizes_ L)) i) as (x & -> & _);
    [lia|].
  destruct (index_lt (arr_data (workspace_bwd_data_sizes_ L)) i)
    as (y & -> & _); [lia|].
  destruct (index_lt (arr_data (workspace_bwd_filter_sizes_ L)) i)
    as (z & -> & _); [lia|].
  cbn [obind]. by eexists.
Qed.

Lemma zero_memory_loop_total (V : Vendor) (n : nat) (L : Layer) :
  (n <= length (arr_data (fwd_algo_ L)))%nat ->
  (n <= length (arr_data (bwd_filter_algo_ L)))%nat ->
  (n <= length (arr_data (bwd_data_algo_ L)))%nat ->
  (n <= length (arr_data (workspace_fwd_sizes_ L)))%nat ->
  (n <= length (arr_data (workspace_bwd_filter_sizes_ L)))%nat ->
  (n <= length (arr_data (workspace_bwd_data_sizes_ L)))%nat ->
  exists L', for_loop (zero_memory_path V) (seq 0 n) L = Ok L'.
Proof.
  intros H1 H2 H3 H4 H5 H6.
  destruct (for_loop_seq_total
    (fun _ Lk => algo_arrays_shape Lk = algo_arrays_shape L)
    (zero_memory_path V) n 0 L) as (L' & E & _); [done| |by exists L'].
  intros i Lk Hi Hk. unfold algo_arrays_shape in Hk.
  injection Hk as J1 K1 J2 K2 J3 K3 J4 K4 J5 K5 J6 K6.
  unfold zero_memory_path. do 6 assign_step.
  eexists. split; [done|].
  unfold algo_arrays_shape. rnorm. rewrite !length_insert. congruence.
Qed.

Lemma workspace_loop_total (f : nat -> Layer -> Z) (n : nat) (L : Layer) :
  (n <= length (arr_data (workspace L)))%nat ->
  exists L',
    for_loop
      (fun g L => do a <- arr_assign (workspace L) g (f g L);
                  Ok (set_workspace a L))
      (seq 0 n) L = Ok L'.
Proof.
  intros H.
  destruct (for_loop_seq_total
    (fun _ Lk => length (arr_data (workspace Lk)) =
                 length (arr_data (workspace L)))
    (fun g L => do a <- arr_assign (workspace L) g (f g L);
                Ok (set_workspace a L))
    n 0 L) as (L' & E & _); [done| |by exists L'].
  intros i Lk Hi Hk. cbv beta. assign_step.
  eexists. split; [done|]. rnorm. by rewrite length_insert.
Qed.

Lemma Reshape_workspace_total (V : Vendor) (B G : nat) (bias : bool)
    (w : World) (L : Layer) :
  ready_for w L B G bias ->
  G = Z.to_nat (group_ (base L) * CUDNN_STREAMS_PER_GROUP) ->
  exists w' L' r, Reshape_workspace V B (w, L) = Ok (w', L', r).
Proof.
  intros (_ & _ & _ & R4 & R5 & R6 & R7 & R8 & R9 & _ & R11 & _) HG.
  unfold Reshape_workspace.
  destruct (max_workspace_of_total L B) as (m & ->); [done..|].
  cbn [obind]. cbv zeta.
  destruct (workspaceSizeInBytes L <? size_mul m (groups L));
    [|by eexists _, _, _].
  unfold cudaMalloc, nat_range. rnorm. rewrite <- HG.
  destruct (cudaMalloc_result V _ _) as [p|].
  - cbn [obind].
    destruct (workspace_loop_total
      (fun g L => workspaceData L + size_mul (Z.of_nat g) m) G
      (set_workspaceData p
         (set_workspaceSizeInBytes (size_mul m (groups L)) L)))
      as (L' & E); [by rnorm|].
    unfold alias_workspace. rewrite E. cbn [obind]. by eexists _, _, _.
  - destruct (zero_memory_loop_total V B
      (set_workspaceSizeInBytes (size_mul m (groups L)) L))
      as (Lz & Ez); [by rnorm..|].
    rewrite Ez. cbn [obind].
    apply zero_memory_loop in Ez as (_ & _ & Hwz & _).
    unfold workspace_state in Hwz. rnorm_in Hwz. injection Hwz as _ _ Hwz.
    destruct (workspace_loop_total (fun _ _ => 0) G Lz) as (Ln & En);
      [by rewrite Hwz|].
    unfold null_workspace. rewrite En. cbn [obind].
    apply null_loop in En as (_ & _ & _ & _ & _ & Hwn & _).
    unfold workspace_shape in Hwn. injection Hwn as _ Hwn.
    destruct (workspace_loop_total
      (fun g L => workspaceData L + size_mul (Z.of_nat g) m) G
      (set_workspaceSizeInBytes 0 (set_workspaceData 0 Ln)))
      as (L' & E); [rnorm; rewrite Hwn, Hwz; done|].
    unfold alias_workspace. rewrite E. cbn [obind]. by eexists _, _, _.
Qed.

(** [Reshape] returns on a layer that is ready for its inputs, and leaves
    it ready. *)
Lemma Reshape_total (V : Vendor) (B G : nat) (w : World) (L : Layer)
    (bottom top : list Blob) :
  answers_queries V ->
  ready_for w L B G (bias_term_ (base L)) ->
  G = Z.to_nat (group_ (base L) * CUDNN_STREAMS_PER_GROUP) ->
  (length bottom <= B)%nat ->
  num_spatial_axes_ (base L) = 2 -> group_ (base L) <> 0 ->
  is_Ok (Reshape_locals V w (base L) bottom top) ->
  exists w' L' r,
    Reshape V w L bottom top = Ok (w', L', r) /\
    ready_for w' L' B G (bias_term_ (base L)).
Proof.
  intros Ha Hr HG HB Hn Hg [lc Hlc].
  unfold Reshape. rewrite Hn. cbn [Z.eqb Pos.eqb negb].
  unfold Reshape_checked, Reshape_inputs. cbv zeta.
  unfold idiv. rewrite (proj2 (Z.eqb_neq _ 0)) by done. cbn [obind].
  rewrite Hlc. cbn [obind].
  match goal with
  | |- context [for_loop (Reshape_input V lc) _ (w, ?X)] =>
      destruct (Reshape_inputs_loop_total V lc (length bottom) B G
                  (bias_term_ (base L)) w X)
        as (w1 & L1 & -> & Hr1 & Hf1 & Hw1 & Hg1);
        [done| |done|done|]
  end.
  { apply (ready_for_frame w w L); done. }
  cbn [obind].
  assert (Hb1 : base L1 = base L).
  { unfold fixed_members in Hf1. rnorm_in Hf1.
    by injection Hf1 as -> _ _ _ _ _ _ _ _ _. }
  destruct (Reshape_workspace_total V (length bottom) G
              (bias_term_ (base L)) w1 L1)
    as (w2 & L2 & r & E2); [| by rewrite Hb1 |].
  { destruct Hr1 as (R1 & R2 & R3 & R4 & R5 & R6 & R7 & R8 & R9 & R10 &
                     R11 & R12 & R13 & R14).
    unfold ready_for. split_and!; try done; lia. }
  rewrite E2. cbn [obind].
  pose proof (Reshape_workspace_world _ _ _ _ _ _ _ E2) as (Hv2 & Ht2 & Hc2).
  pose proof (Reshape_workspace_spec _ _ _ _ _ _ _ E2)
    as (m & _ & Hf2 & _ & Hwsh & Hcase).
  assert (Hsh2 : algo_arrays_shape L2 = algo_arrays_shape L1).
  { cbv zeta in Hcase. destruct r.
    - by destruct Hcase as (_ & _ & ->).
    - destruct Hcase as (_ & _ & _ & Hx & _).
      unfold algo_arrays in Hx. injection Hx as A1 A2 A3 A4 A5 A6.
      unfold algo_arrays_shape. by rewrite A1, A2, A3, A4, A5, A6.
    - by destruct Hcase as (_ & _ & _ & _ & _ & Hx & _). }
  assert (Hr2 : ready_for w2 L2 B G (bias_term_ (base L))).
  { apply (ready_for_frame w1 w2 L1 L2); try done.
    - intros d. by rewrite Ht2.
    - intros d. by rewrite Hc2. }
  assert (Hb2 : base L2 = base L).
  { unfold fixed_members in Hf2. injection Hf2 as -> _ _ _ _ _ _ _ _ _.
    done. }
  rewrite Hb2.
  destruct (bias_term_ (base L)) eqn:Ebias.
  - rewrite (proj2 (Z.eqb_neq _ 0)) by done. cbn [obind].
    pose proof Hr2 as (_ & _ & _ & _ & _ & _ & _ & _ & _ & _ & _ & _ & _ &
                       R14).
    rewrite setTensor4dDesc_total by (by apply R14).
    cbn [obind]. eexists _, _, _. split; [reflexivity|].
    apply (ready_for_frame w2 _ L2 L2); try done.
    intros d Hd. rnorm. by apply st_get_insert_is_Some.
  - eexists _, _, _. split; [reflexivity|done].
Qed.

(** [LayerSetUp] leaves the layer ready for its inputs. *)
Lemma LayerSetUp_ready (V : Vendor) (w0 w1 : World) (L0 L1 : Layer)
    (bottom top : list Blob) :
  LayerSetUp V w0 L0 bottom top = Ok (w1, L1) ->
  bottom_descs_ L0 = [] -> top_descs_ L0 = [] -> conv_descs_ L0 = [] ->
  0 < group_ (base L0) ->
  ready_for w1 L1 (length bottom)
    (Z.to_nat (group_ (base L0) * CUDNN_STREAMS_PER_GROUP))
    (bias_term_ (base L0)).
Proof.
  intros Hs Hb0 Ht0 Hc0 HG.
  apply LayerSetUp_result in Hs. cbv zeta in Hs.
  destruct Hs as (_ & _ & S3 & _ & S5 & _ & _ & _ & _ & _ & _ & _ & S13 &
    S14 & S15 & _ & _ & _ & _ & _ & _ & S22 & S23 & S24 & S25).
  rewrite Hb0 in S22. rewrite Ht0 in S23. rewrite Hc0 in S24.
  cbn [app] in S22, S23, S24.
  unfold algo_arrays in S15. injection S15 as A1 A2 A3 A4 A5 A6.
  set (G := Z.to_nat (group_ (base L0) * CUDNN_STREAMS_PER_GROUP)) in *.
  set (B := length bottom) in *.
  assert (0 < G)%nat by (unfold G, CUDNN_STREAMS_PER_GROUP; lia).
  unfold ready_for.
  rewrite S22, S23, S24, A1, A2, A3, A4, A5, A6, S13, S14, S25. rnorm.
  rewrite !length_map, !length_seq, !length_replicate.
  split_and!; try done.
  - intros d Hd. rewrite S3.
    apply elem_of_app in Hd as [Hd|Hd];
      apply list_elem_of_fmap in Hd as (i & -> & Hi);
      apply elem_of_seq in Hi.
    + rewrite (st_get_new _ _ (2 * i) None); [done|].
      apply lookup_replicate_2. lia.
    + replace (length (w_tensors w0) + 2 * i + 1)%nat
        with (length (w_tensors w0) + (2 * i + 1))%nat by lia.
      rewrite (st_get_new _ _ (2 * i + 1) None); [done|].
      apply lookup_replicate_2. lia.
  - intros d Hd. rewrite S5.
    apply list_elem_of_fmap in Hd as (i & -> & Hi).
    apply elem_of_seq in Hi.
    rewrite (st_get_new _ _ i None); [done|].
    apply lookup_replicate_2. lia.
  - intros Hb. rewrite S3, Hb.
    rewrite (st_get_new _ _ (2 * B) None); [done|].
    apply lookup_replicate_2. lia.
Qed.

(** Any sequence of well-formed calls returns on a layer that is ready. *)
Lemma Reshape_calls_total (V : Vendor) (b0 : ConvBase) (B G : nat)
    (calls : list Call) :
  answers_queries V -> group_ b0 <> 0 ->
  G = Z.to_nat (group_ b0 * CUDNN_STREAMS_PER_GROUP) ->
  Forall (well_formed_call V b0 B) calls ->
  forall w L,
    ready_for w L B G (bias_term_ b0) ->
    exists tr, Reshape_calls V calls w L = Ok tr /\ length tr = length calls.
Proof.
  intros Ha Hg HG. induction calls as [|c calls IH]; intros Hc w L Hr.
  - by exists [].
  - apply Forall_cons in Hc as [(Hn & [Hcg Hcb] & Hlen & Hloc) Hc].
    destruct (Reshape_total V B G w (set_base (call_base c) L)
                (call_bottom c) (call_top c))
      as (w' & L' & r & E & Hr'); rnorm; try done.
    + by rewrite Hcb.
    + by rewrite Hcg.
    + by rewrite Hcg.
    + rnorm_in Hr'. rewrite Hcb in Hr'.
      destruct (IH Hc w' L' Hr') as (tr & Etr & Hlen').
      exists ((w', L', r) :: tr). cbn [Reshape_calls].
      rewrite E. cbn [obind]. rewrite Etr. cbn [obind length].
      by rewrite Hlen'.
Qed.

(** X16.  The base class's [Reshape] and the helpers [setTensor4dDesc]
    and [setConvolutionDesc] of [cudnn] are outside the file; they are
    taken as the model has them: the base class returns, and a set helper
    succeeds on a descriptor that exists.  Under that condition, and with a
    vendor that answers every query, a layer that was set up on empty
    descriptor vectors with at least one group runs any sequence of
    [Reshape] calls that keep the group count and the bias switch, have
    two spatial axes and no more inputs than the set-up, and whose blobs,
    pads and strides can be read: no call reads a descriptor vector or an
    array out of range or sets a descriptor that does not exist, and every
    call returns, whether its device allocation succeeds or not. *)
Theorem Reshape_calls_run_after_set_up (V : Vendor) (w0 w1 : World)
    (L0 L1 : Layer) (bottom top : list Blob) (calls : list Call) :
  answers_queries V ->
  LayerSetUp V w0 L0 bottom top = Ok (w1, L1) ->
  bottom_descs_ L0 = [] -> top_descs_ L0 = [] -> conv_descs_ L0 = [] ->
  0 < group_ (base L0) ->
  Forall (well_formed_call V (base L0) (length bottom)) calls ->
  exists tr, Reshape_calls V calls w1 L1 = Ok tr /\ length tr = length calls.
Proof.
  intros Ha Hs Hb0 Ht0 Hc0 HG Hc.
  pose proof (LayerSetUp_ready _ _ _ _ _ _ _ Hs Hb0 Ht0 Hc0 HG) as Hr.
  apply (Reshape_calls_total V (base L0) (length bottom)
           (Z.to_nat (group_ (base L0) * CUDNN_STREAMS_PER_GROUP)) calls Ha);
    [lia|reflexivity|done|done].
Qed.

(** The sample vendor answers, and the sample calls are well formed. *)
Lemma V8_answers_queries : answers_queries V8.
Proof.
  unfold answers_queries. cbn [CUDNN_VERSION_MIN_8 V8 vendor].
  split; intros; by eexists.
Qed.

Lemma sample_call_well_formed (h : Z) :
  well_formed_call V8 (conv_base 2 16 2) 1 (call 2 1 h).
Proof.
  unfold well_formed_call. split_and!.
  - reflexivity.
  - split; reflexivity.
  - cbn. lia.
  - intros w. eexists. reflexivity.
Qed.

(** Witness of X16: a set-up and two calls. *)
Lemma Reshape_calls_run_after_set_up_witness :
  exists w1 L1 tr,
    set_up V8 2 1 = Ok (w1, L1) /\
    Reshape_calls V8 [call 2 1 10; call 2 1 5] w1 L1 = Ok tr /\
    length tr = 2%nat.
Proof.
  eexists _, _.
  match goal with
  | |- exists tr, ?S = Ok (?w1, ?L1) /\ _ =>
      assert (Hs : S = Ok (w1, L1)) by (vm_compute; reflexivity)
  end.
  unfold set_up in Hs.
  destruct (Reshape_calls_run_after_set_up V8 _ _ _ _ _ _
              [call 2 1 10; call 2 1 5] V8_answers_queries Hs eq_refl eq_refl
              eq_refl eq_refl)
    as (tr & Htr & Hlen).
  { repeat constructor; apply sample_call_well_formed. }
  exists tr. split; [exact Hs|]. split; [exact Htr | exact Hlen].
Defined.

(** ** Objects of others *)


Lemma st_get_app_l {A} (s l : store A) (i : nat) :
  (i < length s)%nat -> st_get (s ++ l) i = st_get s i.
Proof. intros H. unfold st_get. by rewrite lookup_app_l. Qed.

(** The loops of the destructor leave alone what the layer does not
    name. *)
Lemma destroy_descs_loop_frame (L : Layer) (n : nat) (w w' : World) :
  for_loop (destroy_descs L) (seq 0 n) w = Ok w' ->
  (forall d,
     (forall i, (i < n)%nat ->
        bottom_descs_ L !! i <> Some d /\ top_descs_ L !! i <> Some d) ->
     st_get (w_tensors w') d = st_get (w_tensors w) d) /\
  (forall d,
     (forall i, (i < n)%nat -> conv_descs_ L !! i <> Some d) ->
     st_get (w_convs w') d = st_get (w_convs w) d).
Proof.
  intros H.
  apply (for_loop_seq_inv
    (fun k wk =>
       (forall d,
          (forall i, (i < k)%nat ->
             bottom_descs_ L !! i <> Some d /\ top_descs_ L !! i <> Some d) ->
          st_get (w_tensors wk) d = st_get (w_tensors w) d) /\
       (forall d,
          (forall i, (i < k)%nat -> conv_descs_ L !! i <> Some d) ->
          st_get (w_convs wk) d = st_get (w_convs w) d))) in H;
    [exact H|done|].
  clear H. intros k w1 w2 Hk (Ht & Hc) Hb.
  unfold destroy_descs in Hb.
  apply obind_Ok in Hb as (bd & Ebd & Hb).
  apply obind_Ok in Hb as (td & Etd & Hb).
  apply obind_Ok in Hb as (cd & Ecd & Hb). injection Hb as <-.
  apply index_Ok in Ebd, Etd, Ecd.
  unfold cudnnDestroyConvolutionDescriptor, cudnnDestroyTensorDescriptor.
  rnorm. split.
  - intros d Hd. destruct (Hd k) as [H1 H2]; [lia|].
    rewrite !st_get_del_ne by congruence.
    apply Ht. intros i Hi. apply Hd. lia.
  - intros d Hd. specialize (Hd k) as H1.
    rewrite st_get_del_ne by (intros ->; apply H1; [lia|done]).
    apply Hc. intros i Hi. apply Hd. lia.
Qed.

Lemma destroy_group_loop_frame (L : Layer) (n : nat) (w w' : World) :
  for_loop (destroy_group L) (seq 0 n) w = Ok w' ->
  (forall s,
     (forall g, (g < n)%nat -> arr_data (stream_ L) !! g <> Some s) ->
     st_get (w_streams w') s = st_get (w_streams w) s) /\
  (forall h,
     (forall g, (g < n)%nat -> arr_data (handle_ L) !! g <> Some h) ->
     st_get (w_handles w') h = st_get (w_handles w) h).
Proof.
  intros H.
  apply (for_loop_seq_inv
    (fun k wk =>
       (forall s,
          (forall g, (g < k)%nat -> arr_data (stream_ L) !! g <> Some s) ->
          st_get (w_streams wk) s = st_get (w_streams w) s) /\
       (forall h,
          (forall g, (g < k)%nat -> arr_data (handle_ L) !! g <> Some h) ->
          st_get (w_handles wk) h = st_get (w_handles w) h))) in H;
    [exact H|done|].
  clear H. intros k w1 w2 Hk (Hs & Hh) Hb.
  unfold destroy_group in Hb.
  apply obind_Ok in Hb as (s & Es & Hb).
  apply obind_Ok in Hb as (h & Eh & Hb). injection Hb as <-.
  apply index_Ok in Es, Eh.
  unfold cudnnDestroy, cudaStreamDestroy. rnorm. split.
  - intros s' Hd. specialize (Hd k) as H1.
    rewrite st_get_del_ne by (intros ->; apply H1; [lia|done]).
    apply Hs. intros g Hg. apply Hd. lia.
  - intros h' Hd. specialize (Hd k) as H1.
    rewrite st_get_del_ne by (intros ->; apply H1; [lia|done]).
    apply Hh. intros g Hg. apply Hd. lia.
Qed.

(** [Reshape] sets the descriptors of the layer and no other. *)
Lemma Reshape_keeps_descriptors (V : Vendor) (w w' : World) (L L' : Layer)
    (bottom top : list Blob) (r : realloc) (nt nc : nat) :
  Reshape V w L bottom top = Ok (w', L', r) ->
  (forall d, d ∈ bottom_descs_ L ++ top_descs_ L -> (nt <= d)%nat) ->
  (bias_term_ (base L) = true -> (nt <= bias_desc_ L)%nat) ->
  (forall d, d ∈ conv_descs_ L -> (nc <= d)%nat) ->
  (forall i, (i < nt)%nat ->
     st_get (w_tensors w') i = st_get (w_tensors w) i) /\
  (forall i, (i < nc)%nat -> st_get (w_convs w') i = st_get (w_convs w) i).
Proof.
  intros H Ht Hb Hc.
  pose proof (Reshape_fixed_members _ _ _ _ _ _ _ _ H) as Hf.
  unfold fixed_members in Hf. injection Hf as F1 _ _ _ _ _ _ _ F9 _.
  apply Reshape_stages in H as (_ & wa & La & wb & E1 & E2 & Eb).
  apply Reshape_inputs_Ok in E1 as (_ & lc & _ & _ & _ & E1).
  apply Reshape_inputs_frame in E1 as (_ & _ & _ & _ & _ & _ & Hta & Hca).
  rnorm_in Hta. rnorm_in Hca.
  apply Reshape_workspace_world in E2 as (_ & Ht2 & Hc2).
  pose proof (Reshape_bias_world _ _ _ Eb) as (_ & _ & Hc3).
  split.
  - intros i Hi.
    assert (Hbias : st_get (w_tensors w') i = st_get (w_tensors wb) i).
    { rewrite F1, F9 in Eb. destruct (bias_term_ (base L)).
      - apply setTensor4dDesc_Ok in Eb as [_ ->]. rnorm.
        apply st_get_put_ne. specialize (Hb eq_refl). lia.
      - by subst w'. }
    rewrite Hbias, Ht2. apply Hta. intros j _. split; intros Hj.
    + apply list_elem_of_lookup_2 in Hj.
      assert (nt <= i)%nat by (apply Ht, elem_of_app; by left). lia.
    + apply list_elem_of_lookup_2 in Hj.
      assert (nt <= i)%nat by (apply Ht, elem_of_app; by right). lia.
  - intros i Hi. rewrite Hc3, Hc2. apply Hca. intros j _ Hj.
    apply list_elem_of_lookup_2 in Hj.
    assert (nc <= i)%nat by by apply Hc. lia.
Qed.

(** So does any sequence of calls with the grouping of the set-up. *)
Lemma Reshape_calls_keep_descriptors (V : Vendor) (w1 : World) (L1 : Layer)
    (nt nc : nat) (calls : list Call) :
  (forall d, d ∈ bottom_descs_ L1 ++ top_descs_ L1 -> (nt <= d)%nat) ->
  (bias_term_ (base L1) = true -> (nt <= bias_desc_ L1)%nat) ->
  (forall d, d ∈ conv_descs_ L1 -> (nc <= d)%nat) ->
  forall w L tr,
    holds_objects_of w1 L1 w L ->
    Forall (same_grouping (base L1)) calls ->
    Reshape_calls V calls w L = Ok tr ->
    (forall i, (i < nt)%nat ->
       st_get (w_tensors (last_state w L tr).1) i = st_get (w_tensors w) i) /\
    (forall i, (i < nc)%nat ->
       st_get (w_convs (last_state w L tr).1) i = st_get (w_convs w) i).
Proof.
  intros Ht Hb Hc.
  induction calls as [|c calls IH]; intros w L tr Hh Hcalls H;
    cbn [Reshape_calls] in H.
  - injection H as <-. done.
  - apply obind_Ok in H as ([[w' L'] r] & E & H).
    apply obind_Ok in H as (rest & Er & H). injection H as <-.
    apply Forall_cons in Hcalls as [Hc1 Hcalls].
    pose proof (Reshape_holds _ _ _ _ _ _ _ _ _ Hh Hc1 E) as Hh'.
    destruct (IH _ _ _ Hh' Hcalls Er) as (IHt & IHc).
    destruct Hh as (Hom & _). unfold object_members in Hom.
    injection Hom as _ _ _ _ O5 O6 O7 O8.
    destruct Hc1 as [_ Hcb].
    apply (Reshape_keeps_descriptors _ _ _ _ _ _ _ _ nt nc) in E
      as (Et & Ec); rnorm; rewrite ?O5, ?O6, ?O7, ?O8, ?Hcb; try done.
    assert (Hl : last_state w L ((w', L', r) :: rest)
                 = last_state w' L' rest).
    { unfold last_state. rewrite last_cons.
      by destruct (last rest) as [[[wl Ll] rl]|]. }
    rewrite Hl. split.
    + intros i Hi. rewrite IHt by done. by apply Et.
    + intros i Hi. rewrite IHc by done. by apply Ec.
Qed.

(** X17.  The lifecycle touches only what it made: after a set-up on fresh
    descriptor vectors, any number of [Reshape] calls with the group count
    and the bias switch of the set-up, and the destructor, every stream,
    handle, tensor, filter and convolution descriptor and every heap block
    that existed before the set-up is what it was. *)
Theorem lifecycle_touches_only_its_objects (V : Vendor) (w0 w1 w_end : World)
    (L0 L1 : Layer) (bottom top : list Blob) (calls : list Call)
    (tr : list (World * Layer * realloc)) :
  LayerSetUp V w0 L0 bottom top = Ok (w1, L1) ->
  bottom_descs_ L0 = [] -> top_descs_ L0 = [] -> conv_descs_ L0 = [] ->
  Forall (same_grouping (base L0)) calls ->
  Reshape_calls V calls w1 L1 = Ok tr ->
  destructor (last_state w1 L1 tr).1 (last_state w1 L1 tr).2 = Ok w_end ->
  keeps_objects_of w0 w_end.
Proof.
  intros Hs Hb0 Ht0 Hc0 Hcalls Hr Hd.
  apply LayerSetUp_result in Hs. cbv zeta in Hs.
  destruct Hs as (S1 & S2 & S3 & (kh & kw & _ & _ & S4) & S5 & S6 & S7 & S8 &
    S9 & S10 & S11 & S12 & S13 & S14 & S15 & S16 & _ & _ & _ & _ & S21 &
    S22 & S23 & S24 & S25).
  rewrite Hb0 in S22. rewrite Ht0 in S23. rewrite Hc0 in S24.
  cbn [app] in S22, S23, S24.
  assert (Hh : holds_objects_of w1 L1 w1 L1).
  { unfold holds_objects_of. split_and!; try done. intros b Hb. by left. }
  rewrite <- S8 in Hcalls.
  pose proof (Reshape_calls_hold V w1 L1 calls w1 L1 tr Hh Hcalls Hr) as Hn.
  assert (Hkd := Reshape_calls_keep_descriptors V w1 L1
                   (length (w_tensors w0)) (length (w_convs w0)) calls).
  destruct (Hkd) with (w := w1) (L := L1) (tr := tr) as (Kt & Kc);
    try done.
  { intros d Hin. rewrite S22, S23 in Hin.
    apply elem_of_app in Hin as [Hin|Hin];
      apply list_elem_of_fmap in Hin as (i & -> & _); lia. }
  { intros Hbias. rewrite S25. rewrite S8 in Hbias. rewrite Hbias. lia. }
  { intros d Hin. rewrite S24 in Hin.
    apply list_elem_of_fmap in Hin as (i & -> & _). lia. }
  clear Hkd.
  destruct (last_state w1 L1 tr) as [wn Ln]. cbn [fst snd] in *.
  destruct Hn as (Hom & Hg & Hbt & Has & Hws & Hv & Hlt & Hlc & Hgpu).
  unfold object_members in Hom.
  injection Hom as O1 O2 O3 O4 O5 O6 O7 O8.
  unfold algo_arrays in S15. injection S15 as A1 A2 A3 A4 A5 A6.
  injection S16 as I1 I2 I3.
  unfold algo_arrays_shape in Has.
  injection Has as B1 _ B2 _ B3 _ B4 _ B5 _ B6 _.
  unfold vendor_objects in Hv. injection Hv as V1 V2 V3 V4.
  unfold destructor in Hd. rewrite O1, S9 in Hd. cbn [negb] in Hd.
  apply obind_Ok in Hd as (wa & Ea & Hd).
  apply obind_Ok in Hd as (wb & Eb & Hd). injection Hd as <-.
  pose proof (destroy_descs_loop_frame _ _ _ _ Ea) as (Fta & Fca).
  pose proof (destroy_group_loop_frame _ _ _ _ Eb) as (Fsb & Fhb).
  apply destroy_descs_loop in Ea as (Hva & _).
  apply destroy_group_loop in Eb as (Htb & Hfb & Hcb & _ & Hhb & _).
  unfold vendor_objects in Hva. injection Hva as Va1 Va2 Va3 Va4.
  unfold keeps_objects_of, delete_array, cudaFree. rnorm.
  split_and!; intros i Hi.
  - rewrite Fsb.
    + unfold cudnnDestroyFilterDescriptor, cudnnDestroyTensorDescriptor.
      destruct (bias_term_ (base Ln)); rnorm; rewrite Va1, V1, S1;
        by apply st_get_app_l.
    + intros g _ Hg'. rewrite O2, S12 in Hg'.
      apply list_elem_of_lookup_2, list_elem_of_fmap in Hg' as (k & -> & _).
      lia.
  - rewrite Fhb.
    + unfold cudnnDestroyFilterDescriptor, cudnnDestroyTensorDescriptor.
      destruct (bias_term_ (base Ln)); rnorm; rewrite Va2, V2, S2;
        by apply st_get_app_l.
    + intros g _ Hg'. rewrite O3, S13 in Hg'.
      apply list_elem_of_lookup_2, list_elem_of_fmap in Hg' as (k & -> & _).
      lia.
  - rewrite Htb.
    assert (Ha : st_get (w_tensors wa) i = st_get (w_tensors w0) i).
    { rewrite Fta.
      - rewrite Kt by done. rewrite S3. by apply st_get_app_l.
      - intros j _. rewrite O5, O6, S22, S23. split; intros Hj;
          apply list_elem_of_lookup_2, list_elem_of_fmap in Hj
            as (k & -> & _); lia. }
    unfold cudnnDestroyFilterDescriptor, cudnnDestroyTensorDescriptor.
    rewrite Hbt, S8, O8, S25.
    destruct (bias_term_ (base L0)); rnorm; [|done].
    rewrite st_get_del_ne by lia. done.
  - rewrite Hfb.
    unfold cudnnDestroyFilterDescriptor, cudnnDestroyTensorDescriptor.
    rewrite O4, S21.
    destruct (bias_term_ (base Ln)); rnorm;
      (rewrite st_get_del_ne by lia); rewrite Va3, V3, S4;
      by apply st_get_app_l.
  - rewrite Hcb.
    assert (Ha : st_get (w_convs wa) i = st_get (w_convs w0) i).
    { rewrite Fca.
      - rewrite Kc by done. rewrite S5. by apply st_get_app_l.
      - intros j _. rewrite O7, S24. intros Hj.
        apply list_elem_of_lookup_2, list_elem_of_fmap in Hj
          as (k & -> & _). lia. }
    unfold cudnnDestroyFilterDescriptor, cudnnDestroyTensorDescriptor.
    by destruct (bias_term_ (base Ln)); rnorm.
  - rewrite B1, B2, B3, B4, B5, B6, O2, O3, A1, A2, A3, A4, A5, A6, I1, I2.
    rnorm. rewrite !st_get_del_ne by lia. rewrite Hhb.
    unfold cudnnDestroyFilterDescriptor, cudnnDestroyTensorDescriptor.
    destruct (bias_term_ (base Ln)); rnorm; rewrite Va4, V4, S7;
      by apply st_get_app_l.
Qed.

(** Witness of X17: a second layer with 2 groups and 1 input, set up in the
    world that holds the objects of a first one, reshaped twice and
    destroyed. *)
Lemma lifecycle_touches_only_its_objects_witness :
  exists w0 La w1 L1 tr w_end,
    set_up V8 2 1 = Ok (w0, La) /\
    LayerSetUp V8 w0 (fresh_layer (conv_base 2 16 2))
      (blobs 1 4 16) (blobs 1 8 16) = Ok (w1, L1) /\
    Reshape_calls V8 [call 2 1 10; call 2 1 5] w1 L1 = Ok tr /\
    destructor (last_state w1 L1 tr).1 (last_state w1 L1 tr).2 = Ok w_end /\
    (0 < length (w_streams w0))%nat /\
    keeps_objects_of w0 w_end.
Proof.
  eexists _, _, _, _, _, _.
  match goal with
  | |- ?S0 = Ok (?w0, ?La) /\ ?S = Ok (?w1, ?L1) /\ ?R = Ok ?tr /\
       ?D = Ok ?we /\ _ =>
      assert (Hs0 : S0 = Ok (w0, La)) by (vm_compute; reflexivity);
      assert (Hs : S = Ok (w1, L1)) by (vm_compute; reflexivity);
      assert (Hr : R = Ok tr) by (vm_compute; reflexivity);
      assert (Hd : D = Ok we) by (vm_compute; reflexivity)
  end.
  split; [exact Hs0|]. split; [exact Hs|]. split; [exact Hr|].
  split; [exact Hd|]. split; [cbn; lia|].
  assert (Hc : Forall (same_grouping (base (fresh_layer (conv_base 2 16 2))))
                      [call 2 1 10; call 2 1 5]) by (repeat constructor).
  exact (lifecycle_touches_only_its_objects _ _ _ _ _ _ _ _ _ _ Hs
           eq_refl eq_refl eq_refl Hc Hr Hd).
Defined.
